(** * AutomatizaSimuATP: PL4 decoding, cropping, export and the job runners

    A shallow embedding of the Python sources
      - [f_readpl4.py]        (the PL4 decoder, the crop helpers, the parquet export),
      - [step3_Pl42Parquet.py] (the [Pl4Processor] crop helpers),
      - [RodaeCriaPl4.py]     (the ATP batch runner),
      - [Pl4paraMatlab.py]    (the PL4 to MAT runner),
      - [CriaCartao.py]       (the card generator),
    followed by the properties established about them.

    Conventions.  Python [int] is [Z]; Python [float] is an IEEE-754 binary64
    value, written as a [spec_float] and computed with the operations of
    [SpecFloat] at precision 53; a raised exception is the [Raise] branch of
    [result]; a [dict] whose keys are fixed by the code is a record of
    optional fields; the outside world (clock, directory listings, process
    outcomes) is read from explicit oracles. *)

From Stdlib Require Import ZArith List Bool Lia String Ascii.
From Stdlib Require Import Strings.Byte.
From Stdlib Require Import Floats.SpecFloat.
From stdpp Require Import base list strings gmap pretty.

Local Open Scope Z_scope.

(** ** Python values shared by all modules *)

Module Py.

(** The exception classes the modelled code can raise. *)
Inductive exn :=
| StructError                    (* struct.error *)
| ValueError (msg : string)
| OverflowError
| KeyError (key : string)
| IndexError
| TimeoutError (msg : string)
| RuntimeError (msg : string)
| FileNotFoundError
| FileExistsError
| OSError
| TimeoutExpired.                (* subprocess.TimeoutExpired *)

Inductive result (A : Type) :=
| Ok (a : A)
| Raise (e : exn).
Arguments Ok {A} a.
Arguments Raise {A} e.

Definition bind {A B} (r : result A) (k : A -> result B) : result B :=
  match r with
  | Ok a => k a
  | Raise e => Raise e
  end.

Definition is_ok {A} (r : result A) : bool :=
  match r with Ok _ => true | Raise _ => false end.

(** *** Floats *)

Definition float := spec_float.

Definition fmul : float -> float -> float := SFmul 53 1024.
Definition flt : float -> float -> bool := SFltb.
Definition fzero : float := S754_zero false.

(** [float(z)] for a Python int, as performed by [int * float]:
    round to nearest even, [OverflowError] when the rounded value would
    leave the range of the finite doubles. *)
Definition float_of_int (z : Z) : result float :=
  if 2 ^ 1024 - 2 ^ 970 <=? Z.abs z then Raise OverflowError
  else Ok (binary_normalize 53 1024 z 0 false).

(** [z * f] with [z] an int and [f] a float. *)
Definition int_mul_float (z : Z) (f : float) : result float :=
  bind (float_of_int z) (fun zf => Ok (fmul zf f)).

(** [int(f)]: truncation toward zero; [ValueError] on NaN,
    [OverflowError] on an infinity. *)
Definition int_of_float (f : float) : result Z :=
  match f with
  | S754_nan => Raise (ValueError "cannot convert float NaN to integer")
  | S754_infinity _ => Raise OverflowError
  | S754_zero _ => Ok 0
  | S754_finite s m e => Ok (cond_Zopp s (Z.shiftl (Z.pos m) e))
  end.

(** The largest integer not above a finite float ([math.floor]). *)
Definition floor_of_float (f : float) : option Z :=
  match f with
  | S754_zero _ => Some 0
  | S754_finite false m e => Some (Z.shiftl (Z.pos m) e)
  | S754_finite true m e => Some (Z.shiftl (Z.neg m) e)
  | _ => None
  end.

(** The value denoted by a 32-bit pattern read as IEEE-754 binary32. *)
Definition b32_of_bits (w : Z) : float :=
  let s := Z.testbit w 31 in
  let ebits := (w / 2 ^ 23) mod 256 in
  let mant := w mod 2 ^ 23 in
  if ebits =? 0 then
    match mant with
    | Z.pos m => S754_finite s m (-149)
    | _ => S754_zero s
    end
  else if ebits =? 255 then
    (if mant =? 0 then S754_infinity s else S754_nan)
  else
    match mant + 2 ^ 23 with
    | Z.pos m => S754_finite s m (ebits - 150)
    | _ => S754_nan
    end.

(** A binary32 value widened to a Python float (exact). *)
Definition widen (f : float) : float := SFldexp 53 1024 f 0.

(** *** Strings *)

(** [s.lower()] on text given by its bytes: the ASCII capitals become
    small letters, every other byte is left as it is. *)
Definition lower_ascii (c : ascii) : ascii :=
  let n := nat_of_ascii c in
  if ((65 <=? n) && (n <=? 90))%nat then ascii_of_nat (n + 32) else c.

Fixpoint lower (s : string) : string :=
  match s with
  | EmptyString => EmptyString
  | String c r => String (lower_ascii c) (lower r)
  end.

(** [str(n)] for a natural number. *)
Definition str_nat (n : nat) : string := pretty n.
Definition str_Z (z : Z) : string := pretty z.

(** [l[lo:hi]] for [0 <= lo <= hi]. *)
Definition slice {A} (l : list A) (lo hi : nat) : list A :=
  take (hi - lo) (drop lo l).

End Py.

Export Py.

Notation "x <- r ;; k" := (Py.bind r (fun x => k))
  (at level 100, r at next level, right associativity, only parsing).

(** ** NumPy arrays, as far as the code inspects them *)

Module Np.

(** An array is known by its number of dimensions, its shape and its
    elements.  A matrix keeps its column count beside the rows, so that
    [shape[1]] is defined for a matrix without rows. *)
Inductive ndarray :=
| Nd0 (x : float)
| Nd1 (v : list float)
| Nd2 (ncols : nat) (rows : list (list float))
| NdN (shape : list nat) (flat : list float).

Definition ndim (a : ndarray) : nat :=
  match a with
  | Nd0 _ => 0
  | Nd1 _ => 1
  | Nd2 _ _ => 2
  | NdN shape _ => length shape
  end.

Definition shape (a : ndarray) : list nat :=
  match a with
  | Nd0 _ => []
  | Nd1 v => [length v]
  | Nd2 ncols rows => [length rows; ncols]
  | NdN shape _ => shape
  end.

(** [a.shape[i]] where the code has already checked [ndim]. *)
Definition shape_at (a : ndarray) (i : nat) : nat := nth i (shape a) 0%nat.

(** Every row of a matrix has [ncols] elements. *)
Definition wf (a : ndarray) : Prop :=
  match a with
  | Nd2 ncols rows => Forall (fun r => length r = ncols) rows
  | NdN shape flat => (3 <= length shape)%nat
  | _ => True
  end.

(** [np.ravel(a)]: the elements in row-major order. *)
Definition ravel (a : ndarray) : list float :=
  match a with
  | Nd0 x => [x]
  | Nd1 v => v
  | Nd2 _ rows => concat rows
  | NdN _ flat => flat
  end.

(** [x[n:]] and [x[:-n]] on a list, for [0 < n < len(x)]. *)
Definition from_n {A} (n : nat) (x : list A) : list A := drop n x.
Definition upto_neg_n {A} (n : nat) (x : list A) : list A := take (length x - n) x.

(** The [i]-th column of a list of rows. *)
Definition column (i : nat) (rows : list (list float)) : list float :=
  omap (fun r => r !! i) rows.

(** [m.T] for a matrix given by its rows. *)
Definition transpose (ncols : nat) (rows : list (list float)) : list (list float) :=
  map (fun i => column i rows) (seq 0 ncols).

(** [n] consecutive chunks of [k] elements. *)
Fixpoint chunks {A} (k n : nat) (l : list A) : list (list A) :=
  match n with
  | O => []
  | S n' => take k l :: chunks k n' (drop k l)
  end.

(** The array of shape [shape] over the elements [flat]. *)
Definition reshape (shape : list nat) (flat : list float) : ndarray :=
  match shape with
  | [n] => Nd1 flat
  | [r; c] => Nd2 c (chunks c r flat)
  | _ => NdN shape flat
  end.

(** [a[i, :]]: [IndexError] when the array has fewer than two
    dimensions or fewer than [i + 1] rows. *)
Definition index_first (a : ndarray) (i : nat) : result ndarray :=
  match a with
  | Nd0 _ | Nd1 _ => Raise IndexError
  | Nd2 _ rows =>
      match rows !! i with
      | Some r => Ok (Nd1 r)
      | None => Raise IndexError
      end
  | NdN shape flat =>
      match shape with
      | n0 :: rest =>
          let block := foldr Nat.mul 1%nat rest in
          if (i <? n0)%nat
          then Ok (reshape rest (take block (drop (i * block) flat)))
          else Raise IndexError
      | [] => Raise IndexError
      end
  end.

End Np.

Export Np.

(** ** [f_readpl4.py]: the PL4 decoder *)

Module F_readpl4.

(** One entry of [var_info]. *)
Record var := {
  TYPE : Z;
  FROM : string;
  TO : string;
  TYPE_NAME : string
}.

(** The dictionary [readpl4] returns and the crop helpers and the export
    consume ("completo").  A key that is absent is [None]. *)
Record full_dict := {
  data : option ndarray;
  time : option ndarray;
  method : option string;
  n_channels : option Z;
  n_samples : option Z;
  delta_t : option float;
  tmax : option float;
  var_info : option (list var);
  measurement_nodes : option (list string);
  type_signals : option (list string);
  labels : option (list string)
}.

(** The local dictionary [misc] of [readpl4]. *)
Record misc := {
  misc_deltat : float;
  misc_nvar : Z;
  misc_pl4size : Z;
  misc_steps : Z;
  misc_tmax : float
}.

(** A little-endian unsigned integer. *)
Definition le_uint (bs : list byte) : Z :=
  foldr (fun b acc => Z.of_N (Byte.to_N b) + 256 * acc) 0 bs.

(** [struct.unpack("<L", bs)[0]] and [struct.unpack("<f", bs)[0]]:
    [struct.error] unless exactly four bytes are passed. *)
Definition unpack_L (bs : list byte) : result Z :=
  if (length bs =? 4)%nat then Ok (le_uint bs) else Raise StructError.

Definition unpack_f (bs : list byte) : result float :=
  if (length bs =? 4)%nat then Ok (widen (b32_of_bits (le_uint bs)))
  else Raise StructError.

(** [int(c)] for a [bytes] object of length one: an ASCII digit or
    [ValueError]. *)
Definition int_of_char (c : byte) : result Z :=
  let n := Z.of_N (Byte.to_N c) in
  if (48 <=? n) && (n <=? 57) then Ok (n - 48)
  else Raise (ValueError "invalid literal for int()").

(** [type_map.get(t, f"Type-{t}")]. *)
Definition type_map_get (t : Z) : string :=
  if t =? 4 then "V-node"
  else if t =? 7 then "E-bran"
  else if t =? 8 then "V-bran"
  else if t =? 9 then "I-bran"
  else "Type-" +:+ str_Z t.

(** [np.memmap(f, dtype=float32, mode="r", shape=(nrows, ncols), offset)]
    followed by [np.array].  numpy maps [offset + nrows * ncols * 4] bytes
    of the file, counted from the last multiple of
    [mmap.ALLOCATIONGRANULARITY] that is not past [offset]: a negative
    length is the [OverflowError] of [mmap.mmap], a region that runs past
    the end of the file its [ValueError]; the array over the mapping
    then refuses a negative dimension with [ValueError].  The texts of
    the messages vary with the versions of the libraries. *)
Definition np_memmap (granularity : positive) (file : list byte)
           (nrows ncols offset : Z) : result (list (list float)) :=
  let bytes := offset + nrows * ncols * 4 in
  let start := offset - offset mod Z.pos granularity in
  if bytes - start <? 0 then Raise OverflowError
  else if Z.of_nat (length file) <? bytes
  then Raise (ValueError "mmap length is greater than file size")
  else if (nrows <? 0) || (ncols <? 0)
  then Raise (ValueError "negative dimensions are not allowed")
  else
    let region := drop (Z.to_nat offset) file in
    let words := chunks 4 (Z.to_nat (nrows * ncols)) region in
    let values := map (fun w => b32_of_bits (le_uint w)) words in
    Ok (chunks (Z.to_nat ncols) (Z.to_nat nrows) values).

Section Decoder.

(** [bs.decode('utf-8', errors='ignore').strip()], the text decoding of
    the standard library, is a parameter of the decoder. *)
Variable decode_strip : list byte -> string.

(** [mmap.ALLOCATIONGRANULARITY], a constant of the platform. *)
Variable granularity : positive.

(** Lines 148-156: the header fields. *)
Definition read_header (pl4 : list byte) : result misc :=
  deltat <- unpack_f (slice pl4 40 44) ;;
  raw_nvar <- unpack_L (slice pl4 48 52) ;;
  let nvar := raw_nvar / 2 in
  raw_size <- unpack_L (slice pl4 56 60) ;;
  let pl4size := raw_size - 1 in
  let steps := (pl4size - 5 * 16 - nvar * 16) / ((nvar + 1) * 4) in
  tmax <- int_mul_float (steps - 1) deltat ;;
  Ok {| misc_deltat := deltat; misc_nvar := nvar; misc_pl4size := pl4size;
        misc_steps := steps; misc_tmax := tmax |}.

(** Lines 161-167: one descriptor, [struct.unpack("3x1c6s6s", ...)]. *)
Definition read_var (pl4 : list byte) (i : nat) : result var :=
  let pos := (5 * 16 + i * 16)%nat in
  let h := slice pl4 pos (pos + 16) in
  if (length h =? 16)%nat then
    match h !! 3%nat with
    | Some c =>
        ty <- int_of_char c ;;
        Ok {| TYPE := ty;
              FROM := decode_strip (slice h 4 10);
              TO := decode_strip (slice h 10 16);
              TYPE_NAME := type_map_get ty |}
    | None => Raise StructError
    end
  else Raise StructError.

Fixpoint read_vars (pl4 : list byte) (idxs : list nat) : result (list var) :=
  match idxs with
  | [] => Ok []
  | i :: rest =>
      v <- read_var pl4 i ;;
      vs <- read_vars pl4 rest ;;
      Ok (v :: vs)
  end.

Definition label_of (v : var) : string :=
  FROM v +:+ "-" +:+ TO v +:+ " (" +:+ TYPE_NAME v +:+ ")".

(** [readpl4], applied to the content of the file. *)
Definition readpl4 (pl4 : list byte) : result full_dict :=
  if (length pl4 =? 0)%nat then Raise (ValueError "cannot mmap an empty file")
  else
    misc <- read_header pl4 ;;
    let nvar := misc_nvar misc in
    let steps := misc_steps misc in
    vars <- read_vars pl4 (seq 0 (Z.to_nat nvar)) ;;
    let expsize := (5 + nvar) * 16 + steps * (nvar + 1) * 4 in
    let nullbytes :=
      if expsize <? misc_pl4size misc then misc_pl4size misc - expsize else 0 in
    data_array <- np_memmap granularity pl4 steps (nvar + 1) ((5 + nvar) * 16 + nullbytes) ;;
    let time := column 0 data_array in
    let data_matrix :=
      transpose (Z.to_nat nvar) (map (drop 1) data_array) in
    Ok {| data := Some (Nd2 (Z.to_nat steps) data_matrix);
          time := Some (Nd1 time);
          method := Some "readpl4_mmap_based";
          n_channels := Some nvar;
          n_samples := Some steps;
          delta_t := Some (misc_deltat misc);
          tmax := Some (misc_tmax misc);
          var_info := Some vars;
          measurement_nodes := Some (map FROM vars);
          type_signals := Some (map TYPE_NAME vars);
          labels := Some (map label_of vars) |}.

End Decoder.

(** *** The crop helpers (lines 23-124) *)

(** The keyword arguments of the crop helpers and of the export. *)
Record cut := {
  remover_amostras : bool;
  fs_por_ciclo : Z;
  freq_rede_hz : float;
  tempo_remover_s : float;
  remover_de : string
}.

(** Lines 23-33.  Any exception of the conversion gives [n = 0]. *)
Definition _calc_n_remover (fs_por_ciclo : Z) (freq_rede_hz tempo_remover_s : float) : Z :=
  let n :=
    match (p <- int_mul_float fs_por_ciclo freq_rede_hz ;;
           int_of_float (fmul p tempo_remover_s)) with
    | Ok n => n
    | Raise _ => 0
    end in
  Z.max n 0.

(** [remover_amostras and tempo_remover_s > 0]. *)
Definition cut_enabled (c : cut) : bool :=
  remover_amostras c && flt fzero (tempo_remover_s c).

Definition is_fim (remover_de : string) : bool :=
  String.eqb (lower remover_de) "fim".

(** [x[:-n_drop]] when [fim], [x[n_drop:]] otherwise, along the last axis
    of a vector or of a matrix. *)
Definition corta_list {A} (fim : bool) (n_drop : nat) (x : list A) : list A :=
  if fim then upto_neg_n n_drop x else from_n n_drop x.

Definition corta (fim : bool) (n_drop : nat) (a : ndarray) : ndarray :=
  match a with
  | Nd1 v => Nd1 (corta_list fim n_drop v)
  | Nd2 ncols rows => Nd2 (ncols - n_drop) (map (corta_list fim n_drop) rows)
  | other => other
  end.

(** Lines 36-80. *)
Definition _apply_cut_full_dict (data_dict : full_dict) (c : cut) : result full_dict :=
  if negb (cut_enabled c) then Ok data_dict
  else
    match time data_dict, data data_dict with
    | Some time_a, Some data_a =>
        if negb (ndim time_a =? 1)%nat || negb (ndim data_a =? 2)%nat
           || negb (shape_at data_a 1 =? shape_at time_a 0)%nat
        then Ok data_dict
        else
          let n_drop := _calc_n_remover (fs_por_ciclo c) (freq_rede_hz c) (tempo_remover_s c) in
          let N := Z.of_nat (shape_at time_a 0) in
          if (n_drop <=? 0) || (N <=? n_drop) then Ok data_dict
          else
            let fim := is_fim (remover_de c) in
            let time_new := corta fim (Z.to_nat n_drop) time_a in
            let data_new := corta fim (Z.to_nat n_drop) data_a in
            let n_new := Z.of_nat (shape_at time_new 0) in
            match delta_t data_dict with
            | Some dt =>
                t <- int_mul_float (n_new - 1) dt ;;
                Ok {| data := Some data_new; time := Some time_new;
                      method := method data_dict;
                      n_channels := n_channels data_dict;
                      n_samples := Some n_new;
                      delta_t := Some dt;
                      tmax := Some t;
                      var_info := var_info data_dict;
                      measurement_nodes := measurement_nodes data_dict;
                      type_signals := type_signals data_dict;
                      labels := labels data_dict |}
            | None =>
                Ok {| data := Some data_new; time := Some time_new;
                      method := method data_dict;
                      n_channels := n_channels data_dict;
                      n_samples := Some n_new;
                      delta_t := None;
                      tmax := tmax data_dict;
                      var_info := var_info data_dict;
                      measurement_nodes := measurement_nodes data_dict;
                      type_signals := type_signals data_dict;
                      labels := labels data_dict |}
            end
    | _, _ => Ok data_dict
    end.

(** The dictionary "de interesse": the series by name, in insertion
    order.  The keys of a dictionary are pairwise distinct. *)
Definition interest_dict := list (string * ndarray).

Definition keys (d : interest_dict) : list string := map fst d.

Definition has_key (k : string) (d : interest_dict) : bool :=
  existsb (String.eqb k) (keys d).

Fixpoint get (k : string) (d : interest_dict) : option ndarray :=
  match d with
  | [] => None
  | (k', v) :: rest => if String.eqb k k' then Some v else get k rest
  end.

(** Lines 83-124. *)
Definition _apply_cut_interest_dict (data_dict : interest_dict) (c : cut) : interest_dict :=
  if negb (cut_enabled c) then data_dict
  else
    let time_key :=
      if has_key "time" data_dict then Some "time"
      else if has_key "tempo" data_dict then Some "tempo" else None in
    match time_key with
    | None => data_dict
    | Some tk =>
        match get tk data_dict with
        | None => data_dict
        | Some t =>
            if negb (ndim t =? 1)%nat then data_dict
            else
              let N := shape_at t 0 in
              let n_drop := _calc_n_remover (fs_por_ciclo c) (freq_rede_hz c) (tempo_remover_s c) in
              if (n_drop <=? 0) || (Z.of_nat N <=? n_drop) then data_dict
              else
                map (fun kv : string * ndarray =>
                       let (k, v) := kv in
                       if (ndim v =? 1)%nat && (shape_at v 0 =? N)%nat
                       then (k, corta (is_fim (remover_de c)) (Z.to_nat n_drop) v)
                       else (k, v))
                    data_dict
        end
    end.

(** *** The parquet export (lines 229-391) *)

(** A [pandas.DataFrame]: the column labels, the length of the index and
    the values of each column. *)
Record DataFrame := {
  columns : list string;
  index_len : nat;
  values : list (list float)
}.

(** [Counter(labels)]. *)
Definition Counter (labels : list string) : gmap string nat :=
  foldl (fun m lbl => <[lbl := S (default 0%nat (m !! lbl))]> m) ∅ labels.

(** [any(v > 1 for v in counts.values())]. *)
Definition any_repeated (counts : gmap string nat) : bool :=
  existsb (fun kv : string * nat => (1 <? kv.2)%nat) (map_to_list counts).

(** The renaming loop of lines 345-353 (and 371-378), with the
    dictionary [seen] threaded through. *)
Fixpoint rename_loop (counts seen : gmap string nat) (labels : list string)
  : list string :=
  match labels with
  | [] => []
  | lbl :: rest =>
      if (1 <? default 0%nat (counts !! lbl))%nat then
        let k := (default 0%nat (seen !! lbl) + 1)%nat in
        (lbl +:+ "_" +:+ str_nat k) :: rename_loop counts (<[lbl := k]> seen) rest
      else lbl :: rename_loop counts seen rest
  end.

(** Lines 343-353: the labels after the duplicate handling. *)
Definition rename_duplicates (labels : list string) : list string :=
  let counts := Counter labels in
  if any_repeated counts then rename_loop counts ∅ labels else labels.

Definition nan : float := S754_nan.

(** [pd.DataFrame(data.T, columns=labels)] for an array [data]. *)
Definition DataFrame_of_array (data_a : ndarray) (labels : list string)
  : result DataFrame :=
  match data_a with
  | Nd2 ncols rows =>
      if (length labels =? length rows)%nat
      then Ok {| columns := labels; index_len := ncols; values := rows |}
      else Raise (ValueError "Shape of passed values does not match the indices")
  | Nd1 v =>
      if (length labels =? 1)%nat
      then Ok {| columns := labels; index_len := length v; values := [v] |}
      else Raise (ValueError "Shape of passed values does not match the indices")
  | _ => Raise (ValueError "Must pass 2-d input")
  end.

(** [pd.DataFrame(frame)] for a dictionary of series of one length. *)
Definition DataFrame_of_frame (frame : list (string * list float)) : DataFrame :=
  {| columns := map fst frame;
     index_len := match frame with [] => 0%nat | (_, v) :: _ => length v end;
     values := map snd frame |}.

(** [df.insert(0, column, value)]: the label must be new; a frame with
    an empty index takes the index of the inserted column. *)
Definition df_insert_first (column : string) (value : list float) (df : DataFrame)
  : result DataFrame :=
  if existsb (String.eqb column) (columns df)
  then Raise (ValueError ("cannot insert " +:+ column +:+ ", already exists"))
  else if (index_len df =? 0)%nat && (0 <? length value)%nat
  then Ok {| columns := column :: columns df;
             index_len := length value;
             values := value :: map (fun _ => replicate (length value) nan) (values df) |}
  else if (length value =? index_len df)%nat
  then Ok {| columns := column :: columns df;
             index_len := index_len df;
             values := value :: values df |}
  else Raise (ValueError "Length of values does not match length of index").

(** The files below the output folder, by path. *)
Abbreviation files := (gmap string DataFrame).

(** [df.to_parquet(path, index=False)]: the column names of a parquet
    table are pairwise distinct. *)
Definition to_parquet (fs : files) (path : string) (df : DataFrame)
  : files * result unit :=
  if bool_decide (NoDup (columns df))
  then (<[path := df]> fs, Ok tt)
  else (fs, Raise (ValueError "Duplicate column names found")).

(** The message of line 367. *)
Definition msg_tamanho (k : string) (len_v : nat) (time_key : string) (len_time : nat)
  : string :=
  "Tamanho inconsistente entre '" +:+ k +:+ "' (" +:+ str_nat len_v +:+ ") e '"
    +:+ time_key +:+ "' (" +:+ str_nat len_time +:+ ").".

(** Lines 363-368: the loop that fills [frame]. *)
Fixpoint build_frame (time_key : string) (len_time : nat)
         (cols : list (string * ndarray)) : result (list (string * list float)) :=
  match cols with
  | [] => Ok []
  | (k, a) :: rest =>
      let v := ravel a in
      if negb (length v =? len_time)%nat
      then Raise (ValueError (msg_tamanho k (length v) time_key len_time))
      else
        frame <- build_frame time_key len_time rest ;;
        Ok ((k, v) :: frame)
  end.

(** [frame[k] = v] on the dictionary built by a comprehension (line 379):
    a later binding of a key replaces the value of the earlier one. *)
Fixpoint dict_set {V} (k : string) (v : V) (d : list (string * V)) : list (string * V) :=
  match d with
  | [] => [(k, v)]
  | (k', v') :: rest =>
      if String.eqb k k' then (k', v) :: rest else (k', v') :: dict_set k v rest
  end.

Definition dict_of_pairs {V} (kvs : list (string * V)) : list (string * V) :=
  foldl (fun d kv => dict_set kv.1 kv.2 d) [] kvs.

(** The argument [data_dict]: callers pass the complete dictionary with
    [usar_variaveis_interesse=False] and the dictionary of series with
    [usar_variaveis_interesse=True]; the constructor carries the mode. *)
Inductive export_arg :=
| Completo (d : full_dict)
| Interesse (d : interest_dict).

(** Lines 339-356: "Caso A". *)
Definition frame_completo (data_dict : full_dict) : result DataFrame :=
  let time_v := match time data_dict with Some t => ravel t | None => [] end in
  match data data_dict with
  | None => Raise (KeyError "data")
  | Some data_a =>
      match labels data_dict with
      | None => Raise (KeyError "labels")
      | Some lbls =>
          df <- DataFrame_of_array data_a (rename_duplicates lbls) ;;
          df_insert_first "time" time_v df
      end
  end.

(** Lines 359-382: "Caso B". *)
Definition frame_interesse (data_dict : interest_dict) : result DataFrame :=
  let time_key := if has_key "time" data_dict then "time" else "tempo" in
  match get time_key data_dict with
  | None => Raise (KeyError time_key)
  | Some t =>
      let time_v := ravel t in
      let cols := List.filter (fun kv : string * ndarray => negb (String.eqb kv.1 time_key))
                              data_dict in
      frame <- build_frame time_key (length time_v) cols ;;
      let names := map fst cols in
      let counts := Counter names in
      let frame :=
        if any_repeated counts
        then dict_of_pairs (combine (rename_loop counts ∅ names) (map snd frame))
        else frame in
      df_insert_first "time" time_v (DataFrame_of_frame frame)
  end.

(** [save_results_parquet]: the files afterwards and either the returned
    triple [(parquet_path, df.shape[0], list(df.columns))] or the
    exception, which the handler of line 389 prints and raises again. *)
Definition save_results_parquet (fs : files) (output_path : string)
           (data_dict : export_arg) (c : cut)
  : files * result (string * nat * list string) :=
  let parquet_path := output_path in
  let df :=
    match data_dict with
    | Interesse d => frame_interesse (_apply_cut_interest_dict d c)
    | Completo d =>
        d' <- _apply_cut_full_dict d c ;;
        frame_completo d'
    end in
  match df with
  | Raise e => (fs, Raise e)
  | Ok df =>
      match to_parquet fs parquet_path df with
      | (fs', Ok _) => (fs', Ok (parquet_path, index_len df, columns df))
      | (fs', Raise e) => (fs', Raise e)
      end
  end.

End F_readpl4.

(** ** [step3_Pl42Parquet.py]: the crop helpers of [Pl4Processor] *)

Module Step3_Pl42Parquet.

Import F_readpl4.

(** The attributes of [Pl4Processor] that the crop helpers read. *)
Record Pl4Processor := {
  self_remover_amostras : bool;
  self_fs_por_ciclo : Z;
  self_freq_rede_hz : float;
  self_tempo_remover_s : float;
  self_remover_de : string;
  self_salvar_todas : bool;
  self_nomes_interesse : option (list string)
}.

(** The ASCII white space that [str.strip()] removes. *)
Definition is_space (c : ascii) : bool :=
  let n := nat_of_ascii c in
  ((9 <=? n) && (n <=? 13) || (28 <=? n) && (n <=? 32))%nat.

Fixpoint lstrip (s : string) : string :=
  match s with
  | String c r => if is_space c then lstrip r else s
  | EmptyString => EmptyString
  end.

Definition strip (s : string) : string :=
  String.rev (lstrip (String.rev (lstrip s))).

(** [__init__]: [self.remover_de = str(remover_de).lower().strip()] and
    [self.nomes_interesse = list(nomes_interesse) if nomes_interesse else None]. *)
Definition init (salvar_todas remover_amostras : bool) (fs_por_ciclo : Z)
           (freq_rede_hz tempo_remover_s : float) (remover_de : string)
           (nomes_interesse : option (list string)) : Pl4Processor :=
  {| self_remover_amostras := remover_amostras;
     self_fs_por_ciclo := fs_por_ciclo;
     self_freq_rede_hz := freq_rede_hz;
     self_tempo_remover_s := tempo_remover_s;
     self_remover_de := strip (lower remover_de);
     self_salvar_todas := salvar_todas;
     self_nomes_interesse :=
       match nomes_interesse with
       | Some [] | None => None
       | Some names => Some names
       end |}.

(** Lines 68-78. *)
Definition _n_remover (self : Pl4Processor) : Z :=
  let n :=
    match (p <- int_mul_float (self_fs_por_ciclo self) (self_freq_rede_hz self) ;;
           int_of_float (fmul p (self_tempo_remover_s self))) with
    | Ok n => n
    | Raise _ => 0
    end in
  Z.max n 0.

(** Lines 80-115.  [resultado.get(key)] of an absent key is [None], and
    [np.asarray(None)] has no dimension. *)
Definition _recortar_resultado (self : Pl4Processor) (resultado : full_dict)
  : result full_dict :=
  if negb (self_remover_amostras self && flt fzero (self_tempo_remover_s self))
  then Ok resultado
  else
    let ndim_get (o : option ndarray) := match o with Some a => ndim a | None => 0%nat end in
    let shape_get (o : option ndarray) i :=
      match o with Some a => shape_at a i | None => 0%nat end in
    if negb (ndim_get (time resultado) =? 1)%nat
       || negb (ndim_get (data resultado) =? 2)%nat
       || negb (shape_get (data resultado) 1%nat =? shape_get (time resultado) 0%nat)%nat
    then Ok resultado
    else
      match time resultado, data resultado with
      | Some time_a, Some data_a =>
          let n_drop := _n_remover self in
          let N := Z.of_nat (shape_at time_a 0) in
          if (n_drop <=? 0) || (N <=? n_drop) then Ok resultado
          else
            let fim := String.eqb (self_remover_de self) "fim" in
            let time_new := corta fim (Z.to_nat n_drop) time_a in
            let data_new := corta fim (Z.to_nat n_drop) data_a in
            let n_new := Z.of_nat (shape_at time_new 0) in
            match delta_t resultado with
            | Some dt =>
                t <- int_mul_float (n_new - 1) dt ;;
                Ok {| data := Some data_new; time := Some time_new;
                      method := method resultado;
                      n_channels := n_channels resultado;
                      n_samples := Some n_new;
                      delta_t := Some dt;
                      tmax := Some t;
                      var_info := var_info resultado;
                      measurement_nodes := measurement_nodes resultado;
                      type_signals := type_signals resultado;
                      labels := labels resultado |}
            | None =>
                Ok {| data := Some data_new; time := Some time_new;
                      method := method resultado;
                      n_channels := n_channels resultado;
                      n_samples := Some n_new;
                      delta_t := None;
                      tmax := tmax resultado;
                      var_info := var_info resultado;
                      measurement_nodes := measurement_nodes resultado;
                      type_signals := type_signals resultado;
                      labels := labels resultado |}
            end
      | _, _ => Ok resultado
      end.

Definition enabled (self : Pl4Processor) : bool :=
  self_remover_amostras self && flt fzero (self_tempo_remover_s self).

(** Lines 117-151. *)
Definition _recortar_medicoes (self : Pl4Processor) (medicoes : interest_dict)
  : interest_dict :=
  if negb (enabled self) then medicoes
  else
    let time_key :=
      if has_key "time" medicoes then Some "time"
      else if has_key "tempo" medicoes then Some "tempo" else None in
    match time_key with
    | None => medicoes
    | Some tk =>
        match get tk medicoes with
        | None => medicoes
        | Some t =>
            if negb (ndim t =? 1)%nat then medicoes
            else
              let N := shape_at t 0 in
              let n_drop := _n_remover self in
              if (n_drop <=? 0) || (Z.of_nat N <=? n_drop) then medicoes
              else
                map (fun kv : string * ndarray =>
                       let (k, v) := kv in
                       if (ndim v =? 1)%nat && (shape_at v 0 =? N)%nat
                       then (k, corta (String.eqb (self_remover_de self) "fim")
                                      (Z.to_nat n_drop) v)
                       else (k, v))
                    medicoes
        end
    end.

(** The loops of lines 171-180: [out[nome] = data[i, :]] for the labels
    from position [i] on that pass [keep]. *)
Fixpoint seleciona (keep : string -> bool) (data_a : ndarray) (i : nat)
         (lbls : list string) (out : interest_dict) : result interest_dict :=
  match lbls with
  | [] => Ok out
  | lb :: rest =>
      if keep lb then
        row <- index_first data_a i ;;
        seleciona keep data_a (S i) rest (dict_set lb row out)
      else seleciona keep data_a (S i) rest out
  end.

(** Lines 156-181. *)
Definition selecionar_variaveis_interesse (self : Pl4Processor) (resultado : full_dict)
  : result interest_dict :=
  match time resultado with
  | None => Raise (KeyError "time")
  | Some time_a =>
      match data resultado with
      | None => Raise (KeyError "data")
      | Some data_a =>
          let lbls := default [] (labels resultado) in
          let keep :=
            match self_nomes_interesse self with
            | None => fun _ => true
            | Some names => fun nome => existsb (String.eqb nome) names
            end in
          seleciona keep data_a 0 lbls [("time", time_a)]
      end
  end.

(** The keyword arguments [processar_um] passes on to the export. *)
Definition cut_of (self : Pl4Processor) : cut :=
  {| remover_amostras := self_remover_amostras self;
     fs_por_ciclo := self_fs_por_ciclo self;
     freq_rede_hz := self_freq_rede_hz self;
     tempo_remover_s := self_tempo_remover_s self;
     remover_de := self_remover_de self |}.

(** The summaries of lines 196-210 print [time.shape[0]] when both keys
    are there: [IndexError] for a time without dimension. *)
Definition resumo (resultado : full_dict) : result unit :=
  match time resultado, data resultado with
  | Some t, Some _ => if (ndim t =? 0)%nat then Raise IndexError else Ok tt
  | _, _ => Ok tt
  end.

(** Lines 186-248, from the dictionary [readpl4] returned. *)
Definition processar_resultado (self : Pl4Processor) (fs : files) (saida_parquet : string)
           (resultado : full_dict) : files * result (string * nat * list string) :=
  let cortado :=
    _ <- resumo resultado ;;
    r <- (if enabled self then _recortar_resultado self resultado else Ok resultado) ;;
    _ <- resumo r ;;
    Ok r in
  match cortado with
  | Raise e => (fs, Raise e)
  | Ok resultado =>
      if self_salvar_todas self then
        save_results_parquet fs saida_parquet (Completo resultado) (cut_of self)
      else
        match selecionar_variaveis_interesse self resultado with
        | Raise e => (fs, Raise e)
        | Ok medicoes =>
            let medicoes :=
              if enabled self then _recortar_medicoes self medicoes else medicoes in
            save_results_parquet fs saida_parquet (Interesse medicoes) (cut_of self)
        end
  end.



End Step3_Pl42Parquet.

(** ** [RodaeCriaPl4.py]: the ATP batch runner *)

Module RodaeCriaPl4.

(** [NUMTHREADS = max(1, os.cpu_count() // 2)]. *)
Definition NUMTHREADS (cpu_count : nat) : nat := Nat.max 1 (cpu_count / 2).

(** Lines 48-56.  The process table gives each process its name, or no
    name when the lookup is refused. *)
Definition is_tpbig (name : option string) : bool :=
  match name with
  | Some n => negb (String.eqb n "") && String.eqb (lower n) "tpbig.exe"
  | None => false
  end.

Fixpoint conta_tpbig (procs : list (option string)) : nat :=
  match procs with
  | [] => 0
  | p :: rest => ((if is_tpbig p then 1 else 0) + conta_tpbig rest)%nat
  end.

(** The three folders the runner writes: the entries of [TmpATP/]
    (name to "is a directory"), the files of [ArquivoPL4/] and the files
    of [cartoesnaorodados/]. *)
Record world := {
  tmp : gmap string bool;
  arquivo_pl4 : gset string;
  nao_rodados : gset string
}.

Definition set_tmp (t : gmap string bool) (w : world) : world :=
  {| tmp := t; arquivo_pl4 := arquivo_pl4 w; nao_rodados := nao_rodados w |}.

(** What one call of [shutil.rmtree(p, ignore_errors=True)] does: the
    tree is removed, or an error is swallowed and the tree stays, or an
    exception leaves the call. *)
Inductive rm_outcome := Removed | Ignored | Escaped.

(** The loop of lines 76-81 over the remaining attempts. *)
Fixpoint retry (attempts : list rm_outcome) (p : string) (w : world) : world :=
  match attempts with
  | [] => w
  | Removed :: _ => set_tmp (delete p (tmp w)) w
  | Ignored :: _ => w
  | Escaped :: rest => retry rest p w
  end.

(** Lines 69-81; [rm k] is the outcome of the [k]-th call of [rmtree]. *)
Definition _limpa_dir (rm : nat -> rm_outcome) (p : string) (w : world) : world :=
  match tmp w !! p with
  | None => w
  | Some _ =>
      match rm 0%nat with
      | Removed => set_tmp (delete p (tmp w)) w
      | Ignored => w
      | Escaped => retry [rm 1%nat; rm 2%nat; rm 3%nat] p w
      end
  end.

(** Whether the attempts of [_limpa_dir] end with the tree removed. *)
Definition removes (rm : nat -> rm_outcome) : bool :=
  match rm 0%nat with
  | Removed => true
  | Ignored => false
  | Escaped =>
      match rm 1%nat with
      | Removed => true
      | Ignored => false
      | Escaped =>
          match rm 2%nat with
          | Removed => true
          | Ignored => false
          | Escaped => match rm 3%nat with Removed => true | _ => false end
          end
      end
  end.

(** What the environment does during one job. *)
Inductive run_outcome := Exited | RunTimeout | RunFailed.

Record job_env := {
  uuid8 : string;                (* uuid.uuid4().hex[:8] *)
  copy_ok : bool;                (* shutil.copy2 into the subfolder *)
  run : run_outcome;             (* subprocess.run *)
  pl4_generated : bool;          (* pl4_local.exists() *)
  unlink_ok : bool;              (* destino.unlink() *)
  move_ok : bool;                (* shutil.move *)
  q_unlink_ok : bool;            (* unlink in _copia_cartao_nao_rodado *)
  q_copy_ok : bool;              (* copy2 in _copia_cartao_nao_rodado *)
  rm : nat -> rm_outcome         (* the calls of rmtree *)
}.

(** An input card, by its stem: [name] is [stem.atp]. *)
Definition atp_name (stem : string) : string := stem +:+ ".atp".
Definition pl4_name (stem : string) : string := stem +:+ ".pl4".

(** Lines 59-66. *)
Definition subpasta (stem : string) (e : job_env) : string :=
  stem +:+ "__" +:+ uuid8 e.

Definition _cria_subpasta_temp (stem : string) (e : job_env) (w : world)
  : world * result string :=
  let sub := subpasta stem e in
  match tmp w !! sub with
  | Some _ => (w, Raise FileExistsError)
  | None => (set_tmp (<[sub := true]> (tmp w)) w, Ok sub)
  end.

(** Lines 84-95: the exception of either step is printed, not raised. *)
Definition _copia_cartao_nao_rodado (stem : string) (e : job_env) (w : world) : world :=
  let name := atp_name stem in
  let copy (s : gset string) := if q_copy_ok e then {[name]} ∪ s else s in
  let s :=
    if bool_decide (name ∈ nao_rodados w)
    then (if q_unlink_ok e then copy (nao_rodados w ∖ {[name]}) else nao_rodados w)
    else copy (nao_rodados w) in
  {| tmp := tmp w; arquivo_pl4 := arquivo_pl4 w; nao_rodados := s |}.

(** Lines 121-128 (and [mover_pl4], lines 139-151). *)
Definition mover_pl4 (stem : string) (e : job_env) (w : world)
  : world * result string :=
  let name := pl4_name stem in
  let set_pl4 (s : gset string) :=
    {| tmp := tmp w; arquivo_pl4 := s; nao_rodados := nao_rodados w |} in
  if bool_decide (name ∈ arquivo_pl4 w) && negb (unlink_ok e)
  then (w, Raise (RuntimeError ("Falha ao mover " +:+ name)))
  else if move_ok e
  then (set_pl4 ({[name]} ∪ arquivo_pl4 w), Ok name)
  else (set_pl4 (arquivo_pl4 w ∖ {[name]}), Raise (RuntimeError ("Falha ao mover " +:+ name))).

(** The [try] block of lines 108-132. *)
Definition run_body (stem : string) (e : job_env) (w : world)
  : world * result (option string) :=
  if negb (copy_ok e) then (w, Raise OSError)
  else
    match run e with
    | RunTimeout => (w, Raise TimeoutExpired)
    | RunFailed => (w, Raise OSError)
    | Exited =>
        if pl4_generated e then
          match mover_pl4 stem e w with
          | (w', Ok destino) => (w', Ok (Some destino))
          | (w', Raise err) => (w', Raise err)
          end
        else (_copia_cartao_nao_rodado stem e w, Ok None)
    end.

(** Lines 98-136: the subfolder is created before the [try]; the
    [finally] clause runs [_limpa_dir] on every way out of the block. *)
Definition run_atp_arquivo (stem : string) (e : job_env) (w : world)
  : world * result (option string) :=
  match _cria_subpasta_temp stem e w with
  | (w0, Raise err) => (w0, Raise err)
  | (w0, Ok subtemp) =>
      let (w1, r) := run_body stem e w0 in
      (_limpa_dir (rm e) subtemp w1, r)
  end.

(** Lines 180-196: what the collecting loop does with one result. *)
Definition collect (stem : string) (e : job_env) (r : result (option string))
           (acc : world * list string) : world * list string :=
  let (w, results) := acc in
  match r with
  | Ok (Some destino) => (w, results ++ [destino])
  | Ok None => (w, results)
  | Raise _ => (_copia_cartao_nao_rodado stem e w, results)
  end.

(** The jobs of a batch, run one after another in the order submitted. *)
Fixpoint run_all (jobs : list (string * job_env)) (acc : world * list string)
  : world * list string :=
  match jobs with
  | [] => acc
  | (stem, e) :: rest =>
      let (w1, r) := run_atp_arquivo stem e acc.1 in
      run_all rest (collect stem e r (w1, acc.2))
  end.

(** [while conta_tpbig() >= limit: time.sleep(0.5)], the [k]-th reading
    of the process table being [probe k]: the index of the next reading,
    or nothing when the readings in reach all are at or above the limit. *)
Fixpoint wait_below (fuel : nat) (probe : nat -> list (option string))
         (limit k : nat) : option nat :=
  match fuel with
  | O => None
  | S fuel' =>
      if (conta_tpbig (probe k) <? limit)%nat then Some (S k)
      else wait_below fuel' probe limit (S k)
  end.

(** Lines 174-178: one wait per submitted card. *)
Fixpoint submit_all (fuel : nat) (probe : nat -> list (option string))
         (limit : nat) (jobs : list (string * job_env)) (k : nat) : option nat :=
  match jobs with
  | [] => Some k
  | _ :: rest =>
      match wait_below fuel probe limit k with
      | None => None
      | Some k' => submit_all fuel probe limit rest k'
      end
  end.

(** Lines 204-207: the final sweep over the entries of [TmpATP/]. *)
Definition sweep (sweep_rm : string -> nat -> rm_outcome) (w : world) : world :=
  foldr (fun (kv : string * bool) w' =>
           if kv.2 then _limpa_dir (sweep_rm kv.1) kv.1 w' else w')
        w (map_to_list (tmp w)).

Record main_env := {
  runatp_exists : bool;
  cpu_count : nat;
  atp_files : list (string * job_env);
  probe : nat -> list (option string);
  sweep_rm : string -> nat -> rm_outcome
}.

(** Lines 154-211.  The result is the world afterwards and the list
    [results]; nothing when a wait does not end within [fuel] readings. *)
Definition main (fuel : nat) (env : main_env) (w : world)
  : option (world * list string) :=
  if negb (runatp_exists env) then Some (w, [])
  else
    match atp_files env with
    | [] => Some (w, [])
    | jobs =>
        match submit_all fuel (probe env) (NUMTHREADS (cpu_count env)) jobs 0 with
        | None => None
        | Some k =>
            let (w1, results) := run_all jobs (w, []) in
            match wait_below fuel (probe env) 1 k with
            | None => None
            | Some _ => Some (sweep (sweep_rm env) w1, results)
            end
        end
    end.

(** *** The worker pool of [ThreadPoolExecutor(max_workers=NUMTHREADS)]

    A worker thread takes one submitted call at a time from the queue and
    runs it to its end; [submit] starts a new thread only while fewer
    than [max_workers] exist.  Inside a call the external program runs
    from [subprocess.run] until it exits or is killed at the timeout. *)
Inductive phase := Preparing | InProcess | Finishing.

Inductive worker :=
| Idle
| Busy (job : string) (ph : phase).

Record pool := {
  max_workers : nat;
  workers : list worker;
  queue : list string;
  to_submit : list string;
  finished : list string
}.

Definition init_pool (k : nat) (jobs : list string) : pool :=
  {| max_workers := k; workers := []; queue := []; to_submit := jobs; finished := [] |}.

Definition is_busy (wk : worker) : bool :=
  match wk with Busy _ _ => true | Idle => false end.

Definition in_process (wk : worker) : bool :=
  match wk with Busy _ InProcess => true | _ => false end.

Definition count_if {A} (f : A -> bool) (l : list A) : nat :=
  length (List.filter f l).

(** The jobs in the Running state, and the external processes in flight. *)
Definition running (p : pool) : nat := count_if is_busy (workers p).
Definition in_flight (p : pool) : nat := count_if in_process (workers p).

Definition busy_jobs (p : pool) : list string :=
  omap (fun wk => match wk with Busy j _ => Some j | Idle => None end) (workers p).

Inductive step : pool -> pool -> Prop :=
| step_submit_spawn p j rest :
    to_submit p = j :: rest -> (length (workers p) < max_workers p)%nat ->
    step p {| max_workers := max_workers p; workers := workers p ++ [Idle];
              queue := queue p ++ [j]; to_submit := rest; finished := finished p |}
| step_submit p j rest :
    to_submit p = j :: rest ->
    step p {| max_workers := max_workers p; workers := workers p;
              queue := queue p ++ [j]; to_submit := rest; finished := finished p |}
| step_take p i j rest :
    workers p !! i = Some Idle -> queue p = j :: rest ->
    step p {| max_workers := max_workers p; workers := <[i := Busy j Preparing]> (workers p);
              queue := rest; to_submit := to_submit p; finished := finished p |}
| step_launch p i j :
    workers p !! i = Some (Busy j Preparing) ->
    step p {| max_workers := max_workers p; workers := <[i := Busy j InProcess]> (workers p);
              queue := queue p; to_submit := to_submit p; finished := finished p |}
| step_exit p i j :
    workers p !! i = Some (Busy j InProcess) ->
    step p {| max_workers := max_workers p; workers := <[i := Busy j Finishing]> (workers p);
              queue := queue p; to_submit := to_submit p; finished := finished p |}
| step_done p i j ph :
    workers p !! i = Some (Busy j ph) -> ph <> InProcess ->
    step p {| max_workers := max_workers p; workers := <[i := Idle]> (workers p);
              queue := queue p; to_submit := to_submit p; finished := finished p ++ [j] |}.

Inductive reachable (k : nat) (jobs : list string) : pool -> Prop :=
| reach_init : reachable k jobs (init_pool k jobs)
| reach_step p q : reachable k jobs p -> step p q -> reachable k jobs q.

End RodaeCriaPl4.

(** ** [Pl4paraMatlab.py]: the PL4 to MAT runner *)

Module Pl4paraMatlab.

Definition STABILIZE_TRIES : nat := 6.

(** An entry of the working folder: [Path.stem], [Path.suffix], whether it
    is a regular file and whether [unlink] succeeds on it. *)
Record entry := {
  e_stem : string;
  e_suffix : string;
  e_is_file : bool;
  e_removable : bool
}.

Definition directory := list entry.

(** A path in the folder, as [(stem, suffix)]. *)
Definition path := (string * string)%type.

Definition named (p : path) (e : entry) : bool :=
  String.eqb (e_stem e) p.1 && String.eqb (e_suffix e) p.2.

(** [p.exists() and p.is_file()]. *)
Definition is_file_at (d : directory) (p : path) : bool :=
  existsb (fun e => named p e && e_is_file e) d.

(** Lines 62-81. *)
Definition _find_generated_mat_in_dir (d : directory) (stem : string) : option path :=
  let candidates := [(stem, ".mat"); (stem, ".MAT"); (stem, ".Mat")] in
  match List.find (is_file_at d) candidates with
  | Some c => Some c
  | None =>
      let lower_stem := lower stem in
      match List.find (fun e => e_is_file e
                                 && String.eqb (lower (e_suffix e)) ".mat"
                                 && String.eqb (lower (e_stem e)) lower_stem) d with
      | Some e => Some (e_stem e, e_suffix e)
      | None => None
      end
  end.

(** What the waiting function observes: the [k]-th reading of the clock,
    the folder at the [k]-th search, the [k]-th [stat().st_size]. *)
Record wait_env := {
  clock : nat -> Z;
  listing : nat -> directory;
  st_size : nat -> result Z
}.

(** Lines 93-97: the search repeated while the time is not up; nothing
    when the clock does not reach the timeout within [fuel] readings. *)
Fixpoint wait_appear (fuel : nat) (env : wait_env) (stem : string)
         (appear_timeout_s : Z) (i : nat) : option (option path) :=
  match fuel with
  | O => None
  | S fuel' =>
      if clock env (S i) - clock env 0%nat <? appear_timeout_s then
        match _find_generated_mat_in_dir (listing env i) stem with
        | Some p => Some (Some p)
        | None => wait_appear fuel' env stem appear_timeout_s (S i)
        end
      else Some None
  end.

(** Lines 103-114: the state after at most [tries] readings, starting
    with the [k]-th; the result is [last_size] and the readings used. *)
Fixpoint stabilize (tries : nat) (env : wait_env) (k : nat)
         (last_size : Z) (stable_count : nat) : result (Z * nat) :=
  match tries with
  | O => Ok (last_size, k)
  | S tries' =>
      size <- st_size env k ;;
      let stable_count' :=
        if (size =? last_size) && (0 <? size) then S stable_count else 0%nat in
      if (2 <=? stable_count')%nat then Ok (size, S k)
      else stabilize tries' env (S k) size stable_count'
  end.

Definition msg_timeout (stem : string) (appear_timeout_s : Z) (dir_path : string) : string :=
  ".MAT não apareceu para '" +:+ stem +:+ "' em " +:+ str_Z appear_timeout_s
    +:+ "s (cwd=" +:+ dir_path +:+ ")".

Definition msg_size (p : path) (last_size : Z) : string :=
  ".MAT encontrado, mas com tamanho inválido: " +:+ p.1 +:+ p.2
    +:+ " (size=" +:+ str_Z last_size +:+ ")".

(** Lines 84-119. *)
Definition _wait_for_mat_creation_and_stabilize (fuel : nat) (env : wait_env)
           (dir_path stem : string) (appear_timeout_s : Z) : option (result path) :=
  match wait_appear fuel env stem appear_timeout_s 0 with
  | None => None
  | Some None => Some (Raise (TimeoutError (msg_timeout stem appear_timeout_s dir_path)))
  | Some (Some mat_path) =>
      Some (sz <- stabilize STABILIZE_TRIES env 0 (-1) 0 ;;
            if sz.1 <=? 0 then Raise (RuntimeError (msg_size mat_path sz.1))
            else Ok mat_path)
  end.






(** Lines 212-225: the two counters over the results of the batch. *)
Fixpoint conta (results : list (option path)) (ok fail : nat) : nat * nat :=
  match results with
  | [] => (ok, fail)
  | Some _ :: rest => conta rest (S ok) fail
  | None :: rest => conta rest ok (S fail)
  end.

End Pl4paraMatlab.

(** ** [CriaCartao.py]: the card generator *)

Module CriaCartao.

Definition CR : byte := x0d.
Definition LF : byte := x0a.

Fixpoint bytes_eqb (a b : list byte) : bool :=
  match a, b with
  | [], [] => true
  | x :: a', y :: b' => Byte.eqb x y && bytes_eqb a' b'
  | _, _ => false
  end.

(** [line_b.endswith(suffix)]. *)
Definition endswith (line_b suffix : list byte) : bool :=
  (length suffix <=? length line_b)%nat
  && bytes_eqb (drop (length line_b - length suffix) line_b) suffix.

(** [line_b[:-k]] for [0 < k <= len(line_b)]. *)
Definition drop_last (k : nat) (line_b : list byte) : list byte :=
  take (length line_b - k) line_b.

(** Lines 56-67. *)
Definition _separa_eol (line_b : list byte) : list byte * list byte :=
  if endswith line_b [CR; LF] then (drop_last 2 line_b, [CR; LF])
  else if endswith line_b [LF] then (drop_last 1 line_b, [LF])
  else if endswith line_b [CR] then (drop_last 1 line_b, [CR])
  else (line_b, []).

Section Substituicao.

(** Lines 127-141 between the two uses of the line end: the content is
    decoded, [_troca_numero_apos_igual_em_str] replaces the first
    number after [=] by [novo_valor], and the text is encoded again.
    The text functions of the standard library ([decode], [re.search],
    [float], the format of [str.format], [encode]) are a parameter. *)
Variable troca : Z -> list byte -> list byte.

(** Lines 116-144: the list after the call. *)
Definition _troca_na_linha_idx (linhas_bytes : list (list byte)) (idx0 : Z)
           (novo_valor : Z) : list (list byte) :=
  if negb ((0 <=? idx0) && (idx0 <? Z.of_nat (length linhas_bytes))) then linhas_bytes
  else
    match linhas_bytes !! Z.to_nat idx0 with
    | None => linhas_bytes
    | Some line_b =>
        let (conteudo, eol) := _separa_eol line_b in
        <[Z.to_nat idx0 := troca novo_valor conteudo ++ eol]> linhas_bytes
    end.

(** Lines 26-28: the target lines, 0-based. *)
Definition idx_tau_0 : Z := 66 - 1.
Definition idx_rini_0 : Z := 67 - 1.
Definition idx_rfim_0 : Z := 68 - 1.

(** [range(start, stop, step)] for a positive step. *)
Definition range (start stop step : Z) : list Z :=
  map (fun k => start + step * Z.of_nat k)
      (seq 0 (Z.to_nat ((stop - start + step - 1) / step))).

(** Lines 31-33. *)
Definition Rini_values : list Z := range 200 801 50.
Definition Rfim_values : list Z := range 50 101 10.
Definition tau_values : list Z := range 50 251 25.

(** [itertools.product(a, b, c)]: the last list varies fastest. *)
Definition product (a b c : list Z) : list (Z * Z * Z) :=
  x ← a; y ← b; z ← c; [(x, y, z)].

(** Lines 150-155: the lines of one card. *)
Definition linhas_mod (linhas_base_bytes : list (list byte)) (Rini Rfim tau : Z)
  : list (list byte) :=
  let l0 := linhas_base_bytes in
  let l1 := _troca_na_linha_idx l0 idx_tau_0 tau in
  let l2 := _troca_na_linha_idx l1 idx_rini_0 Rini in
  _troca_na_linha_idx l2 idx_rfim_0 Rfim.

(** Line 158 and [with_suffix(".atp")] of line 49; the name holds no
    dot, so the suffix is appended. *)
Definition nome (Rini Rfim tau : Z) : string :=
  "FAI_TAU" +:+ str_Z tau +:+ "_Rini" +:+ str_Z Rini +:+ "_Rfim" +:+ str_Z Rfim.

Definition caminho (nome_base : string) : string := nome_base +:+ ".atp".

(** Lines 48-52: the bytes of the lines, one after another, replace the
    file of that name in the output folder. *)
Definition _salvar_cartao_bytes (pasta : gmap string (list byte))
           (linhas_bytes : list (list byte)) (nome_base : string)
  : gmap string (list byte) :=
  <[caminho nome_base := concat linhas_bytes]> pasta.

(** Lines 147-159, over the combinations [combos]. *)
Definition gerar_em (linhas_base_bytes : list (list byte)) (combos : list (Z * Z * Z))
           (pasta : gmap string (list byte)) : gmap string (list byte) :=
  foldl (fun pasta c =>
           match c with
           | (Rini, Rfim, tau) =>
               _salvar_cartao_bytes pasta (linhas_mod linhas_base_bytes Rini Rfim tau)
                                    (nome Rini Rfim tau)
           end) pasta combos.

Definition gerar (linhas_base_bytes : list (list byte))
           (pasta : gmap string (list byte)) : gmap string (list byte) :=
  gerar_em linhas_base_bytes (product Rini_values Rfim_values tau_values) pasta.

End Substituicao.

End CriaCartao.

(** ** Concrete files used in the examples *)

Module Fixtures.

Definition byte_of_Z (z : Z) : byte :=
  default x00 (Byte.of_N (Z.to_N (z mod 256))).

Definition bytes_of (zs : list Z) : list byte := map byte_of_Z zs.

(** The four bytes of a little-endian 32-bit word. *)
Definition u32 (z : Z) : list byte :=
  bytes_of [z; z / 256; z / 65536; z / 16777216].

Definition zeros (n : nat) : list byte := replicate n x00.

(** Printable ASCII, trailing spaces removed: enough for the names of the
    example files. *)
Fixpoint drop_spaces (l : list ascii) : list ascii :=
  match l with
  | c :: r => if Ascii.eqb c " " then drop_spaces r else l
  | [] => []
  end.

Definition ascii_decode (bs : list byte) : string :=
  string_of_list_ascii
    (rev (drop_spaces (rev (drop_spaces (map (fun b => ascii_of_N (Byte.to_N b)) bs))))).

End Fixtures.

(** ** Contract-side definitions and example inputs

    The quantities the statements below are phrased in, written from the
    wording of the specification and compared with the code in the theorems,
    and the concrete files, datasets and environments of the examples. *)

Import F_readpl4 Step3_Pl42Parquet RodaeCriaPl4 Pl4paraMatlab CriaCartao Fixtures.

(** *** [f_readpl4.py]: the decoder *)

(** The header fields as the offsets give them. *)
Definition spec_sampling_interval (pl4 : list byte) : float := widen (b32_of_bits (le_uint (slice pl4 40 44))).
Definition spec_channel_count (pl4 : list byte) : Z := le_uint (slice pl4 48 52) / 2.
Definition spec_declared_size (pl4 : list byte) : Z := le_uint (slice pl4 56 60) - 1.
Definition spec_record_count (pl4 : list byte) : Z :=
  (spec_declared_size pl4 - 5 * 16 - spec_channel_count pl4 * 16) / ((spec_channel_count pl4 + 1) * 4).
Definition spec_max_time (pl4 : list byte) : float :=
  fmul (binary_normalize 53 1024 (spec_record_count pl4 - 1) 0 false) (spec_sampling_interval pl4).

(** The type code of descriptor [i] is an ASCII digit. *)
Definition digit_at (pl4 : list byte) (i : nat) : Prop :=
  exists c, pl4 !! (5 * 16 + i * 16 + 3)%nat = Some c /\ 48 <= Z.of_N (Byte.to_N c) <= 57.

(** A file the decoder accepts: the declared size covers the descriptors,
    the file is at least as long as declared, the type codes are digits. *)
Definition well_formed (pl4 : list byte) : Prop :=
  (60 <= length pl4)%nat /\
  0 <= spec_declared_size pl4 - 5 * 16 - spec_channel_count pl4 * 16 /\
  spec_declared_size pl4 <= Z.of_nat (length pl4) /\
  forall i, (i < Z.to_nat (spec_channel_count pl4))%nat -> digit_at pl4 i.

(** A file with one channel and two records whose declared size leaves
    three bytes of padding before the data. *)
Definition pl4_header (deltat_bits raw_nvar raw_size : Z) : list byte :=
  zeros 40 ++ u32 deltat_bits ++ zeros 4 ++ u32 raw_nvar ++ zeros 4 ++ u32 raw_size ++ zeros 20.

Definition pl4_descriptor : list byte :=
  zeros 3 ++ bytes_of [52; 78; 79; 68; 69; 65; 32; 32; 32; 32; 32; 32; 32].

Definition pl4_padded : list byte :=
  pl4_header 1056964608 2 116 ++ pl4_descriptor ++ zeros 3
    ++ u32 0 ++ u32 1065353216 ++ u32 1056964608 ++ u32 1073741824.


(** Where the code starts to read the records. *)
Definition data_offset (pl4 : list byte) : Z :=
  let nvar := spec_channel_count pl4 in
  let expsize := (5 + nvar) * 16 + spec_record_count pl4 * (nvar + 1) * 4 in
  (5 + nvar) * 16
  + (if expsize <? spec_declared_size pl4 then spec_declared_size pl4 - expsize else 0).

(** A header declaring one channel whose type byte is the letter [A]. *)
Definition pl4_type_letter : list byte :=
  pl4_header 1056964608 2 116 ++ Fixtures.zeros 3 ++ Fixtures.bytes_of [65]
    ++ Fixtures.zeros 31.

(** *** [f_readpl4.py], [step3_Pl42Parquet.py]: the crop *)

(** The drop count of the contract: the floor of the double product,
    clamped at zero; zero when the product is not a finite number. *)
Definition spec_n (samples_per_cycle : Z) (line_frequency_hz seconds_to_remove : float) : Z :=
  match int_mul_float samples_per_cycle line_frequency_hz with
  | Ok p =>
      match floor_of_float (fmul p seconds_to_remove) with
      | Some fl => Z.max fl 0
      | None => 0
      end
  | Raise _ => 0
  end.

(** The shape conditions under which the crop proceeds. *)
Definition shapes_consistent (d : full_dict) : Prop :=
  exists ta da, time d = Some ta /\ data d = Some da /\
    ndim ta = 1%nat /\ ndim da = 2%nat /\ shape_at da 1 = shape_at ta 0.

(** What the crop returns once the guards are passed. *)
Definition cropped (fim : bool) (n : nat) (tv : list float) (rows : list (list float))
           (d : full_dict) : full_dict :=
  let N := length tv in
  {| data := Some (Nd2 (N - n) (map (corta_list fim n) rows));
     time := Some (Nd1 (corta_list fim n tv));
     method := method d;
     n_channels := n_channels d;
     n_samples := Some (Z.of_nat (N - n));
     delta_t := delta_t d;
     tmax := match delta_t d with
             | Some dt => Some (fmul (binary_normalize 53 1024 (Z.of_nat (N - n) - 1) 0 false) dt)
             | None => tmax d
             end;
     var_info := var_info d;
     measurement_nodes := measurement_nodes d;
     type_signals := type_signals d;
     labels := labels d |}.

(** A dataset of three samples and one channel, and two crop settings. *)
Definition fl (z : Z) : float := binary_normalize 53 1024 z 0 false.

Definition amostra : full_dict :=
  {| data := Some (Nd2 3 [[fl 10; fl 20; fl 30]]);
     time := Some (Nd1 [fl 0; fl 1; fl 2]);
     method := Some "readpl4_mmap_based";
     n_channels := Some 1; n_samples := Some 3;
     delta_t := Some (fl 1); tmax := Some (fl 2);
     var_info := None; measurement_nodes := None; type_signals := None;
     labels := Some ["A"] |}.

Definition corte (tempo : Z) (remover_de : string) : cut :=
  {| remover_amostras := true; fs_por_ciclo := 1; freq_rede_hz := fl 1;
     tempo_remover_s := fl tempo; remover_de := remover_de |}.

(** *** [f_readpl4.py]: the export *)

(** How often a label occurs in a list. *)
Fixpoint occurrences (x : string) (l : list string) : nat :=
  match l with
  | [] => 0
  | y :: r => ((if String.eqb x y then 1 else 0) + occurrences x r)%nat
  end.

(** The name the code gives to the label at position [i]. *)
Definition renamed_at (labels : list string) (i : nat) (lbl : string) : string :=
  if (1 <? occurrences lbl labels)%nat
  then lbl +:+ "_" +:+ str_nat (occurrences lbl (take (S i) labels))
  else lbl.

(** Three channels, two of them labelled alike, over two samples. *)
Definition rotulos_AAB : full_dict :=
  {| data := Some (Nd2 2 [[fl 1; fl 2]; [fl 3; fl 4]; [fl 5; fl 6]]);
     time := Some (Nd1 [fl 0; fl 1]);
     method := None; n_channels := Some 3; n_samples := Some 2;
     delta_t := Some (fl 1); tmax := Some (fl 1);
     var_info := None; measurement_nodes := None; type_signals := None;
     labels := Some ["A"; "A"; "B"] |}.

Definition sem_corte : cut :=
  {| remover_amostras := false; fs_por_ciclo := 128; freq_rede_hz := fl 60;
     tempo_remover_s := fl 0; remover_de := "inicio" |}.

(** The columns of the selected export: the keys other than the time key. *)
Definition series_names (time_key : string) (d : interest_dict) : list string :=
  map fst (List.filter (fun kv : string * ndarray => negb (String.eqb kv.1 time_key)) d).

Definition time_key_of (d : interest_dict) : string :=
  if has_key "time" d then "time" else "tempo".


(** The crop applied to one value of the dictionary. *)
Definition corta_serie (fim : bool) (n N : nat) (v : ndarray) : ndarray :=
  if (ndim v =? 1)%nat && (shape_at v 0 =? N)%nat then corta fim n v else v.

Definition medicoes_mistas : interest_dict :=
  [("tempo", Nd1 [fl 0; fl 1; fl 2]); ("Va", Nd1 [fl 10; fl 20; fl 30]);
   ("ganho", Nd0 (fl 5))].

(** Five samples of one channel. *)
Definition amostra5 : full_dict :=
  {| data := Some (Nd2 5 [[fl 10; fl 20; fl 30; fl 40; fl 50]]);
     time := Some (Nd1 [fl 0; fl 1; fl 2; fl 3; fl 4]);
     method := Some "readpl4_mmap_based";
     n_channels := Some 1; n_samples := Some 5;
     delta_t := Some (fl 1); tmax := Some (fl 4);
     var_info := None; measurement_nodes := None; type_signals := None;
     labels := Some ["A"] |}.

(** Two channels with one label: the second row replaces the first. *)
Definition rotulos_AA : full_dict :=
  {| data := Some (Nd2 2 [[fl 1; fl 2]; [fl 3; fl 4]]);
     time := Some (Nd1 [fl 0; fl 1]);
     method := None; n_channels := Some 2; n_samples := Some 2;
     delta_t := Some (fl 1); tmax := Some (fl 1);
     var_info := None; measurement_nodes := None; type_signals := None;
     labels := Some ["A"; "A"] |}.

(** *** [RodaeCriaPl4.py]: the batch runner *)

(** The readings of the process table let every wait end within [fuel]. *)
Definition probes_settle (fuel : nat) (env : main_env) : Prop :=
  forall k, exists j, (j < fuel)%nat /\ conta_tpbig (probe env (k + j)%nat) = 0%nat.

(** A batch of one card on a machine without [tpbig.exe] running; the
    removal of the job's folder fails every time it is tried. *)
Definition job_preso : job_env :=
  {| uuid8 := "0a1b2c3d"; copy_ok := true; run := Exited; pl4_generated := true;
     unlink_ok := true; move_ok := true; q_unlink_ok := true; q_copy_ok := true;
     rm := fun _ => Ignored |}.

Definition job_livre : job_env :=
  {| uuid8 := "0a1b2c3d"; copy_ok := true; run := Exited; pl4_generated := false;
     unlink_ok := true; move_ok := true; q_unlink_ok := true; q_copy_ok := true;
     rm := fun _ => Removed |}.

Definition lote (job : job_env) (srm : rm_outcome) : main_env :=
  {| runatp_exists := true; cpu_count := 4; atp_files := [("caso", job)];
     probe := fun _ => [Some "python.exe"]; sweep_rm := fun _ _ => srm |}.

Definition mundo_vazio : world := {| tmp := ∅; arquivo_pl4 := ∅; nao_rodados := ∅ |}.

(** Two cards on two workers, both inside [subprocess.run]. *)
Definition pool_two_running : pool :=
  {| max_workers := 2; workers := [Busy "a" InProcess; Busy "b" InProcess];
     queue := []; to_submit := []; finished := [] |}.

Definition job_of (wk : worker) : option string :=
  match wk with Busy j _ => Some j | Idle => None end.

Definition all_jobs (p : pool) : list string :=
  to_submit p ++ queue p ++ omap job_of (workers p) ++ finished p.

Definition job_movido : job_env :=
  {| uuid8 := "0a1b2c3d"; copy_ok := true; run := Exited; pl4_generated := true;
     unlink_ok := true; move_ok := true; q_unlink_ok := true; q_copy_ok := true;
     rm := fun _ => Removed |}.

Definition job_timeout : job_env :=
  {| uuid8 := "0a1b2c3d"; copy_ok := true; run := RunTimeout; pl4_generated := false;
     unlink_ok := true; move_ok := true; q_unlink_ok := true; q_copy_ok := true;
     rm := fun _ => Removed |}.

(** One card of the batch: the job, then the collecting loop. *)
Definition job_step (stem : string) (e : job_env) (acc : world * list string)
  : world * list string :=
  collect stem e (run_atp_arquivo stem e acc.1).2 ((run_atp_arquivo stem e acc.1).1, acc.2).

(** *** [Pl4paraMatlab.py]: the converter runner *)



Definition arquivo (stem suffix : string) (removable : bool) : entry :=
  {| e_stem := stem; e_suffix := suffix; e_is_file := true; e_removable := removable |}.


(** The artifact is there at once and keeps the size 10. *)
Definition env_estavel : wait_env :=
  {| clock := fun _ => 0;
     listing := fun _ => [arquivo "CASO" ".MAT" true];
     st_size := fun _ => Ok 10 |}.





(** *** [CriaCartao.py]: the card generator *)

(** The characters of a name part: no underscore. *)
Fixpoint sem_sublinhado (s : string) : bool :=
  match s with
  | EmptyString => true
  | String c r => negb (Ascii.eqb c "_") && sem_sublinhado r
  end.

(** * Theorems *)

(** ** [f_readpl4.py]: the decoder *)

Lemma byte_to_Z_bound (b : byte) : 0 <= Z.of_N (Byte.to_N b) < 256.
Proof. pose proof (Byte.to_N_bounded b). lia. Qed.

Lemma le_uint_bound (bs : list byte) :
  0 <= le_uint bs < 256 ^ Z.of_nat (length bs).
Proof.
  induction bs as [|b bs IH]; simpl.
  - lia.
  - pose proof (byte_to_Z_bound b).
    rewrite Nat2Z.inj_succ, Z.pow_succ_r by lia. lia.
Qed.

Lemma slice_length {A} (l : list A) (lo hi : nat) :
  (hi <= length l)%nat -> length (slice l lo hi) = (hi - lo)%nat.
Proof. intros H. unfold slice. rewrite length_take, length_drop. lia. Qed.

Lemma float_of_int_ok (z : Z) :
  Z.abs z < 2 ^ 64 -> float_of_int z = Ok (binary_normalize 53 1024 z 0 false).
Proof.
  intros H. unfold float_of_int.
  destruct (Z.leb_spec (2 ^ 1024 - 2 ^ 970) (Z.abs z)) as [Hle|Hlt]; [|reflexivity].
  exfalso. assert (2 ^ 64 < 2 ^ 1024 - 2 ^ 970) by (vm_compute; reflexivity). lia.
Qed.

Lemma spec_channel_count_bound pl4 : 0 <= spec_channel_count pl4 < 2 ^ 31.
Proof.
  unfold spec_channel_count. pose proof (le_uint_bound (slice pl4 48 52)) as H.
  assert (length (slice pl4 48 52) <= 4)%nat
    by (unfold slice; rewrite length_take; lia).
  assert (256 ^ Z.of_nat (length (slice pl4 48 52)) <= 256 ^ 4)
    by (apply Z.pow_le_mono_r; lia).
  change (256 ^ 4) with 4294967296 in *. change (2 ^ 31) with 2147483648.
  split; [apply Z.div_pos; lia | apply Z.div_lt_upper_bound; lia].
Qed.

Lemma spec_declared_size_bound pl4 : -1 <= spec_declared_size pl4 < 2 ^ 32.
Proof.
  unfold spec_declared_size. pose proof (le_uint_bound (slice pl4 56 60)) as H.
  assert (length (slice pl4 56 60) <= 4)%nat
    by (unfold slice; rewrite length_take; lia).
  assert (256 ^ Z.of_nat (length (slice pl4 56 60)) <= 256 ^ 4)
    by (apply Z.pow_le_mono_r; lia).
  change (256 ^ 4) with 4294967296 in *. change (2 ^ 32) with 4294967296. lia.
Qed.

(** Floor division: the quotient is the only [q] with
    [q * d <= n < (q + 1) * d]. *)
Lemma spec_record_count_floor pl4 :
  let n := spec_declared_size pl4 - 5 * 16 - spec_channel_count pl4 * 16 in
  let d := (spec_channel_count pl4 + 1) * 4 in
  spec_record_count pl4 * d <= n < (spec_record_count pl4 + 1) * d.
Proof.
  intros n d. pose proof (spec_channel_count_bound pl4).
  assert (0 < d) by (unfold d; lia).
  unfold spec_record_count. fold n d.
  pose proof (Z.mul_div_le n d ltac:(lia)).
  pose proof (Z.mul_succ_div_gt n d ltac:(lia)). lia.
Qed.

Lemma spec_record_count_bound pl4 : Z.abs (spec_record_count pl4 - 1) < 2 ^ 64.
Proof.
  pose proof (spec_record_count_floor pl4) as Hf. cbv zeta in Hf.
  pose proof (spec_channel_count_bound pl4). pose proof (spec_declared_size_bound pl4).
  change (2 ^ 31) with 2147483648 in *. change (2 ^ 32) with 4294967296 in *.
  change (2 ^ 64) with 18446744073709551616. nia.
Qed.

Lemma read_header_ok (pl4 : list byte) :
  (60 <= length pl4)%nat ->
  read_header pl4 =
  Ok {| misc_deltat := spec_sampling_interval pl4; misc_nvar := spec_channel_count pl4;
        misc_pl4size := spec_declared_size pl4; misc_steps := spec_record_count pl4;
        misc_tmax := spec_max_time pl4 |}.
Proof.
  intros Hlen. unfold read_header, unpack_f, unpack_L.
  rewrite !slice_length by lia. simpl.
  fold (spec_channel_count pl4). fold (spec_declared_size pl4). fold (spec_record_count pl4).
  unfold int_mul_float. rewrite float_of_int_ok by apply spec_record_count_bound.
  reflexivity.
Qed.

Lemma readpl4_fields decode_strip granularity (pl4 : list byte) (d : full_dict) :
  (60 <= length pl4)%nat ->
  readpl4 decode_strip granularity pl4 = Ok d ->
  n_channels d = Some (spec_channel_count pl4) /\ n_samples d = Some (spec_record_count pl4) /\
  delta_t d = Some (spec_sampling_interval pl4) /\ tmax d = Some (spec_max_time pl4).
Proof.
  intros Hlen. unfold readpl4.
  destruct (length pl4 =? 0)%nat; [discriminate|].
  rewrite read_header_ok by assumption. cbn [bind misc_nvar misc_steps misc_pl4size misc_deltat misc_tmax].
  destruct (read_vars decode_strip pl4 _) as [vars|e]; cbn [bind]; [|discriminate].
  destruct (np_memmap _ _ _ _ _) as [rows|e]; cbn [bind]; [|discriminate].
  intros [= <-]. cbn. auto.
Qed.

Lemma read_var_ok decode_strip (pl4 : list byte) (i : nat) :
  (5 * 16 + i * 16 + 16 <= length pl4)%nat -> digit_at pl4 i ->
  exists v, read_var decode_strip pl4 i = Ok v.
Proof.
  intros Hlen (c & Hc & Hd). unfold read_var.
  rewrite slice_length by lia.
  replace (5 * 16 + i * 16 + 16 - (5 * 16 + i * 16))%nat with 16%nat by lia.
  rewrite Nat.eqb_refl.
  unfold slice at 1.
  assert (Hdig : (48 <=? Z.of_N (Byte.to_N c)) && (Z.of_N (Byte.to_N c) <=? 57) = true)
    by (apply andb_true_intro; split; apply Z.leb_le; lia).
  rewrite lookup_take, lookup_drop, Hc.
  case_decide; [|lia].
  unfold int_of_char. rewrite Hdig. cbn [bind]. eauto.
Qed.

Lemma read_vars_ok decode_strip (pl4 : list byte) (idxs : list nat) :
  (forall i, In i idxs -> (5 * 16 + i * 16 + 16 <= length pl4)%nat /\ digit_at pl4 i) ->
  exists vs, read_vars decode_strip pl4 idxs = Ok vs.
Proof.
  induction idxs as [|i idxs IH]; intros H; cbn [read_vars].
  - eauto.
  - destruct (H i (or_introl eq_refl)) as [Hl Hd].
    destruct (read_var_ok decode_strip pl4 i Hl Hd) as [v ->].
    destruct IH as [vs ->]; [intros j Hj; apply H; right; exact Hj|].
    cbn. eauto.
Qed.

Lemma np_memmap_ok granularity (file : list byte) (nrows ncols offset : Z) :
  0 <= nrows -> 0 <= ncols -> 0 <= offset ->
  offset + nrows * ncols * 4 <= Z.of_nat (length file) ->
  exists rows, np_memmap granularity file nrows ncols offset = Ok rows.
Proof.
  intros Hr Hc Ho Hfit. unfold np_memmap. cbv zeta.
  pose proof (Z.mod_pos_bound offset (Z.pos granularity) (Pos2Z.is_pos _)) as Hm.
  destruct (Z.ltb_spec (offset + nrows * ncols * 4
                        - (offset - offset mod Z.pos granularity)) 0); [nia|].
  destruct (Z.ltb_spec (Z.of_nat (length file)) (offset + nrows * ncols * 4)); [lia|].
  destruct (Z.ltb_spec nrows 0); [lia|].
  destruct (Z.ltb_spec ncols 0); [lia|].
  cbn. eauto.
Qed.

Lemma np_memmap_inv granularity (file : list byte) (nrows ncols offset : Z)
      (rows : list (list float)) :
  np_memmap granularity file nrows ncols offset = Ok rows ->
  0 <= nrows /\ 0 <= ncols /\ offset + nrows * ncols * 4 <= Z.of_nat (length file) /\
  rows = chunks (Z.to_nat ncols) (Z.to_nat nrows)
           (map (fun w => b32_of_bits (le_uint w))
                (chunks 4 (Z.to_nat (nrows * ncols)) (drop (Z.to_nat offset) file))).
Proof.
  unfold np_memmap. cbv zeta.
  destruct (_ <? 0); [discriminate|].
  destruct (Z.ltb_spec (Z.of_nat (length file)) (offset + nrows * ncols * 4)); [discriminate|].
  destruct (Z.ltb_spec nrows 0); [discriminate|].
  destruct (Z.ltb_spec ncols 0); [discriminate|].
  cbn. intros [= <-]. repeat split; lia.
Qed.


Lemma readpl4_returns decode_strip granularity (pl4 : list byte) :
  well_formed pl4 -> exists d, readpl4 decode_strip granularity pl4 = Ok d.
Proof.
  intros (Hlen & Hnum & Hsize & Hdig). unfold readpl4.
  destruct (Nat.eqb_spec (length pl4) 0); [lia|].
  rewrite read_header_ok by assumption.
  cbn [bind misc_nvar misc_steps misc_pl4size misc_deltat misc_tmax].
  pose proof (spec_channel_count_bound pl4) as Hnv.
  pose proof (spec_record_count_floor pl4) as Hfl. cbv zeta in Hfl.
  destruct (read_vars_ok decode_strip pl4 (seq 0 (Z.to_nat (spec_channel_count pl4)))) as [vs ->].
  { intros i Hi. apply in_seq in Hi. split; [lia | apply Hdig; lia]. }
  cbn [bind].
  assert (Hsteps : 0 <= spec_record_count pl4) by nia.
  match goal with |- context [np_memmap ?g ?f ?r ?c ?o] =>
    destruct (np_memmap_ok g f r c o) as [rows ->] end; [lia | lia | | | cbn [bind]; eauto].
  - destruct (_ <? _); lia.
  - destruct (Z.ltb_spec ((5 + spec_channel_count pl4) * 16 + spec_record_count pl4 * (spec_channel_count pl4 + 1) * 4)
                (spec_declared_size pl4)); lia.
Qed.

(** C1. For a file of at least 60 bytes the header decoder returns the
    sampling interval read as the little-endian binary32 at offset 40, the
    channel count as the little-endian unsigned word at offset 48 halved, the
    declared size as the word at offset 56 minus one, the record count as the
    floor quotient of (declared size - 5*16 - channels*16) by
    ((channels+1)*4), and the maximum time as the double product
    (records - 1) * interval; every dataset [readpl4] returns carries these
    values, and a well-formed file does yield a dataset. *)
Theorem readpl4_header_fields decode_strip granularity (pl4 : list byte) :
  (60 <= length pl4)%nat ->
  read_header pl4 =
    Ok {| misc_deltat := spec_sampling_interval pl4; misc_nvar := spec_channel_count pl4;
          misc_pl4size := spec_declared_size pl4; misc_steps := spec_record_count pl4;
          misc_tmax := spec_max_time pl4 |} /\
  (forall d, readpl4 decode_strip granularity pl4 = Ok d ->
     n_channels d = Some (spec_channel_count pl4) /\
     n_samples d = Some (spec_record_count pl4) /\
     delta_t d = Some (spec_sampling_interval pl4) /\
     tmax d = Some (spec_max_time pl4)) /\
  (well_formed pl4 -> exists d, readpl4 decode_strip granularity pl4 = Ok d).
Proof.
  intros Hlen. split; [|split].
  - apply read_header_ok, Hlen.
  - intros d Hd. eapply readpl4_fields; eauto.
  - apply readpl4_returns.
Qed.

Lemma pl4_padded_well_formed : well_formed pl4_padded.
Proof.
  split; [vm_compute; lia|]. split; [vm_compute; discriminate|].
  split; [vm_compute; discriminate|].
  intros i Hi. change (Z.to_nat (spec_channel_count pl4_padded)) with 1%nat in Hi.
  assert (i = 0%nat) as -> by lia.
  exists (byte_of_Z 52). split; [reflexivity|]. vm_compute. split; discriminate.
Qed.

Lemma readpl4_header_fields_witness :
  exists d, readpl4 ascii_decode 4096 pl4_padded = Ok d /\
            n_channels d = Some 1 /\ n_samples d = Some 2.
Proof.
  assert (Hlen : (60 <= length pl4_padded)%nat) by (vm_compute; lia).
  destruct (readpl4_header_fields ascii_decode 4096%positive pl4_padded Hlen) as (_ & Hf & Hr).
  destruct (Hr pl4_padded_well_formed) as [d Hd].
  exists d. destruct (Hf d Hd) as (Hc & Hn & _).
  split; [exact Hd|]. split; [exact Hc | exact Hn].
Defined.




Lemma slice_length_min {A} (l : list A) (lo hi : nat) :
  length (slice l lo hi) = Nat.min (hi - lo) (length l - lo).
Proof. unfold slice. rewrite length_take, length_drop. reflexivity. Qed.

Lemma read_header_short (pl4 : list byte) :
  (length pl4 < 60)%nat -> read_header pl4 = Raise StructError.
Proof.
  intros Hlen. unfold read_header, unpack_f, unpack_L.
  destruct (Nat.eqb_spec (length (slice pl4 40 44)) 4) as [H1|]; [|reflexivity].
  cbn [bind].
  destruct (Nat.eqb_spec (length (slice pl4 48 52)) 4) as [H2|]; [|reflexivity].
  cbn [bind].
  destruct (Nat.eqb_spec (length (slice pl4 56 60)) 4) as [H3|]; [|reflexivity].
  rewrite slice_length_min in H3. lia.
Qed.

(** X1. A file shorter than the 60 bytes of the header fields is refused:
    the empty file with the [ValueError] of the memory map, any other with
    [struct.error]. *)
Theorem readpl4_short_file_raises decode_strip granularity (pl4 : list byte) :
  (length pl4 < 60)%nat ->
  readpl4 decode_strip granularity pl4 =
    Raise (if (length pl4 =? 0)%nat then ValueError "cannot mmap an empty file"
           else StructError).
Proof.
  intros Hlen. unfold readpl4.
  destruct (Nat.eqb_spec (length pl4) 0) as [Hempty|Hsome]; [reflexivity|].
  rewrite (read_header_short pl4 Hlen). reflexivity.
Qed.

Lemma readpl4_short_file_raises_witness :
  readpl4 Fixtures.ascii_decode 4096 (Fixtures.zeros 59) = Raise StructError.
Proof.
  apply (readpl4_short_file_raises Fixtures.ascii_decode 4096%positive (Fixtures.zeros 59)).
  vm_compute. lia.
Defined.

Lemma chunks_length {A} (k n : nat) (l : list A) : length (chunks k n l) = n.
Proof. revert l. induction n as [|n IH]; intros l; cbn; [reflexivity | rewrite IH; reflexivity]. Qed.

Lemma chunks_Forall {A} (k n : nat) (l : list A) :
  (k * n <= length l)%nat -> Forall (fun c => length c = k) (chunks k n l).
Proof.
  revert l. induction n as [|n IH]; intros l Hl; cbn [chunks]; constructor.
  - rewrite length_take. lia.
  - apply IH. rewrite length_drop. lia.
Qed.

Lemma np_memmap_shape granularity (file : list byte) (nrows ncols offset : Z)
      (rows : list (list float)) :
  np_memmap granularity file nrows ncols offset = Ok rows ->
  0 <= nrows /\ length rows = Z.to_nat nrows /\
  Forall (fun r => length r = Z.to_nat ncols) rows.
Proof.
  intros Hm. apply np_memmap_inv in Hm as (Hr & Hc & Hfit & ->).
  split; [lia|]. split; [apply chunks_length|].
  apply chunks_Forall. rewrite length_map, chunks_length.
  rewrite Z2Nat.inj_mul by lia. lia.
Qed.

Lemma column_length (i : nat) (rows : list (list float)) :
  Forall (fun r => (i < length r)%nat) rows -> length (column i rows) = length rows.
Proof.
  unfold column. induction 1 as [|r rows Hr _ IH]; [reflexivity|].
  cbn [omap list_omap]. destruct (r !! i) as [x|] eqn:Hx.
  - cbn. rewrite <- IH. reflexivity.
  - apply lookup_ge_None in Hx. lia.
Qed.

Lemma transpose_shape (ncols : nat) (rows : list (list float)) :
  Forall (fun r => length r = ncols) rows ->
  length (transpose ncols rows) = ncols /\
  Forall (fun c => length c = length rows) (transpose ncols rows).
Proof.
  intros Hwf. unfold transpose. split; [rewrite length_map, length_seq; reflexivity|].
  rewrite Forall_map, Forall_forall. intros i Hi. cbn.
  apply list_elem_of_In, in_seq in Hi. apply column_length.
  eapply Forall_impl; [exact Hwf|]. intros r Hr. cbn beta in Hr. lia.
Qed.

Lemma read_var_type decode_strip pl4 i v :
  read_var decode_strip pl4 i = Ok v ->
  0 <= TYPE v <= 9 /\ TYPE_NAME v = type_map_get (TYPE v) /\
  exists c, pl4 !! (5 * 16 + i * 16 + 3)%nat = Some c /\ TYPE v = Z.of_N (Byte.to_N c) - 48.
Proof.
  unfold read_var. destruct (Nat.eqb_spec (length (slice pl4 (5 * 16 + i * 16) (5 * 16 + i * 16 + 16))) 16) as [Hl|];
    [|discriminate].
  destruct (slice pl4 _ _ !! 3%nat) as [c|] eqn:Hc; [|discriminate].
  unfold int_of_char.
  destruct (Z.leb_spec 48 (Z.of_N (Byte.to_N c))); cbn [andb]; [|discriminate].
  destruct (Z.leb_spec (Z.of_N (Byte.to_N c)) 57); cbn [bind]; [|discriminate].
  intros [= <-]. cbn [TYPE TYPE_NAME]. split; [lia|]. split; [reflexivity|].
  exists c. split; [|reflexivity].
  unfold slice in Hc. rewrite lookup_take, lookup_drop in Hc.
  case_decide; [exact Hc | discriminate].
Qed.

Lemma read_vars_spec decode_strip pl4 idxs vs :
  read_vars decode_strip pl4 idxs = Ok vs ->
  Forall2 (fun i v => read_var decode_strip pl4 i = Ok v) idxs vs.
Proof.
  revert vs. induction idxs as [|i idxs IH]; intros vs; cbn [read_vars].
  - intros [= <-]. constructor.
  - destruct (read_var decode_strip pl4 i) as [v|e] eqn:Hv; cbn [bind]; [|discriminate].
    destruct (read_vars decode_strip pl4 idxs) as [vs'|e]; cbn [bind]; [|discriminate].
    intros [= <-]. constructor; [exact Hv | apply IH; reflexivity].
Qed.

Lemma readpl4_inv decode_strip granularity (pl4 : list byte) (d : full_dict) :
  readpl4 decode_strip granularity pl4 = Ok d ->
  (60 <= length pl4)%nat /\
  exists vars rows,
    read_vars decode_strip pl4 (seq 0 (Z.to_nat (spec_channel_count pl4))) = Ok vars /\
    np_memmap granularity pl4 (spec_record_count pl4) (spec_channel_count pl4 + 1) (data_offset pl4)
      = Ok rows /\
    time d = Some (Nd1 (column 0 rows)) /\
    data d = Some (Nd2 (Z.to_nat (spec_record_count pl4))
                       (transpose (Z.to_nat (spec_channel_count pl4)) (map (drop 1) rows))) /\
    var_info d = Some vars /\ labels d = Some (map label_of vars) /\
    measurement_nodes d = Some (map FROM vars) /\ type_signals d = Some (map TYPE_NAME vars).
Proof.
  intros Hd.
  assert (Hlen : (60 <= length pl4)%nat).
  { destruct (le_lt_dec 60 (length pl4)) as [|Hlt]; [assumption|].
    exfalso. revert Hd. unfold readpl4.
    destruct (length pl4 =? 0)%nat; [discriminate|].
    rewrite (read_header_short pl4 Hlt). discriminate. }
  split; [exact Hlen|]. revert Hd. unfold readpl4.
  destruct (length pl4 =? 0)%nat; [discriminate|].
  rewrite read_header_ok by assumption.
  cbn [bind misc_nvar misc_steps misc_pl4size misc_deltat misc_tmax].
  destruct (read_vars decode_strip pl4 _) as [vars|e]; cbn [bind]; [|discriminate].
  fold (data_offset pl4).
  destruct (np_memmap _ _ _ _ _) as [rows|e] eqn:Hm; cbn [bind]; [|discriminate].
  intros [= <-]. exists vars, rows. cbn. repeat split; reflexivity.
Qed.

(** X2. Every dataset [readpl4] returns is consistent: the record count is
    not negative, the time vector has that many samples, the matrix has one
    row per channel and one column per sample, and there is one descriptor
    and one label per channel. *)
Theorem readpl4_dataset_shape decode_strip granularity (pl4 : list byte) (d : full_dict) :
  readpl4 decode_strip granularity pl4 = Ok d ->
  let N := Z.to_nat (spec_record_count pl4) in
  let C := Z.to_nat (spec_channel_count pl4) in
  0 <= spec_record_count pl4 /\
  n_samples d = Some (Z.of_nat N) /\ n_channels d = Some (Z.of_nat C) /\
  exists tv rows vars,
    time d = Some (Nd1 tv) /\ length tv = N /\
    data d = Some (Nd2 N rows) /\ length rows = C /\
    Forall (fun r => length r = N) rows /\
    var_info d = Some vars /\ length vars = C /\
    labels d = Some (map label_of vars).
Proof.
  intros Hd N C.
  destruct (readpl4_inv _ _ _ _ Hd) as (Hlen & vars & rows & Hv & Hm & Ht & Hda & Hvi & Hl & _).
  destruct (readpl4_fields _ _ _ _ Hlen Hd) as (Hc & Hn & _).
  pose proof (spec_channel_count_bound pl4) as Hnv.
  apply np_memmap_shape in Hm as (Hs & Hrows & Hwf).
  split; [exact Hs|]. split; [rewrite Hn; unfold N; rewrite Z2Nat.id by lia; reflexivity|].
  split; [rewrite Hc; unfold C; rewrite Z2Nat.id by lia; reflexivity|].
  assert (Hwf' : Forall (fun r : list float => length r = C) (map (drop 1) rows)).
  { rewrite Forall_map. eapply Forall_impl; [exact Hwf|]. intros r Hr. cbn beta in Hr. cbn.
    rewrite length_drop, Hr. unfold C. rewrite Z2Nat.inj_add by lia. cbn. lia. }
  destruct (transpose_shape C (map (drop 1) rows) Hwf') as (Htl & Htf).
  exists (column 0 rows), (transpose C (map (drop 1) rows)), vars.
  split; [exact Ht|]. split.
  { rewrite column_length; [exact Hrows|]. eapply Forall_impl; [exact Hwf|].
    intros r Hr. cbn beta in Hr. rewrite Hr. rewrite Z2Nat.inj_add by lia. cbn. lia. }
  split; [exact Hda|]. split; [exact Htl|]. split.
  { eapply Forall_impl; [exact Htf|]. intros c Hc'. cbn beta in Hc'.
    rewrite Hc', length_map. exact Hrows. }
  split; [exact Hvi|]. split; [|exact Hl].
  apply read_vars_spec in Hv. apply Forall2_length in Hv. rewrite length_seq in Hv.
  symmetry. exact Hv.
Qed.

Lemma readpl4_dataset_shape_witness :
  exists d, readpl4 Fixtures.ascii_decode 4096 pl4_padded = Ok d /\
            n_samples d = Some 2 /\ n_channels d = Some 1.
Proof.
  destruct (readpl4_returns Fixtures.ascii_decode 4096%positive pl4_padded pl4_padded_well_formed) as [d Hd].
  exists d. split; [exact Hd|].
  destruct (readpl4_dataset_shape Fixtures.ascii_decode 4096%positive pl4_padded d Hd) as (_ & Hn & Hc & _).
  split; [exact Hn | exact Hc].
Defined.

(** X3. Every descriptor of a returned dataset has a type code between 0
    and 9, named through the type table; a descriptor whose type byte is not
    an ASCII digit makes [readpl4] raise. *)
Theorem readpl4_type_codes_are_digits decode_strip granularity (pl4 : list byte) :
  (forall d, readpl4 decode_strip granularity pl4 = Ok d ->
     exists vars, var_info d = Some vars /\
       Forall (fun v => 0 <= TYPE v <= 9 /\ TYPE_NAME v = type_map_get (TYPE v)) vars) /\
  (forall i c, (i < Z.to_nat (spec_channel_count pl4))%nat ->
     pl4 !! (5 * 16 + i * 16 + 3)%nat = Some c ->
     ~ (48 <= Z.of_N (Byte.to_N c) <= 57) ->
     exists e, readpl4 decode_strip granularity pl4 = Raise e).
Proof.
  split.
  - intros d Hd. destruct (readpl4_inv _ _ _ _ Hd) as (_ & vars & rows & Hv & _ & _ & _ & Hvi & _).
    exists vars. split; [exact Hvi|]. apply read_vars_spec in Hv. clear -Hv.
    induction Hv as [|i v idxs vs Hiv _ IH]; constructor; [|exact IH].
    apply read_var_type in Hiv as (Ht & Hn & _). auto.
  - intros i c Hi Hc Hnd. destruct (readpl4 decode_strip granularity pl4) as [d|e] eqn:Hd; [|eauto].
    exfalso. destruct (readpl4_inv _ _ _ _ Hd) as (_ & vars & rows & Hv & _).
    apply read_vars_spec in Hv.
    assert (Hin : seq 0 (Z.to_nat (spec_channel_count pl4)) !! i = Some i)
      by (apply lookup_seq; lia).
    destruct (Forall2_lookup_l _ _ _ _ _ Hv Hin) as (v & _ & Hiv).
    apply read_var_type in Hiv as (Ht & _ & c' & Hc' & Hty).
    rewrite Hc in Hc'. injection Hc' as <-. lia.
Qed.

Lemma readpl4_type_codes_are_digits_witness :
  exists e, readpl4 Fixtures.ascii_decode 4096 pl4_type_letter = Raise e.
Proof.
  destruct (readpl4_type_codes_are_digits Fixtures.ascii_decode 4096%positive pl4_type_letter) as (_ & H).
  apply (H 0%nat (Fixtures.byte_of_Z 65)).
  - vm_compute. lia.
  - reflexivity.
  - vm_compute. intros [H1 H2]. apply H2. reflexivity.
Defined.

(** X4. The records of a returned dataset are read from the end of the
    declared size backwards: they end at the declared size, start after the
    descriptors with less than one record of padding in between, and the
    declared size is within the file. *)
Theorem readpl4_data_ends_at_declared_size decode_strip granularity (pl4 : list byte) (d : full_dict) :
  readpl4 decode_strip granularity pl4 = Ok d ->
  let nvar := spec_channel_count pl4 in
  let data_bytes := spec_record_count pl4 * (nvar + 1) * 4 in
  data_offset pl4 + data_bytes = spec_declared_size pl4 /\
  (5 + nvar) * 16 <= data_offset pl4 < (5 + nvar) * 16 + (nvar + 1) * 4 /\
  spec_declared_size pl4 <= Z.of_nat (length pl4).
Proof.
  intros Hd nvar data_bytes.
  destruct (readpl4_inv _ _ _ _ Hd) as (_ & vars & rows & _ & Hm & _).
  pose proof (spec_channel_count_bound pl4) as Hnv.
  pose proof (spec_record_count_floor pl4) as Hfl. cbv zeta in Hfl.
  apply np_memmap_inv in Hm as (Hs & _ & Hfit & _).
  unfold data_offset in *. subst nvar data_bytes.
  destruct (Z.ltb_spec ((5 + spec_channel_count pl4) * 16
                        + spec_record_count pl4 * (spec_channel_count pl4 + 1) * 4)
                       (spec_declared_size pl4)); lia.
Qed.

Lemma readpl4_data_ends_at_declared_size_witness :
  data_offset pl4_padded = 99 /\ spec_declared_size pl4_padded = 115.
Proof.
  destruct (readpl4_returns Fixtures.ascii_decode 4096%positive pl4_padded pl4_padded_well_formed) as [d Hd].
  destruct (readpl4_data_ends_at_declared_size Fixtures.ascii_decode 4096%positive pl4_padded d Hd)
    as (Hsum & _ & _).
  split; [|vm_compute; reflexivity].
  assert (Hs : spec_declared_size pl4_padded = 115) by (vm_compute; reflexivity).
  assert (Hb : spec_record_count pl4_padded * (spec_channel_count pl4_padded + 1) * 4 = 16)
    by (vm_compute; reflexivity).
  lia.
Defined.

(** ** [f_readpl4.py], [step3_Pl42Parquet.py]: the crop *)

Lemma trunc_floor_clamped (x : float) (t : Z) :
  int_of_float x = Ok t ->
  exists fl, floor_of_float x = Some fl /\ Z.max t 0 = Z.max fl 0.
Proof.
  destruct x as [s|s| |s m e]; cbn; try discriminate.
  - intros [= <-]. eauto.
  - intros [= <-]. destruct s; cbn [cond_Zopp].
    + exists (Z.shiftl (Z.neg m) e). split; [reflexivity|].
      assert (0 <= Z.shiftl (Z.pos m) e) by (apply Z.shiftl_nonneg; lia).
      assert (Z.shiftl (Z.neg m) e < 0).
      { destruct (Z.lt_ge_cases (Z.shiftl (Z.neg m) e) 0) as [|Hge]; [assumption|].
        apply Z.shiftl_nonneg in Hge. lia. }
      lia.
    + eauto.
Qed.

Lemma calc_n_remover_spec (fs : Z) (freq tempo : float) :
  _calc_n_remover fs freq tempo = spec_n fs freq tempo.
Proof.
  unfold _calc_n_remover, spec_n.
  destruct (int_mul_float fs freq) as [p|e]; cbn [bind]; [|reflexivity].
  destruct (int_of_float (fmul p tempo)) as [t|e] eqn:Ht.
  - destruct (trunc_floor_clamped _ _ Ht) as (fl & -> & Hm). exact Hm.
  - destruct (fmul p tempo) as [s|s| |s m e']; cbn in *; try discriminate; reflexivity.
Qed.

Lemma calc_n_remover_nonneg fs freq tempo : 0 <= _calc_n_remover fs freq tempo.
Proof. unfold _calc_n_remover. lia. Qed.

Lemma cut_disabled_zero (c : cut) (s : bool) :
  tempo_remover_s c = S754_zero s -> cut_enabled c = false.
Proof.
  intros H. unfold cut_enabled. rewrite H. destruct s; cbn; apply andb_false_r.
Qed.

Lemma apply_cut_full_dict_guard (d : full_dict) (c : cut) (ta : ndarray) :
  time d = Some ta ->
  (_calc_n_remover (fs_por_ciclo c) (freq_rede_hz c) (tempo_remover_s c) <=? 0)
  || (Z.of_nat (shape_at ta 0)
      <=? _calc_n_remover (fs_por_ciclo c) (freq_rede_hz c) (tempo_remover_s c)) = true ->
  _apply_cut_full_dict d c = Ok d.
Proof.
  intros Hta Hg. unfold _apply_cut_full_dict.
  destruct (negb (cut_enabled c)); [reflexivity|].
  rewrite Hta. destruct (data d) as [da|]; [|reflexivity].
  destruct (_ || _ || _); [reflexivity|].
  rewrite Hg. reflexivity.
Qed.

(** C5. The drop count is the floor of the double product
    fs_por_ciclo * freq_rede_hz * tempo_remover_s clamped at zero (zero when
    the product is not finite), and [_apply_cut_full_dict] returns its input
    unchanged, without raising, when the count is not positive, when it is at
    least the length of the time vector, when the shapes are inconsistent,
    and when the time to remove is zero. *)
Theorem apply_cut_full_dict_noop (d : full_dict) (c : cut) :
  let n := _calc_n_remover (fs_por_ciclo c) (freq_rede_hz c) (tempo_remover_s c) in
  n = spec_n (fs_por_ciclo c) (freq_rede_hz c) (tempo_remover_s c) /\
  0 <= n /\
  (n <= 0 -> _apply_cut_full_dict d c = Ok d) /\
  (forall ta, time d = Some ta -> Z.of_nat (shape_at ta 0) <= n ->
     _apply_cut_full_dict d c = Ok d) /\
  (~ shapes_consistent d -> _apply_cut_full_dict d c = Ok d) /\
  (forall s, tempo_remover_s c = S754_zero s -> _apply_cut_full_dict d c = Ok d).
Proof.
  intros n. split; [apply calc_n_remover_spec|]. split; [apply calc_n_remover_nonneg|].
  assert (Hguard : forall ta,
    time d = Some ta -> (n <=? 0) || (Z.of_nat (shape_at ta 0) <=? n) = true ->
    _apply_cut_full_dict d c = Ok d)
    by (intros ta; apply apply_cut_full_dict_guard).
  split; [|split; [|split]].
  - intros Hn. destruct (time d) as [ta|] eqn:Hta.
    + apply (Hguard ta eq_refl). apply orb_true_intro. left. apply Z.leb_le, Hn.
    + unfold _apply_cut_full_dict. rewrite Hta.
      destruct (negb (cut_enabled c)); reflexivity.
  - intros ta Hta HN. apply (Hguard ta Hta).
    apply orb_true_intro. right. apply Z.leb_le, HN.
  - intros Hsh. unfold _apply_cut_full_dict.
    destruct (negb (cut_enabled c)); [reflexivity|].
    destruct (time d) as [ta|] eqn:Hta; [|reflexivity].
    destruct (data d) as [da|] eqn:Hda; [|reflexivity].
    destruct (Nat.eqb_spec (ndim ta) 1); [|reflexivity].
    destruct (Nat.eqb_spec (ndim da) 2); [|reflexivity].
    destruct (Nat.eqb_spec (shape_at da 1) (shape_at ta 0)); [|reflexivity].
    exfalso. apply Hsh. exists ta, da. auto.
  - intros s Hs. unfold _apply_cut_full_dict.
    rewrite (cut_disabled_zero c s Hs). reflexivity.
Qed.

Lemma corta_list_length {A} (fim : bool) (n : nat) (x : list A) :
  (n < length x)%nat -> length (corta_list fim n x) = (length x - n)%nat.
Proof.
  intros H. unfold corta_list, upto_neg_n, from_n.
  destruct fim; [rewrite length_take | rewrite length_drop]; lia.
Qed.

Lemma apply_cut_full_dict_cropped (d : full_dict) (c : cut)
      (tv : list float) (rows : list (list float)) (n : nat) :
  time d = Some (Nd1 tv) -> data d = Some (Nd2 (length tv) rows) ->
  cut_enabled c = true ->
  _calc_n_remover (fs_por_ciclo c) (freq_rede_hz c) (tempo_remover_s c) = Z.of_nat n ->
  (0 < n < length tv)%nat -> Z.of_nat (length tv) < 2 ^ 63 ->
  _apply_cut_full_dict d c = Ok (cropped (is_fim (remover_de c)) n tv rows d).
Proof.
  intros Ht Hd Hen Hn Hrange Hbig. unfold _apply_cut_full_dict.
  rewrite Hen, Ht, Hd, Hn. cbn [negb ndim shape_at shape nth].
  rewrite !Nat.eqb_refl. cbn [negb orb].
  destruct (Z.leb_spec (Z.of_nat n) 0); [lia|].
  destruct (Z.leb_spec (Z.of_nat (length tv)) (Z.of_nat n)); [lia|].
  cbn [orb]. rewrite Nat2Z.id. cbn [corta shape_at shape nth].
  rewrite corta_list_length by lia.
  unfold cropped. destruct (delta_t d) as [dt|]; [|reflexivity].
  unfold int_mul_float. rewrite float_of_int_ok; [reflexivity|].
  change (2 ^ 63) with 9223372036854775808 in Hbig.
  change (2 ^ 64) with 18446744073709551616. lia.
Qed.

Lemma recortar_resultado_cropped (self : Pl4Processor) (d : full_dict)
      (tv : list float) (rows : list (list float)) (n : nat) :
  time d = Some (Nd1 tv) -> data d = Some (Nd2 (length tv) rows) ->
  self_remover_amostras self && flt fzero (self_tempo_remover_s self) = true ->
  _n_remover self = Z.of_nat n ->
  (0 < n < length tv)%nat -> Z.of_nat (length tv) < 2 ^ 63 ->
  _recortar_resultado self d =
    Ok (cropped (String.eqb (self_remover_de self) "fim") n tv rows d).
Proof.
  intros Ht Hd Hen Hn Hrange Hbig. unfold _recortar_resultado.
  rewrite Hen, Ht, Hd, Hn. cbn [negb ndim shape_at shape nth].
  rewrite !Nat.eqb_refl. cbn [negb orb].
  destruct (Z.leb_spec (Z.of_nat n) 0); [lia|].
  destruct (Z.leb_spec (Z.of_nat (length tv)) (Z.of_nat n)); [lia|].
  cbn [orb]. rewrite Nat2Z.id. cbn [corta shape_at shape nth].
  rewrite corta_list_length by lia.
  unfold cropped. destruct (delta_t d) as [dt|]; [|reflexivity].
  unfold int_mul_float. rewrite float_of_int_ok; [reflexivity|].
  change (2 ^ 63) with 9223372036854775808 in Hbig.
  change (2 ^ 64) with 18446744073709551616. lia.
Qed.

(** Facts about the cropped dataset: from the start the first [n] samples
    are gone, from the end the last [n]. *)
Lemma cropped_start_facts (n : nat) (tv : list float) (rows : list (list float)) :
  (0 < n < length tv)%nat -> Forall (fun r => length r = length tv) rows ->
  corta_list false n tv = drop n tv /\
  tv = take n tv ++ corta_list false n tv /\
  corta_list false n tv !! 0%nat = tv !! n /\
  length (corta_list false n tv) = (length tv - n)%nat /\
  Forall (fun r => length r = (length tv - n)%nat) (map (corta_list false n) rows) /\
  (forall i r, rows !! i = Some r ->
     map (corta_list false n) rows !! i = Some (drop n r) /\ r = take n r ++ drop n r).
Proof.
  intros Hn Hwf. unfold corta_list, from_n.
  split; [reflexivity|]. split; [symmetry; apply take_drop|].
  split; [rewrite lookup_drop; f_equal; lia|].
  split; [rewrite length_drop; lia|]. split.
  - rewrite Forall_map. eapply Forall_impl; [exact Hwf|].
    intros r Hr. cbn beta in Hr. cbn. rewrite length_drop. lia.
  - intros i r Hi. rewrite list_lookup_fmap, Hi. cbn.
    split; [reflexivity | symmetry; apply take_drop].
Qed.

Lemma cropped_end_facts (n : nat) (tv : list float) (rows : list (list float)) :
  (0 < n < length tv)%nat -> Forall (fun r => length r = length tv) rows ->
  corta_list true n tv = take (length tv - n) tv /\
  tv = corta_list true n tv ++ drop (length tv - n) tv /\
  length (drop (length tv - n) tv) = n /\
  length (corta_list true n tv) = (length tv - n)%nat /\
  Forall (fun r => length r = (length tv - n)%nat) (map (corta_list true n) rows) /\
  (forall i r, rows !! i = Some r ->
     map (corta_list true n) rows !! i = Some (take (length tv - n) r) /\
     r = take (length tv - n) r ++ drop (length tv - n) r /\
     length (drop (length tv - n) r) = n).
Proof.
  intros Hn Hwf. unfold corta_list, upto_neg_n.
  split; [reflexivity|]. split; [symmetry; apply take_drop|].
  split; [rewrite length_drop; lia|].
  split; [rewrite length_take; lia|]. split.
  - rewrite Forall_map. eapply Forall_impl; [exact Hwf|].
    intros r Hr. cbn beta in Hr. cbn. rewrite length_take. lia.
  - intros i r Hi. rewrite list_lookup_fmap, Hi. cbn.
    assert (Hr : length r = length tv).
    { rewrite Forall_forall in Hwf. apply Hwf. eapply list_elem_of_lookup_2, Hi. }
    rewrite Hr. split; [reflexivity|].
    split; [symmetry; apply take_drop | rewrite length_drop; lia].
Qed.

(** C4. For a dataset with a time vector of length N, a matrix of N
    columns and a drop count 0 < n < N, both crop functions
    ([_apply_cut_full_dict] of the export and [_recortar_resultado] of the
    processor) drop the first n samples of the time vector and of every row
    when cropping from the start, the last n when cropping from the end; the
    result has N - n samples, its sample count field says so, the interval
    and the labels are kept and the maximum time is (N - n - 1) * interval. *)
Theorem crop_drops_n_samples (d : full_dict) (tv : list float)
        (rows : list (list float)) (n : nat) :
  time d = Some (Nd1 tv) -> data d = Some (Nd2 (length tv) rows) ->
  Forall (fun r => length r = length tv) rows ->
  (0 < n < length tv)%nat -> Z.of_nat (length tv) < 2 ^ 63 ->
  let N := length tv in
  let from_start := cropped false n tv rows d in
  let from_end := cropped true n tv rows d in
  (forall c : cut, cut_enabled c = true ->
     _calc_n_remover (fs_por_ciclo c) (freq_rede_hz c) (tempo_remover_s c) = Z.of_nat n ->
     _apply_cut_full_dict d c =
       Ok (if is_fim (remover_de c) then from_end else from_start)) /\
  (forall self : Pl4Processor,
     self_remover_amostras self && flt fzero (self_tempo_remover_s self) = true ->
     _n_remover self = Z.of_nat n ->
     _recortar_resultado self d =
       Ok (if String.eqb (self_remover_de self) "fim" then from_end else from_start)) /\
  (time from_start = Some (Nd1 (drop n tv)) /\
   tv = take n tv ++ drop n tv /\
   drop n tv !! 0%nat = tv !! n /\
   length (drop n tv) = (N - n)%nat /\
   data from_start = Some (Nd2 (N - n) (map (drop n) rows)) /\
   Forall (fun r => length r = (N - n)%nat) (map (drop n) rows)) /\
  (time from_end = Some (Nd1 (take (N - n) tv)) /\
   tv = take (N - n) tv ++ drop (N - n) tv /\
   length (drop (N - n) tv) = n /\
   length (take (N - n) tv) = (N - n)%nat /\
   data from_end = Some (Nd2 (N - n) (map (take (N - n)) rows)) /\
   Forall (fun r => length r = (N - n)%nat) (map (take (N - n)) rows)) /\
  (forall d', d' = from_start \/ d' = from_end ->
     n_samples d' = Some (Z.of_nat (N - n)) /\
     delta_t d' = delta_t d /\
     labels d' = labels d /\
     forall dt, delta_t d = Some dt ->
       tmax d' = Some (fmul (binary_normalize 53 1024 (Z.of_nat (N - n) - 1) 0 false) dt)).
Proof.
  intros Ht Hd Hwf Hn Hbig N from_start from_end.
  destruct (cropped_start_facts n tv rows Hn Hwf) as (_ & Hs1 & Hs2 & Hs3 & Hs4 & _).
  destruct (cropped_end_facts n tv rows Hn Hwf) as (_ & He1 & He2 & He3 & He4 & _).
  unfold corta_list, from_n, upto_neg_n in Hs1, Hs2, Hs3, Hs4, He1, He2, He3, He4.
  split; [|split; [|split; [|split]]].
  - intros c Hen Hc.
    rewrite (apply_cut_full_dict_cropped d c tv rows n Ht Hd Hen Hc Hn Hbig).
    subst from_start from_end. destruct (is_fim (remover_de c)); reflexivity.
  - intros self Hen Hc.
    rewrite (recortar_resultado_cropped self d tv rows n Ht Hd Hen Hc Hn Hbig).
    subst from_start from_end. destruct (String.eqb _ _); reflexivity.
  - split; [reflexivity|]. split; [exact Hs1|]. split; [exact Hs2|].
    split; [exact Hs3|]. split; [reflexivity | exact Hs4].
  - assert (Hrows : map (corta_list true n) rows = map (take (N - n)) rows).
    { apply map_ext_in. intros r Hr. rewrite Forall_forall in Hwf.
      unfold corta_list, upto_neg_n. rewrite (Hwf r); [reflexivity|].
      apply list_elem_of_In, Hr. }
    unfold from_end, cropped. cbn [time data]. rewrite Hrows.
    unfold corta_list, upto_neg_n in He4 |- *. cbn beta in He4.
    split; [reflexivity|]. split; [exact He1|]. split; [exact He2|].
    split; [exact He3|]. split; [reflexivity|].
    rewrite <- Hrows. unfold corta_list, upto_neg_n. exact He4.
  - intros d' [-> | ->]; cbn; (repeat split; try reflexivity);
      intros dt Hdt; rewrite Hdt; reflexivity.
Qed.

Lemma crop_drops_n_samples_witness :
  _apply_cut_full_dict amostra (corte 1 "inicio") =
    Ok (cropped false 1 [fl 0; fl 1; fl 2] [[fl 10; fl 20; fl 30]] amostra) /\
  _recortar_resultado (init true true 1 (fl 1) (fl 1) " FIM " None) amostra =
    Ok (cropped true 1 [fl 0; fl 1; fl 2] [[fl 10; fl 20; fl 30]] amostra).
Proof.
  assert (Hwf : Forall (fun r : list float => length r = length [fl 0; fl 1; fl 2])
                       [[fl 10; fl 20; fl 30]])
    by (repeat constructor).
  assert (Hn : (0 < 1 < length [fl 0; fl 1; fl 2])%nat) by (cbn; lia).
  assert (Hbig : Z.of_nat (length [fl 0; fl 1; fl 2]) < 2 ^ 63) by (vm_compute; reflexivity).
  destruct (crop_drops_n_samples amostra [fl 0; fl 1; fl 2] [[fl 10; fl 20; fl 30]] 1
              eq_refl eq_refl Hwf Hn Hbig) as (Hc & Hs & _).
  split.
  - apply (Hc (corte 1 "inicio")); vm_compute; reflexivity.
  - apply (Hs (init true true 1 (fl 1) (fl 1) " FIM " None)); vm_compute; reflexivity.
Defined.

Lemma apply_cut_full_dict_noop_witness :
  _apply_cut_full_dict amostra (corte 0 "inicio") = Ok amostra /\
  _apply_cut_full_dict amostra (corte 3 "inicio") = Ok amostra.
Proof.
  split.
  - destruct (apply_cut_full_dict_noop amostra (corte 0 "inicio")) as (_ & _ & _ & _ & _ & Hz).
    apply (Hz false). vm_compute. reflexivity.
  - destruct (apply_cut_full_dict_noop amostra (corte 3 "inicio")) as (_ & _ & _ & HN & _).
    apply (HN (Nd1 [fl 0; fl 1; fl 2]) eq_refl). vm_compute. discriminate.
Defined.

(** ** [f_readpl4.py]: the export *)

Lemma occurrences_app x l k :
  occurrences x (l ++ k) = (occurrences x l + occurrences x k)%nat.
Proof. induction l as [|y l IH]; cbn; [reflexivity | rewrite IH; lia]. Qed.

Lemma Counter_lookup (l : list string) (x : string) :
  default 0%nat (Counter l !! x) = occurrences x l.
Proof.
  induction l as [|a l IH] using rev_ind.
  - reflexivity.
  - unfold Counter in *. rewrite foldl_snoc, occurrences_app. cbn [occurrences].
    destruct (String.eqb_spec x a) as [->|Hne].
    + rewrite lookup_insert_eq. cbn. rewrite IH. lia.
    + rewrite lookup_insert_ne by congruence. rewrite IH. lia.
Qed.

Lemma any_repeated_false (l : list string) (x : string) :
  any_repeated (Counter l) = false -> (occurrences x l <= 1)%nat.
Proof.
  intros Hany. destruct (le_lt_dec (occurrences x l) 1) as [|Hgt]; [assumption|].
  exfalso. pose proof (Counter_lookup l x) as Hc.
  destruct (Counter l !! x) as [v|] eqn:Hv; cbn in Hc; [|lia].
  assert (Hex : any_repeated (Counter l) = true).
  { unfold any_repeated. apply existsb_exists. exists (x, v). split.
    - apply list_elem_of_In, elem_of_map_to_list, Hv.
    - change ((1 <? v)%nat = true). apply Nat.ltb_lt. lia. }
  congruence.
Qed.

Lemma any_repeated_true (l : list string) :
  any_repeated (Counter l) = true -> exists x, (1 < occurrences x l)%nat.
Proof.
  unfold any_repeated. intros H. apply existsb_exists in H as ([k v] & Hin & Hv).
  apply list_elem_of_In, elem_of_map_to_list in Hin.
  change ((1 <? v)%nat = true) in Hv. apply Nat.ltb_lt in Hv.
  exists k. rewrite <- Counter_lookup, Hin. exact Hv.
Qed.

Lemma rename_loop_length counts seen labels :
  length (rename_loop counts seen labels) = length labels.
Proof.
  revert seen. induction labels as [|y r IH]; intros seen; cbn [rename_loop]; [reflexivity|].
  destruct (1 <? default 0%nat (counts !! y))%nat; cbn [length]; rewrite IH; reflexivity.
Qed.

Lemma rename_loop_lookup (counts seen : gmap string nat) (rest : list string)
      (j : nat) (lbl : string) :
  rest !! j = Some lbl ->
  rename_loop counts seen rest !! j =
    Some (if (1 <? default 0%nat (counts !! lbl))%nat
          then lbl +:+ "_" +:+
               str_nat (default 0%nat (seen !! lbl) + occurrences lbl (take (S j) rest))
          else lbl).
Proof.
  revert seen j. induction rest as [|y r IH]; intros seen j Hj; [discriminate|].
  destruct j as [|j]; cbn in Hj.
  - injection Hj as ->. cbn [rename_loop take occurrences].
    rewrite String.eqb_refl.
    destruct (1 <? default 0%nat (counts !! lbl))%nat; cbn [lookup list_lookup]; [|reflexivity].
    change (take 0 r) with (@nil string). cbn [occurrences].
    reflexivity.
  - cbn [rename_loop]. destruct (1 <? default 0%nat (counts !! y))%nat eqn:Hy; cbn [lookup list_lookup].
    + change ((rename_loop counts (<[y:=(default 0%nat (seen !! y) + 1)%nat]> seen) r) !! j
              = Some (if (1 <? default 0%nat (counts !! lbl))%nat
                      then lbl +:+ "_" +:+ str_nat (default 0%nat (seen !! lbl)
                             + occurrences lbl (take (S (S j)) (y :: r)))
                      else lbl)).
      rewrite (IH _ j Hj). destruct (1 <? default 0%nat (counts !! lbl))%nat; [|reflexivity].
      do 4 f_equal. cbn [take occurrences].
      destruct (String.eqb_spec lbl y) as [->|Hne].
      * rewrite lookup_insert_eq. cbn. lia.
      * rewrite lookup_insert_ne by congruence. lia.
    + change ((rename_loop counts seen r) !! j
              = Some (if (1 <? default 0%nat (counts !! lbl))%nat
                      then lbl +:+ "_" +:+ str_nat (default 0%nat (seen !! lbl)
                             + occurrences lbl (take (S (S j)) (y :: r)))
                      else lbl)).
      rewrite (IH _ j Hj).
      destruct (1 <? default 0%nat (counts !! lbl))%nat eqn:Hl; [|reflexivity].
      do 4 f_equal. cbn [take occurrences].
      destruct (String.eqb_spec lbl y) as [->|Hne]; [congruence | lia].
Qed.

Lemma rename_duplicates_length labels :
  length (rename_duplicates labels) = length labels.
Proof.
  unfold rename_duplicates. destruct (any_repeated _); [apply rename_loop_length | reflexivity].
Qed.

Lemma rename_duplicates_lookup (labels : list string) (i : nat) (lbl : string) :
  labels !! i = Some lbl ->
  rename_duplicates labels !! i = Some (renamed_at labels i lbl).
Proof.
  intros Hi. unfold rename_duplicates, renamed_at.
  destruct (any_repeated (Counter labels)) eqn:Hany.
  - rewrite (rename_loop_lookup _ _ _ _ _ Hi), Counter_lookup, lookup_empty. reflexivity.
  - pose proof (any_repeated_false labels lbl Hany).
    destruct (Nat.ltb_spec 1 (occurrences lbl labels)); [lia | exact Hi].
Qed.

Lemma occurrences_NoDup (l : list string) (x : string) :
  NoDup l -> (occurrences x l <= 1)%nat.
Proof.
  induction 1 as [|y l Hy Hnd IH]; cbn; [lia|].
  destruct (String.eqb_spec x y) as [->|]; [|lia].
  assert (occurrences y l = 0%nat); [|lia].
  clear -Hy. induction l as [|z l IH]; cbn; [reflexivity|].
  destruct (String.eqb_spec y z) as [->|]; [exfalso; apply Hy; left|].
  rewrite IH; [reflexivity|]. intros Hin. apply Hy. right. exact Hin.
Qed.

Lemma rename_duplicates_NoDup (l : list string) :
  NoDup l -> rename_duplicates l = l.
Proof.
  intros Hnd. unfold rename_duplicates.
  destruct (any_repeated (Counter l)) eqn:Hany; [|reflexivity].
  apply any_repeated_true in Hany as [x Hx].
  pose proof (occurrences_NoDup l x Hnd). lia.
Qed.

(** C3, as stated, fails: the first of the two equal labels does not keep
    the bare name, in the renaming and in the columns of the table written. *)
Lemma export_suffixes_first_occurrence :
  rename_duplicates ["A"; "A"; "B"] = ["A_1"; "A_2"; "B"] /\
  rename_duplicates ["A"; "A"; "B"] <> ["A"; "A_2"; "B"] /\
  (save_results_parquet ∅ "saida.parquet" (Completo rotulos_AAB) sem_corte).2 =
    Ok ("saida.parquet", 2%nat, ["time"; "A_1"; "A_2"; "B"]).
Proof.
  split; [vm_compute; reflexivity|]. split; [vm_compute; discriminate|].
  vm_compute. reflexivity.
Qed.

Lemma df_insert_first_columns column value df df' :
  df_insert_first column value df = Ok df' -> columns df' = column :: columns df.
Proof.
  unfold df_insert_first. destruct (existsb _ _); [discriminate|].
  destruct (_ && _); [intros [= <-]; reflexivity|].
  destruct (_ =? _)%nat; [intros [= <-]; reflexivity | discriminate].
Qed.

Lemma DataFrame_of_array_columns a lbls df :
  DataFrame_of_array a lbls = Ok df -> columns df = lbls.
Proof.
  unfold DataFrame_of_array. destruct a as [x|v|ncols rows|sh fl']; try discriminate.
  - destruct (_ =? _)%nat; [intros [= <-]; reflexivity | discriminate].
  - destruct (_ =? _)%nat; [intros [= <-]; reflexivity | discriminate].
Qed.

Lemma frame_completo_columns (d : full_dict) (df : DataFrame) :
  frame_completo d = Ok df ->
  exists lbls, labels d = Some lbls /\ columns df = "time" :: rename_duplicates lbls.
Proof.
  unfold frame_completo. destruct (data d) as [a|]; [|discriminate].
  destruct (labels d) as [lbls|]; [|discriminate].
  destruct (DataFrame_of_array a (rename_duplicates lbls)) as [df0|e] eqn:Hdf; [|discriminate].
  cbn [bind]. intros Hins. exists lbls. split; [reflexivity|].
  rewrite (df_insert_first_columns _ _ _ _ Hins).
  rewrite (DataFrame_of_array_columns _ _ _ Hdf). reflexivity.
Qed.

Lemma apply_cut_full_dict_labels (d d' : full_dict) (c : cut) :
  _apply_cut_full_dict d c = Ok d' -> labels d' = labels d.
Proof.
  unfold _apply_cut_full_dict. destruct (negb _); [intros [= <-]; reflexivity|].
  destruct (time d) as [ta|]; [|intros [= <-]; reflexivity].
  destruct (data d) as [da|]; [|intros [= <-]; reflexivity].
  destruct (_ || _ || _); [intros [= <-]; reflexivity|].
  destruct (_ || _); [intros [= <-]; reflexivity|].
  destruct (delta_t d) as [dt|].
  - destruct (int_mul_float _ dt); cbn [bind]; [intros [= <-]; reflexivity | discriminate].
  - intros [= <-]. reflexivity.
Qed.

Lemma apply_cut_interest_dict_keys (d : interest_dict) (c : cut) :
  keys (_apply_cut_interest_dict d c) = keys d.
Proof.
  unfold _apply_cut_interest_dict. destruct (negb _); [reflexivity|].
  destruct (if has_key "time" d then _ else _) as [tk|]; [|reflexivity].
  destruct (get tk d) as [t|]; [|reflexivity].
  destruct (negb _); [reflexivity|]. destruct (_ || _); [reflexivity|].
  unfold keys. rewrite map_map. apply map_ext. intros [k v].
  destruct (_ && _); reflexivity.
Qed.

Lemma build_frame_names time_key n cols frame :
  build_frame time_key n cols = Ok frame -> map fst frame = map fst cols.
Proof.
  revert frame. induction cols as [|[k a] cols IH]; intros frame; cbn [build_frame].
  - intros [= <-]. reflexivity.
  - destruct (negb _); [discriminate|].
    destruct (build_frame time_key n cols) as [fr|e]; cbn [bind]; [|discriminate].
    intros [= <-]. cbn. f_equal. apply IH. reflexivity.
Qed.

Lemma series_names_incl time_key (d : interest_dict) (k : string) :
  In k (series_names time_key d) -> In k (keys d).
Proof.
  unfold series_names, keys. intros H. apply in_map_iff in H as ([k' a] & <- & Hin).
  apply filter_In in Hin as [Hin _]. apply in_map_iff. exists (k', a). auto.
Qed.

Lemma series_names_NoDup time_key (d : interest_dict) :
  NoDup (keys d) -> NoDup (series_names time_key d).
Proof.
  induction d as [|[k a] d IH]; intros Hnd.
  - constructor.
  - apply NoDup_cons in Hnd as [Hk Hnd]. unfold series_names. cbn [List.filter].
    destruct (negb _); [|apply IH, Hnd].
    cbn [map]. apply NoDup_cons. split; [|apply IH, Hnd].
    intros Hin. apply Hk. apply list_elem_of_In.
    apply (series_names_incl time_key). apply list_elem_of_In. exact Hin.
Qed.

Lemma frame_interesse_columns (d : interest_dict) (df : DataFrame) :
  NoDup (keys d) -> frame_interesse d = Ok df ->
  columns df = "time" :: series_names (time_key_of d) d.
Proof.
  intros Hnd. unfold frame_interesse. fold (time_key_of d).
  destruct (get (time_key_of d) d) as [t|]; [|discriminate].
  destruct (build_frame _ _ _) as [frame|e] eqn:Hfr; cbn [bind]; [|discriminate].
  fold (series_names (time_key_of d) d).
  destruct (any_repeated _) eqn:Hany.
  { apply any_repeated_true in Hany as [x Hx].
    pose proof (occurrences_NoDup _ x (series_names_NoDup (time_key_of d) d Hnd)). lia. }
  intros Hins. rewrite (df_insert_first_columns _ _ _ _ Hins). cbn [columns DataFrame_of_frame].
  f_equal. apply (build_frame_names _ _ _ _ Hfr).
Qed.

Lemma save_completo_columns fs path (d : full_dict) c fs' path' n cols :
  save_results_parquet fs path (Completo d) c = (fs', Ok (path', n, cols)) ->
  exists lbls, labels d = Some lbls /\ cols = "time" :: rename_duplicates lbls.
Proof.
  unfold save_results_parquet.
  destruct (_apply_cut_full_dict d c) as [d'|e] eqn:Hcut; cbn [bind]; [|discriminate].
  destruct (frame_completo d') as [df|e] eqn:Hdf; [|discriminate].
  destruct (to_parquet fs path df) as [fs0 [u|e]]; [|discriminate].
  intros [= _ _ _ <-].
  destruct (frame_completo_columns d' df Hdf) as (lbls & Hl & Hc).
  exists lbls. rewrite <- (apply_cut_full_dict_labels d d' c Hcut). auto.
Qed.

Lemma cut_interest_shape (d : interest_dict) (c : cut) :
  exists g : string * ndarray -> string * ndarray,
    (forall kv, (g kv).1 = kv.1) /\ _apply_cut_interest_dict d c = map g d.
Proof.
  unfold _apply_cut_interest_dict.
  assert (Hid : exists g : string * ndarray -> string * ndarray,
             (forall kv, (g kv).1 = kv.1) /\ d = map g d)
    by (exists (fun kv => kv); split; [reflexivity | symmetry; apply map_id]).
  destruct (negb _); [exact Hid|].
  destruct (if has_key "time" d then _ else _) as [tk|]; [|exact Hid].
  destruct (get tk d) as [t|]; [|exact Hid].
  destruct (negb _); [exact Hid|]. destruct (_ || _); [exact Hid|].
  eexists. split; [|reflexivity]. intros [k v]. destruct (_ && _); reflexivity.
Qed.

Lemma series_names_map time_key (g : string * ndarray -> string * ndarray) (d : interest_dict) :
  (forall kv, (g kv).1 = kv.1) -> series_names time_key (map g d) = series_names time_key d.
Proof.
  intros Hg. unfold series_names. induction d as [|kv d IH]; [reflexivity|].
  cbn [map List.filter]. rewrite Hg. destruct (negb _); cbn [map]; rewrite ?Hg, IH; reflexivity.
Qed.

Lemma time_key_of_map (g : string * ndarray -> string * ndarray) (d : interest_dict) :
  (forall kv, (g kv).1 = kv.1) -> time_key_of (map g d) = time_key_of d.
Proof.
  intros Hg. unfold time_key_of, has_key, keys. rewrite map_map.
  rewrite (map_ext _ fst Hg). reflexivity.
Qed.

Lemma save_interesse_columns fs path (d : interest_dict) c fs' path' n cols :
  NoDup (keys d) ->
  save_results_parquet fs path (Interesse d) c = (fs', Ok (path', n, cols)) ->
  cols = "time" :: series_names (time_key_of d) d.
Proof.
  intros Hnd. unfold save_results_parquet.
  destruct (frame_interesse _) as [df|e] eqn:Hdf; [|discriminate].
  destruct (to_parquet fs path df) as [fs0 [u|e]]; [|discriminate].
  intros [= _ _ _ <-].
  assert (Hnd' : NoDup (keys (_apply_cut_interest_dict d c))).
  { pose proof (apply_cut_interest_dict_keys d c) as E. rewrite E. exact Hnd. }
  rewrite (frame_interesse_columns _ df Hnd' Hdf).
  destruct (cut_interest_shape d c) as (g & Hg & ->).
  rewrite time_key_of_map, series_names_map by assumption. reflexivity.
Qed.

(** C3 (amended). The export keeps the labels in order and renames every
    occurrence of a label that occurs more than once, the first included:
    the k-th occurrence becomes label_k, and a label that occurs once is
    kept.  So the labels A, A, B give A_1, A_2, B.  The columns of a full
    export are the time column followed by the renamed labels; in the
    selected mode the keys of the dictionary are already distinct and the
    columns are the time column followed by the other keys, unchanged. *)
Theorem export_renames_every_duplicate :
  (forall labels : list string,
     length (rename_duplicates labels) = length labels /\
     (forall i lbl, labels !! i = Some lbl ->
        rename_duplicates labels !! i = Some (renamed_at labels i lbl)) /\
     (forall i lbl, labels !! i = Some lbl -> (1 < occurrences lbl labels)%nat ->
        rename_duplicates labels !! i =
          Some (lbl +:+ "_" +:+ str_nat (occurrences lbl (take (S i) labels)))) /\
     (forall i lbl, labels !! i = Some lbl -> occurrences lbl labels = 1%nat ->
        rename_duplicates labels !! i = Some lbl)) /\
  rename_duplicates ["A"; "A"; "B"] = ["A_1"; "A_2"; "B"] /\
  (forall fs path (d : full_dict) c fs' path' n cols,
     save_results_parquet fs path (Completo d) c = (fs', Ok (path', n, cols)) ->
     exists lbls, labels d = Some lbls /\ cols = "time" :: rename_duplicates lbls) /\
  (forall fs path (d : interest_dict) c fs' path' n cols,
     NoDup (keys d) ->
     save_results_parquet fs path (Interesse d) c = (fs', Ok (path', n, cols)) ->
     cols = "time" :: series_names (time_key_of d) d).
Proof.
  split; [|split; [vm_compute; reflexivity | split]].
  - intros lbls. split; [apply rename_duplicates_length|].
    split; [apply rename_duplicates_lookup|]. split.
    + intros i lbl Hi Hocc. rewrite (rename_duplicates_lookup _ _ _ Hi).
      unfold renamed_at. destruct (Nat.ltb_spec 1 (occurrences lbl lbls)); [reflexivity | lia].
    + intros i lbl Hi Hocc. rewrite (rename_duplicates_lookup _ _ _ Hi).
      unfold renamed_at. rewrite Hocc. reflexivity.
  - apply save_completo_columns.
  - apply save_interesse_columns.
Qed.

Lemma export_renames_every_duplicate_witness :
  rename_duplicates ["A"; "A"; "B"] !! 0%nat = Some "A_1" /\
  rename_duplicates ["A"; "A"; "B"] !! 2%nat = Some "B".
Proof.
  destruct export_renames_every_duplicate as (Hr & _).
  destruct (Hr ["A"; "A"; "B"]) as (_ & _ & Hdup & Hone).
  split.
  - apply (Hdup 0%nat "A"); [reflexivity | vm_compute; lia].
  - apply (Hone 2%nat "B"); reflexivity.
Defined.





(** *** The export writes the destination or nothing *)

Lemma to_parquet_spec (fs : files) (path : string) (df : DataFrame) :
  to_parquet fs path df =
    if bool_decide (NoDup (columns df)) then (<[path := df]> fs, Ok tt)
    else (fs, Raise (ValueError "Duplicate column names found")).
Proof. reflexivity. Qed.

Lemma save_results_parquet_inv fs path arg c fs' path' n cols :
  save_results_parquet fs path arg c = (fs', Ok (path', n, cols)) ->
  exists df, NoDup (columns df) /\ fs' = <[path := df]> fs /\
             path' = path /\ n = index_len df /\ cols = columns df /\
             match arg with
             | Completo d => exists d', _apply_cut_full_dict d c = Ok d' /\ frame_completo d' = Ok df
             | Interesse d => frame_interesse (_apply_cut_interest_dict d c) = Ok df
             end.
Proof.
  unfold save_results_parquet.
  set (r := match arg with Interesse d => _ | Completo d => _ end).
  destruct r as [df|e] eqn:Hr; [|discriminate].
  unfold to_parquet. case_bool_decide as Hnd; [|discriminate].
  intros [= <- <- <- <-]. exists df. repeat split; try assumption; try reflexivity.
  subst r. destruct arg as [d|d]; [|exact Hr].
  destruct (_apply_cut_full_dict d c) as [d'|e]; cbn [bind] in Hr; [|discriminate].
  exists d'. auto.
Qed.



(** *** What the renaming achieves, and what it does not *)

Lemma string_length_app (s1 s2 : string) :
  String.length (s1 +:+ s2) = (String.length s1 + String.length s2)%nat.
Proof.
  induction s1 as [|c s1 IH]; [reflexivity|].
  change (String c s1 +:+ s2) with (String c (s1 +:+ s2)).
  cbn [String.length]. rewrite IH. reflexivity.
Qed.

Lemma occurrences_take_lt (lbl : string) (labels : list string) (i j : nat) :
  (i < j)%nat -> labels !! j = Some lbl ->
  (occurrences lbl (take (S i) labels) < occurrences lbl (take (S j) labels))%nat.
Proof.
  intros Hij Hj.
  assert (Hsplit : take (S j) labels = take (S i) labels ++ take (j - i) (drop (S i) labels)).
  { replace (S j) with (S i + (j - i))%nat by lia. symmetry. apply take_take_drop. }
  rewrite Hsplit, occurrences_app.
  assert (Hin : In lbl (take (j - i) (drop (S i) labels))).
  { apply list_elem_of_In, list_elem_of_lookup. exists (j - i - 1)%nat.
    rewrite lookup_take by lia. case_decide; [|lia].
    rewrite lookup_drop. rewrite <- Hj. f_equal. lia. }
  assert (Hpos : forall l, In lbl l -> (0 < occurrences lbl l)%nat).
  { induction l as [|y l IH]; [intros []|intros [->|H]]; cbn.
    - rewrite String.eqb_refl. lia.
    - specialize (IH H). lia. }
  specialize (Hpos _ Hin). lia.
Qed.

Lemma occurrences_two (lbl : string) (labels : list string) (i j : nat) :
  (i < j)%nat -> labels !! i = Some lbl -> labels !! j = Some lbl ->
  (1 < occurrences lbl labels)%nat.
Proof.
  intros Hij Hi Hj.
  pose proof (occurrences_take_lt lbl labels i j Hij Hj) as Hlt.
  assert (Hle : (occurrences lbl (take (S j) labels) <= occurrences lbl labels)%nat).
  { rewrite <- (take_drop (S j) labels) at 2. rewrite occurrences_app. lia. }
  assert (Hi1 : (0 < occurrences lbl (take (S i) labels))%nat).
  { rewrite (take_S_r _ _ _ Hi), occurrences_app. cbn. rewrite String.eqb_refl. lia. }
  lia.
Qed.

(** X6. Two positions that carry the same label carry different names
    after the renaming, and neither keeps the bare label. *)
Theorem rename_duplicates_separates_equal_labels (labels : list string) (i j : nat)
        (lbl : string) :
  i <> j -> labels !! i = Some lbl -> labels !! j = Some lbl ->
  rename_duplicates labels !! i <> rename_duplicates labels !! j /\
  rename_duplicates labels !! i <> Some lbl.
Proof.
  assert (Hlt : forall i j, (i < j)%nat -> labels !! i = Some lbl -> labels !! j = Some lbl ->
            rename_duplicates labels !! i <> rename_duplicates labels !! j).
  { intros a b Hab Ha Hb.
    pose proof (occurrences_two lbl labels a b Hab Ha Hb) as Hocc.
    rewrite (rename_duplicates_lookup _ _ _ Ha), (rename_duplicates_lookup _ _ _ Hb).
    unfold renamed_at. destruct (Nat.ltb_spec 1 (occurrences lbl labels)) as [_|Hbad]; [|lia].
    intros [= H]. apply (inj (String.app lbl)) in H. apply (inj (String.app "_")) in H.
    apply (inj pretty) in H.
    pose proof (occurrences_take_lt lbl labels a b Hab Hb). lia. }
  intros Hne Hi Hj. split.
  - destruct (Nat.lt_total i j) as [H|[H|H]]; [apply Hlt; assumption | contradiction|].
    intros Heq. symmetry in Heq. revert Heq. apply Hlt; assumption.
  - assert (Hocc : (1 < occurrences lbl labels)%nat).
    { destruct (Nat.lt_total i j) as [H|[H|H]]; [|contradiction|];
        eapply occurrences_two; eauto. }
    rewrite (rename_duplicates_lookup _ _ _ Hi). unfold renamed_at.
    destruct (Nat.ltb_spec 1 (occurrences lbl labels)) as [_|Hbad]; [|lia].
    intros [= H]. apply (f_equal String.length) in H.
    rewrite !string_length_app in H. cbn in H. lia.
Qed.

Lemma rename_duplicates_separates_equal_labels_witness :
  rename_duplicates ["A"; "B"; "A"] !! 0%nat <> rename_duplicates ["A"; "B"; "A"] !! 2%nat.
Proof.
  apply (rename_duplicates_separates_equal_labels ["A"; "B"; "A"] 0 2 "A");
    [lia | reflexivity | reflexivity].
Defined.

Lemma append_ne (l s : string) : s <> "" -> l <> l +:+ s.
Proof.
  intros Hs H. apply (f_equal String.length) in H. rewrite string_length_app in H.
  destruct s; [congruence | cbn in H; lia].
Qed.

(** X7. The renaming does not make the names distinct in general: the
    labels l, l, l_1 become l_1, l_2, l_1, and writing a table with these
    columns fails with the duplicate-column error of the writer. *)
Theorem rename_duplicates_can_collide (l : string) :
  rename_duplicates [l; l; l +:+ "_1"] = [l +:+ "_1"; l +:+ "_2"; l +:+ "_1"] /\
  forall fs path df,
    columns df = "time" :: rename_duplicates [l; l; l +:+ "_1"] ->
    to_parquet fs path df = (fs, Raise (ValueError "Duplicate column names found")).
Proof.
  assert (Hne : String.eqb l (l +:+ "_1") = false)
    by (apply String.eqb_neq, append_ne; discriminate).
  assert (Hne' : String.eqb (l +:+ "_1") l = false)
    by (apply String.eqb_neq; intros H; symmetry in H; revert H; apply append_ne; discriminate).
  assert (Hr : rename_duplicates [l; l; l +:+ "_1"] = [l +:+ "_1"; l +:+ "_2"; l +:+ "_1"]).
  { apply list_eq. intros [|[|[|i]]].
    - rewrite (rename_duplicates_lookup [l; l; l +:+ "_1"] 0 l eq_refl). unfold renamed_at. cbn [occurrences take].
      rewrite !String.eqb_refl, Hne. reflexivity.
    - rewrite (rename_duplicates_lookup [l; l; l +:+ "_1"] 1 l eq_refl). unfold renamed_at. cbn [occurrences take].
      rewrite !String.eqb_refl, Hne. reflexivity.
    - rewrite (rename_duplicates_lookup [l; l; l +:+ "_1"] 2 (l +:+ "_1") eq_refl). unfold renamed_at.
      cbn [occurrences take]. rewrite !String.eqb_refl, Hne'. reflexivity.
    - pose proof (rename_duplicates_length [l; l; l +:+ "_1"]) as Hlen.
      rewrite (proj2 (lookup_ge_None _ _)) by (rewrite Hlen; cbn; lia). reflexivity. }
  split; [exact Hr|].
  intros fs path df Hc. unfold to_parquet. rewrite Hc, Hr.
  case_bool_decide as Hnd; [|reflexivity].
  exfalso. apply NoDup_cons in Hnd as [_ Hnd]. apply NoDup_cons in Hnd as [Hnot _].
  apply Hnot. right. left.
Qed.

Lemma rename_duplicates_can_collide_witness :
  to_parquet ∅ "saida.parquet"
    {| columns := "time" :: rename_duplicates ["A"; "A"; "A_1"]; index_len := 0; values := [] |}
  = (∅, Raise (ValueError "Duplicate column names found")).
Proof.
  destruct (rename_duplicates_can_collide "A") as (_ & H). apply H. reflexivity.
Defined.

(** *** The crop of a dictionary of series *)

Lemma get_has_key (k : string) (d : interest_dict) (v : ndarray) :
  get k d = Some v -> has_key k d = true.
Proof.
  unfold has_key, keys. induction d as [|[k' v'] d IH]; [discriminate|].
  cbn [get map existsb fst]. destruct (String.eqb k k'); [reflexivity | exact IH].
Qed.

(** X8. With the crop enabled and 0 < n < N for a one-dimensional time
    vector of length N, [_apply_cut_interest_dict] keeps the keys and their
    order, crops the time vector, and crops exactly the values that are
    one-dimensional of length N, leaving every other value as it is. *)
Theorem apply_cut_interest_dict_crops_equal_length_series
        (d : interest_dict) (c : cut) (tv : list float) (n : nat) :
  let tk := if has_key "time" d then "time" else "tempo" in
  get tk d = Some (Nd1 tv) ->
  cut_enabled c = true ->
  _calc_n_remover (fs_por_ciclo c) (freq_rede_hz c) (tempo_remover_s c) = Z.of_nat n ->
  (0 < n < length tv)%nat ->
  let d' := _apply_cut_interest_dict d c in
  keys d' = keys d /\
  get tk d' = Some (Nd1 (corta_list (is_fim (remover_de c)) n tv)) /\
  forall k, get k d' =
    match get k d with
    | Some v => Some (corta_serie (is_fim (remover_de c)) n (length tv) v)
    | None => None
    end.
Proof.
  intros tk Ht Hen Hn Hrange d'.
  split; [apply apply_cut_interest_dict_keys|].
  assert (Hd' : d' = map (fun kv : string * ndarray =>
                            (kv.1, corta_serie (is_fim (remover_de c)) n (length tv) kv.2)) d).
  { unfold d', _apply_cut_interest_dict. rewrite Hen. cbn [negb].
    assert (Htk : (if has_key "time" d then Some "time"
                   else if has_key "tempo" d then Some "tempo" else None) = Some tk).
    { unfold tk in *. destruct (has_key "time" d); [reflexivity|].
      destruct (has_key "tempo" d) eqn:Hh; [reflexivity|].
      rewrite (get_has_key _ _ _ Ht) in Hh. discriminate. }
    rewrite Htk, Ht, Hn. cbn [ndim negb Nat.eqb shape_at shape nth].
    destruct (Z.leb_spec (Z.of_nat n) 0); [lia|].
    destruct (Z.leb_spec (Z.of_nat (length tv)) (Z.of_nat n)); [lia|]. cbn [orb].
    rewrite Nat2Z.id. apply map_ext. intros [k v]. unfold corta_serie. cbn [fst snd].
    destruct (_ && _); reflexivity. }
  assert (Hget : forall k, get k d' =
            match get k d with
            | Some v => Some (corta_serie (is_fim (remover_de c)) n (length tv) v)
            | None => None
            end).
  { intros k. rewrite Hd'. clear. induction d as [|[k' v] d IH]; [reflexivity|].
    cbn [map get fst snd]. destruct (String.eqb k k'); [reflexivity | exact IH]. }
  split; [|exact Hget].
  rewrite Hget, Ht. unfold corta_serie. cbn [ndim shape_at shape nth].
  rewrite !Nat.eqb_refl. reflexivity.
Qed.

Lemma apply_cut_interest_dict_crops_equal_length_series_witness :
  get "Va" (_apply_cut_interest_dict medicoes_mistas (corte 1 "fim"))
    = Some (Nd1 [fl 10; fl 20]) /\
  get "ganho" (_apply_cut_interest_dict medicoes_mistas (corte 1 "fim"))
    = Some (Nd0 (fl 5)).
Proof.
  destruct (apply_cut_interest_dict_crops_equal_length_series
              medicoes_mistas (corte 1 "fim") [fl 0; fl 1; fl 2] 1) as (_ & _ & Hget);
    [reflexivity | vm_compute; reflexivity | vm_compute; reflexivity | cbn; lia |].
  split; rewrite Hget; reflexivity.
Defined.

(** *** The two copies of the crop helpers agree *)











(** *** The export pipeline of [processar_um] *)

Lemma frame_completo_rows (d : full_dict) (df : DataFrame) (tv : list float)
      (rows : list (list float)) :
  time d = Some (Nd1 tv) -> data d = Some (Nd2 (length tv) rows) ->
  frame_completo d = Ok df -> index_len df = length tv.
Proof.
  intros Ht Hd. unfold frame_completo. rewrite Ht, Hd.
  destruct (labels d) as [lbls|]; [|discriminate].
  unfold DataFrame_of_array. destruct (_ =? _)%nat; [|discriminate]. cbn [bind ravel].
  unfold df_insert_first. cbn [columns index_len values].
  destruct (existsb _ _); [discriminate|].
  destruct (Nat.eqb_spec (length tv) 0) as [H0|H0]; cbn [andb].
  - rewrite H0. cbn [Nat.ltb Nat.leb Nat.eqb]. intros [= <-]. reflexivity.
  - rewrite Nat.eqb_refl. intros [= <-]. reflexivity.
Qed.

(** X10. In the full mode the processor crops the dataset and the export
    crops it once more: with a drop count 0 < n < N the table written has
    N - 2n rows when 2n < N, and N - n rows otherwise. *)
Theorem processar_resultado_crops_twice (self : Pl4Processor) (fs : files) (saida : string)
        (d : full_dict) (tv : list float) (rows : list (list float)) (n : nat) :
  time d = Some (Nd1 tv) -> data d = Some (Nd2 (length tv) rows) ->
  Forall (fun r => length r = length tv) rows ->
  self_salvar_todas self = true -> enabled self = true ->
  _n_remover self = Z.of_nat n -> (0 < n < length tv)%nat -> Z.of_nat (length tv) < 2 ^ 63 ->
  forall fs' path nlin cols,
    processar_resultado self fs saida d = (fs', Ok (path, nlin, cols)) ->
    nlin = if (2 * n <? length tv)%nat then (length tv - 2 * n)%nat else (length tv - n)%nat.
Proof.
  intros Ht Hd Hwf Hsv Hen Hn Hrange Hbig fs' path nlin cols.
  unfold processar_resultado, resumo. rewrite Ht, Hd, Hen. cbn [ndim Nat.eqb bind].
  set (fim := String.eqb (self_remover_de self) "fim").
  rewrite (recortar_resultado_cropped self d tv rows n Ht Hd Hen Hn Hrange Hbig).
  fold fim. cbn [bind time data cropped ndim Nat.eqb]. rewrite Hsv.
  set (d1 := cropped fim n tv rows d).
  set (tv1 := corta_list fim n tv).
  assert (Hlen1 : length tv1 = (length tv - n)%nat) by (apply corta_list_length; lia).
  assert (Ht1 : time d1 = Some (Nd1 tv1)) by reflexivity.
  assert (Hd1 : data d1 = Some (Nd2 (length tv1) (map (corta_list fim n) rows)))
    by (rewrite Hlen1; reflexivity).
  intros Hs. apply save_results_parquet_inv in Hs as (df & _ & _ & _ & -> & _ & d' & Hcut & Hf).
  destruct (Nat.ltb_spec (2 * n) (length tv)) as [H2|H2].
  - rewrite (apply_cut_full_dict_cropped d1 (cut_of self) tv1 _ n Ht1 Hd1 Hen Hn) in Hcut;
      [|lia|lia].
    injection Hcut as <-.
    set (fim2 := is_fim (remover_de (cut_of self))) in *.
    set (rows1 := map (corta_list fim n) rows) in *.
    assert (Hrows : index_len df = length (corta_list fim2 n tv1)).
    { apply (frame_completo_rows (cropped fim2 n tv1 rows1 d1) df
               (corta_list fim2 n tv1) (map (corta_list fim2 n) rows1));
        [reflexivity | | exact Hf].
      cbn [cropped data]. rewrite corta_list_length by lia. reflexivity. }
    rewrite Hrows, corta_list_length by lia. lia.
  - rewrite (apply_cut_full_dict_guard d1 (cut_of self) (Nd1 tv1) Ht1) in Hcut.
    + injection Hcut as <-. rewrite (frame_completo_rows d1 df tv1 _ Ht1 Hd1 Hf). exact Hlen1.
    + change (_calc_n_remover _ _ _) with (_n_remover self). rewrite Hn.
      cbn [shape_at shape nth]. apply orb_true_intro. right. apply Z.leb_le. lia.
Qed.

Lemma processar_resultado_crops_twice_witness :
  exists fs' path cols,
    processar_resultado (init true true 1 (fl 1) (fl 1) "inicio" None) ∅ "a.parquet" amostra5
      = (fs', Ok (path, 3%nat, cols)).
Proof.
  assert (Hok : is_ok (processar_resultado (init true true 1 (fl 1) (fl 1) "inicio" None)
                         ∅ "a.parquet" amostra5).2 = true) by (vm_compute; reflexivity).
  destruct (processar_resultado (init true true 1 (fl 1) (fl 1) "inicio" None) ∅ "a.parquet"
              amostra5) as [fs' [[[path nlin] cols]|e]] eqn:Hp; [|discriminate].
  assert (Hen : enabled (init true true 1 (fl 1) (fl 1) "inicio" None) = true)
    by (vm_compute; reflexivity).
  assert (Hn : _n_remover (init true true 1 (fl 1) (fl 1) "inicio" None) = Z.of_nat 1)
    by (vm_compute; reflexivity).
  assert (Hbig : Z.of_nat (length [fl 0; fl 1; fl 2; fl 3; fl 4]) < 2 ^ 63)
    by (vm_compute; reflexivity).
  assert (Hwf : Forall (fun r : list float => length r = length [fl 0; fl 1; fl 2; fl 3; fl 4])
                       [[fl 10; fl 20; fl 30; fl 40; fl 50]]) by (repeat constructor).
  assert (Hrange : (0 < 1 < length [fl 0; fl 1; fl 2; fl 3; fl 4])%nat) by (cbn; lia).
  pose proof (processar_resultado_crops_twice
                (init true true 1 (fl 1) (fl 1) "inicio" None) ∅ "a.parquet" amostra5
                [fl 0; fl 1; fl 2; fl 3; fl 4] [[fl 10; fl 20; fl 30; fl 40; fl 50]] 1
                eq_refl eq_refl Hwf eq_refl Hen Hn Hrange Hbig fs' path nlin cols Hp) as Hrows.
  cbn in Hrows. exists fs', path, cols. rewrite Hrows. reflexivity.
Defined.

(** *** The selection of the series of interest *)

Lemma dict_set_keys {V} (k : string) (v : V) (d : list (string * V)) :
  map fst (dict_set k v d) = if existsb (String.eqb k) (map fst d) then map fst d
                             else map fst d ++ [k].
Proof.
  induction d as [|[k' v'] d IH]; [reflexivity|]. cbn [dict_set map existsb fst].
  destruct (String.eqb k k'); cbn [orb map fst]; [reflexivity|].
  rewrite IH. destruct (existsb _ _); reflexivity.
Qed.

Lemma dict_set_NoDup {V} (k : string) (v : V) (d : list (string * V)) :
  NoDup (map fst d) -> NoDup (map fst (dict_set k v d)).
Proof.
  intros Hnd. rewrite dict_set_keys. destruct (existsb _ _) eqn:He; [exact Hnd|].
  apply NoDup_app. split; [exact Hnd|]. split; [|apply NoDup_singleton].
  intros x Hx Hk. apply list_elem_of_singleton in Hk as ->.
  assert (existsb (String.eqb k) (map fst d) = true); [|congruence].
  apply existsb_exists. exists k. split; [apply list_elem_of_In, Hx | apply String.eqb_refl].
Qed.

Lemma dict_set_In {V} (k : string) (v : V) (d : list (string * V)) (x : string) :
  In x (map fst (dict_set k v d)) <-> x = k \/ In x (map fst d).
Proof.
  rewrite dict_set_keys. destruct (existsb _ _) eqn:He.
  - split; [auto|]. intros [->|H]; [|exact H].
    apply existsb_exists in He as (y & Hy & Heq). apply String.eqb_eq in Heq. subst y. exact Hy.
  - rewrite in_app_iff. cbn. intuition.
Qed.

Lemma seleciona_keys keep data_a (i : nat) (lbls : list string) (out out' : interest_dict) :
  seleciona keep data_a i lbls out = Ok out' ->
  (NoDup (keys out) -> NoDup (keys out')) /\
  (forall x, In x (keys out') <-> In x (keys out) \/ (In x lbls /\ keep x = true)) /\
  (forall j lb, lbls !! j = Some lb -> keep lb = true ->
     exists row, index_first data_a (i + j) = Ok row).
Proof.
  revert i out. induction lbls as [|lb rest IH]; intros i out; cbn [seleciona].
  - intros [= <-]. split; [auto|]. split; [|intros j lb Hj; discriminate].
    intros x. cbn. intuition.
  - destruct (keep lb) eqn:Hk.
    + destruct (index_first data_a i) as [row|e] eqn:Hrow; cbn [bind]; [|discriminate].
      intros H. apply IH in H as (Hnd & Hin & Hrows). split; [|split].
      * intros H. apply Hnd. apply dict_set_NoDup, H.
      * intros x. rewrite Hin. unfold keys at 1. rewrite dict_set_In. cbn [In].
        split.
        -- intros [[->|H]|[H1 H2]]; auto.
        -- intros [H|[[->|H1] H2]]; auto.
      * intros [|j] lb' Hj Hk'.
        -- rewrite Nat.add_0_r. eauto.
        -- replace (i + S j)%nat with (S i + j)%nat by lia. apply (Hrows j lb'); assumption.
    + intros H. apply IH in H as (Hnd & Hin & Hrows). split; [exact Hnd|]. split.
      * intros x. rewrite Hin. cbn [In]. split.
        -- intros [H|[H1 H2]]; auto.
        -- intros [H|[[->|H1] H2]]; [auto | congruence | auto].
      * intros [|j] lb' Hj Hk'.
        -- cbn in Hj. injection Hj as ->. congruence.
        -- replace (i + S j)%nat with (S i + j)%nat by lia. apply (Hrows j lb'); assumption.
Qed.

(** X11. The dictionary [selecionar_variaveis_interesse] builds has distinct
    keys: the time key and the labels that are asked for (all of them when no
    names are given); so its export never renames a column. *)
Theorem selecionar_variaveis_interesse_keys (self : Pl4Processor) (d : full_dict)
        (m : interest_dict) :
  selecionar_variaveis_interesse self d = Ok m ->
  NoDup (keys m) /\ In "time" (keys m) /\
  (forall x, In x (keys m) <->
     x = "time" \/
     (In x (default [] (labels d)) /\
      match self_nomes_interesse self with
      | None => True
      | Some names => In x names
      end)) /\
  (forall fs path c fs' path' n cols,
     save_results_parquet fs path (Interesse m) c = (fs', Ok (path', n, cols)) ->
     cols = "time" :: series_names "time" m).
Proof.
  unfold selecionar_variaveis_interesse.
  destruct (time d) as [ta|]; [|discriminate]. destruct (data d) as [da|]; [|discriminate].
  intros H. apply seleciona_keys in H as (Hnd & Hin & _).
  assert (Hnd' : NoDup (keys m)) by (apply Hnd; cbn; apply NoDup_singleton).
  assert (Htime : In "time" (keys m)) by (apply Hin; left; left; reflexivity).
  split; [exact Hnd'|]. split; [exact Htime|]. split.
  - intros x. rewrite Hin. cbn [keys map fst In].
    destruct (self_nomes_interesse self) as [names|].
    + split.
      * intros [[<-|[]]|[H1 H2]]; [auto|]. right. split; [exact H1|].
        apply existsb_exists in H2 as (y & Hy & Heq). apply String.eqb_eq in Heq. subst y. exact Hy.
      * intros [->|[H1 H2]]; [auto|]. right. split; [exact H1|].
        apply existsb_exists. exists x. split; [exact H2 | apply String.eqb_refl].
    + split.
      * intros [[<-|[]]|[H1 H2]]; auto.
      * intros [->|[H1 H2]]; auto.
  - intros fs path c fs' path' n cols Hs.
    rewrite (save_interesse_columns _ _ _ _ _ _ _ _ Hnd' Hs). unfold time_key_of.
    assert (Hh : has_key "time" m = true).
    { unfold has_key. apply existsb_exists. exists "time". split; [exact Htime | reflexivity]. }
    rewrite Hh. reflexivity.
Qed.

Lemma selecionar_variaveis_interesse_keys_witness :
  exists m, selecionar_variaveis_interesse (init false false 1 (fl 1) (fl 0) "inicio" None)
              rotulos_AA = Ok m /\ NoDup (keys m).
Proof.
  eexists. split; [vm_compute; reflexivity|].
  eapply (selecionar_variaveis_interesse_keys
            (init false false 1 (fl 1) (fl 0) "inicio" None) rotulos_AA).
  vm_compute. reflexivity.
Defined.

Lemma get_dict_set (k k' : string) (v : ndarray) (d : interest_dict) :
  get k (dict_set k' v d) = if String.eqb k k' then Some v else get k d.
Proof.
  induction d as [|[k0 v0] d IH]; cbn [dict_set get].
  - destruct (String.eqb k k'); reflexivity.
  - destruct (String.eqb_spec k' k0) as [->|Hne]; cbn [get].
    + destruct (String.eqb k k0); reflexivity.
    + destruct (String.eqb_spec k k0) as [->|Hne'].
      * destruct (String.eqb_spec k0 k'); [congruence | reflexivity].
      * exact IH.
Qed.

Lemma seleciona_get keep data_a (i : nat) (lbls : list string) (out out' : interest_dict)
      (x : string) :
  seleciona keep data_a i lbls out = Ok out' ->
  (forall j, lbls !! j = Some x -> keep x = false) \/ ~ In x lbls ->
  get x out' = get x out.
Proof.
  revert i out. induction lbls as [|lb rest IH]; intros i out; cbn [seleciona].
  - intros [= <-] _. reflexivity.
  - intros H Hx.
    assert (Hrest : (forall j, rest !! j = Some x -> keep x = false) \/ ~ In x rest).
    { destruct Hx as [Hx|Hx]; [left; intros j Hj; apply (Hx (S j)); exact Hj|].
      right. intros Hin. apply Hx. right. exact Hin. }
    destruct (keep lb) eqn:Hk.
    + destruct (index_first data_a i) as [row|e]; cbn [bind] in H; [|discriminate].
      rewrite (IH _ _ H Hrest), get_dict_set.
      destruct (String.eqb_spec x lb) as [->|]; [|reflexivity].
      exfalso. destruct Hx as [Hx|Hx]; [specialize (Hx 0%nat eq_refl); congruence|].
      apply Hx. left. reflexivity.
    + apply (IH _ _ H Hrest).
Qed.

(** X12. When several channels carry a selected label, the dictionary
    holds the row of the last of them under that label. *)
Theorem selecionar_variaveis_interesse_last_channel_wins (self : Pl4Processor)
        (d : full_dict) (m : interest_dict) (lbls : list string) (j : nat) (lb : string) :
  selecionar_variaveis_interesse self d = Ok m ->
  labels d = Some lbls -> lbls !! j = Some lb ->
  (forall j', (j < j')%nat -> lbls !! j' <> Some lb) ->
  match self_nomes_interesse self with
  | None => True
  | Some names => In lb names
  end ->
  exists da row, data d = Some da /\ index_first da j = Ok row /\ get lb m = Some row.
Proof.
  unfold selecionar_variaveis_interesse.
  destruct (time d) as [ta|]; [|discriminate]. destruct (data d) as [da|]; [|discriminate].
  intros Hs Hl Hj Hlast Hkeep. rewrite Hl in Hs. cbn [default] in Hs.
  set (keep := match self_nomes_interesse self with
               | None => fun _ => true
               | Some names => fun nome => existsb (String.eqb nome) names
               end) in *.
  assert (Hk : keep lb = true).
  { unfold keep. destruct (self_nomes_interesse self) as [names|]; [|reflexivity].
    apply existsb_exists. exists lb. split; [exact Hkeep | apply String.eqb_refl]. }
  exists da.
  assert (Hgen : forall i out, seleciona keep da i lbls out = Ok m ->
            exists row, index_first da (i + j) = Ok row /\ get lb m = Some row).
  { clear Hs Hl. revert j Hj Hlast. induction lbls as [|l0 rest IH]; intros j Hj Hlast i out;
      [discriminate|]. cbn [seleciona]. destruct j as [|j].
    - cbn in Hj. injection Hj as ->. rewrite Hk, Nat.add_0_r.
      destruct (index_first da i) as [row|e]; cbn [bind]; [|discriminate].
      intros H. exists row. split; [reflexivity|].
      rewrite (seleciona_get _ _ _ _ _ _ lb H), get_dict_set, String.eqb_refl; [reflexivity|].
      right. intros Hin. apply list_elem_of_In, list_elem_of_lookup in Hin as [j' Hj'].
      apply (Hlast (S j')); [lia | exact Hj'].
    - replace (i + S j)%nat with (S i + j)%nat by lia.
      assert (Hlast' : forall j', (j < j')%nat -> rest !! j' <> Some lb)
        by (intros j' Hlt; apply (Hlast (S j')); lia).
      destruct (keep l0).
      + destruct (index_first da i) as [row|e]; cbn [bind]; [|discriminate].
        apply (IH j Hj Hlast').
      + apply (IH j Hj Hlast'). }
  destruct (Hgen 0%nat _ Hs) as (row & Hrow & Hget). exists row. auto.
Qed.

Lemma selecionar_variaveis_interesse_last_channel_wins_witness :
  exists m, selecionar_variaveis_interesse (init false false 1 (fl 1) (fl 0) "inicio" None)
              rotulos_AA = Ok m /\ get "A" m = Some (Nd1 [fl 3; fl 4]).
Proof.
  destruct (selecionar_variaveis_interesse (init false false 1 (fl 1) (fl 0) "inicio" None)
              rotulos_AA) as [m|e] eqn:Hm; [|exfalso; revert Hm; vm_compute; discriminate].
  exists m. split; [reflexivity|].
  destruct (selecionar_variaveis_interesse_last_channel_wins
              (init false false 1 (fl 1) (fl 0) "inicio" None) rotulos_AA m ["A"; "A"] 1 "A"
              Hm eq_refl eq_refl) as (da & row & Hda & Hrow & Hget).
  - intros [|[|j']] Hlt; [lia | lia | discriminate].
  - exact I.
  - rewrite Hget. cbn in Hda. injection Hda as <-. cbn in Hrow. injection Hrow as <-. reflexivity.
Defined.

(** *** The batch of [executar] *)







(** ** [RodaeCriaPl4.py]: the batch runner *)

Lemma retry_lookup (attempts : list rm_outcome) (p q : string) (w : world) :
  q <> p -> tmp (retry attempts p w) !! q = tmp w !! q.
Proof.
  intros Hne. induction attempts as [|[| |] rest IH]; cbn; try reflexivity.
  - apply lookup_delete_ne. congruence.
  - exact IH.
Qed.

Lemma limpa_dir_other (rm : nat -> rm_outcome) (p q : string) (w : world) :
  q <> p -> tmp (_limpa_dir rm p w) !! q = tmp w !! q.
Proof.
  intros Hne. unfold _limpa_dir. destruct (tmp w !! p); [|reflexivity].
  destruct (rm 0%nat); [apply lookup_delete_ne; congruence | reflexivity |].
  apply retry_lookup, Hne.
Qed.

Lemma limpa_dir_self (rm : nat -> rm_outcome) (p : string) (w : world) :
  tmp (_limpa_dir rm p w) !! p = if removes rm then None else tmp w !! p.
Proof.
  unfold _limpa_dir, removes. destruct (tmp w !! p) as [b|] eqn:Hp.
  - destruct (rm 0%nat); cbn; [apply lookup_delete_eq | exact Hp |].
    destruct (rm 1%nat); cbn; [apply lookup_delete_eq | exact Hp |].
    destruct (rm 2%nat); cbn; [apply lookup_delete_eq | exact Hp |].
    destruct (rm 3%nat); cbn; [apply lookup_delete_eq | exact Hp | exact Hp].
  - rewrite Hp. destruct (match rm 0%nat with Removed => _ | _ => _ end); reflexivity.
Qed.

Lemma limpa_dir_outputs (rm : nat -> rm_outcome) (p : string) (w : world) :
  arquivo_pl4 (_limpa_dir rm p w) = arquivo_pl4 w /\
  nao_rodados (_limpa_dir rm p w) = nao_rodados w.
Proof.
  unfold _limpa_dir. destruct (tmp w !! p); [|auto].
  destruct (rm 0%nat); cbn; auto.
  destruct (rm 1%nat); cbn; auto. destruct (rm 2%nat); cbn; auto.
  destruct (rm 3%nat); cbn; auto.
Qed.

Lemma run_body_tmp (stem : string) (e : job_env) (w : world) :
  tmp (run_body stem e w).1 = tmp w.
Proof.
  unfold run_body. destruct (negb (copy_ok e)); [reflexivity|].
  destruct (run e); try reflexivity.
  destruct (pl4_generated e); [|reflexivity].
  unfold mover_pl4. destruct (_ && _); [reflexivity|]. destruct (move_ok e); reflexivity.
Qed.

Lemma run_atp_arquivo_tmp (stem : string) (e : job_env) (w : world) :
  let sub := subpasta stem e in
  let w' := (run_atp_arquivo stem e w).1 in
  (forall q, q <> sub -> tmp w' !! q = tmp w !! q) /\
  (tmp w !! sub = None ->
     tmp w' !! sub = if removes (rm e) then None else Some true) /\
  (is_Some (tmp w !! sub) ->
     run_atp_arquivo stem e w = (w, Raise FileExistsError)).
Proof.
  intros sub w'. unfold w', run_atp_arquivo, _cria_subpasta_temp. fold sub.
  destruct (tmp w !! sub) as [b|] eqn:Hsub.
  - split; [reflexivity|]. split; [discriminate | reflexivity].
  - pose proof (run_body_tmp stem e (set_tmp (<[sub:=true]> (tmp w)) w)) as Hb.
    destruct (run_body stem e _) as [w1 r]. cbn [fst] in *.
    split; [|split].
    + intros q Hq. rewrite limpa_dir_other, Hb by exact Hq. cbn.
      apply lookup_insert_ne. congruence.
    + intros _. rewrite limpa_dir_self, Hb. cbn. rewrite lookup_insert_eq. reflexivity.
    + intros [x Hx]. discriminate.
Qed.

Lemma sweep_fold_lookup (srm : string -> nat -> rm_outcome) (l : list (string * bool))
      (w : world) (q : string) :
  tmp (foldr (fun (kv : string * bool) w' =>
                if kv.2 then _limpa_dir (srm kv.1) kv.1 w' else w') w l) !! q =
  if bool_decide ((q, true) ∈ l) && removes (srm q) then None else tmp w !! q.
Proof.
  induction l as [|[k b] l IH]; [reflexivity|]. cbn [foldr snd fst].
  destruct b.
  - destruct (decide (q = k)) as [->|Hne].
    + rewrite limpa_dir_self, IH.
      rewrite (bool_decide_eq_true_2 ((k, true) ∈ (k, true) :: l)) by (left).
      cbn [andb]. destruct (removes (srm k)); [reflexivity|].
      rewrite andb_false_r. reflexivity.
    + rewrite limpa_dir_other by exact Hne. rewrite IH.
      rewrite (bool_decide_ext ((q, true) ∈ l) ((q, true) ∈ (k, true) :: l)); [reflexivity|].
      rewrite elem_of_cons. split; [auto|]. intros [[= ->]|H]; [contradiction | exact H].
  - rewrite IH.
    rewrite (bool_decide_ext ((q, true) ∈ l) ((q, true) ∈ (k, false) :: l)); [reflexivity|].
    rewrite elem_of_cons. split; [auto|]. intros [[=]|H]; exact H.
Qed.

Lemma sweep_lookup (srm : string -> nat -> rm_outcome) (w : world) (q : string) :
  tmp (sweep srm w) !! q =
    match tmp w !! q with
    | Some true => if removes (srm q) then None else Some true
    | o => o
    end.
Proof.
  unfold sweep. rewrite sweep_fold_lookup.
  destruct (tmp w !! q) as [[|]|] eqn:Hq.
  - rewrite bool_decide_eq_true_2 by (apply elem_of_map_to_list; exact Hq). reflexivity.
  - rewrite bool_decide_eq_false_2; [reflexivity|].
    rewrite elem_of_map_to_list. congruence.
  - rewrite bool_decide_eq_false_2; [reflexivity|].
    rewrite elem_of_map_to_list. congruence.
Qed.

Lemma wait_below_ends (fuel : nat) probe (limit k : nat) :
  (exists j, (j < fuel)%nat /\ (conta_tpbig (probe (k + j)%nat) < limit)%nat) ->
  exists k', wait_below fuel probe limit k = Some k'.
Proof.
  revert k. induction fuel as [|fuel IH]; intros k (j & Hj & Hp); [lia|].
  cbn [wait_below]. destruct (Nat.ltb_spec (conta_tpbig (probe k)) limit); [eauto|].
  destruct j as [|j]; [rewrite Nat.add_0_r in Hp; lia|].
  apply IH. exists j. split; [lia|]. replace (S k + j)%nat with (k + S j)%nat by lia. exact Hp.
Qed.

Lemma submit_all_ends (fuel : nat) probe (limit : nat) jobs (k : nat) :
  (forall k, exists j, (j < fuel)%nat /\ (conta_tpbig (probe (k + j)%nat) < limit)%nat) ->
  exists k', submit_all fuel probe limit jobs k = Some k'.
Proof.
  intros H. revert k. induction jobs as [|job jobs IH]; intros k; cbn [submit_all]; [eauto|].
  destruct (wait_below_ends fuel probe limit k (H k)) as [k' ->]. apply IH.
Qed.

Lemma NUMTHREADS_pos (n : nat) : (1 <= NUMTHREADS n)%nat.
Proof. unfold NUMTHREADS. lia. Qed.

(** C7 (amended). Whatever the outcome of a job, [run_atp_arquivo] touches
    no temporary folder but its own and leaves its own exactly when the
    removal fails; after a batch, every subfolder still present in the
    temporary root is one whose removal in the final sweep failed; and the
    batch ends once the readings of the process table settle. *)
Theorem cleanup_attempted_on_every_outcome :
  (forall stem e w,
     let sub := subpasta stem e in
     let w' := (run_atp_arquivo stem e w).1 in
     (forall q, q <> sub -> tmp w' !! q = tmp w !! q) /\
     (tmp w !! sub = None ->
        tmp w' !! sub = if removes (rm e) then None else Some true)) /\
  (forall fuel env w w' results,
     runatp_exists env = true -> atp_files env <> [] ->
     main fuel env w = Some (w', results) ->
     forall q, tmp w' !! q = Some true -> removes (sweep_rm env q) = false) /\
  (forall fuel env w,
     probes_settle fuel env -> exists out, main fuel env w = Some out).
Proof.
  split; [|split].
  - intros stem e w sub w'.
    destruct (run_atp_arquivo_tmp stem e w) as (H1 & H2 & _). split; assumption.
  - intros fuel env w w' results Hexe Hfiles Hmain q Hq.
    unfold main in Hmain. rewrite Hexe in Hmain. cbn [negb] in Hmain.
    destruct (atp_files env) as [|job jobs] eqn:Hj; [congruence|].
    destruct (submit_all _ _ _ _ _) as [k|]; [|discriminate].
    destruct (run_all _ _) as [w1 res].
    destruct (wait_below _ _ _ _); [|discriminate].
    injection Hmain as <- <-. rewrite sweep_lookup in Hq.
    destruct (tmp w1 !! q) as [[|]|]; try discriminate.
    destruct (removes (sweep_rm env q)); [discriminate | reflexivity].
  - intros fuel env w Hp. unfold main.
    destruct (negb (runatp_exists env)); [eauto|].
    destruct (atp_files env) as [|job jobs]; [eauto|].
    destruct (submit_all_ends fuel (probe env) (NUMTHREADS (cpu_count env)) (job :: jobs) 0)
      as [k ->].
    { intros k. destruct (Hp k) as (j & Hj & H0). exists j. split; [exact Hj|].
      pose proof (NUMTHREADS_pos (cpu_count env)). lia. }
    destruct (run_all _ _) as [w1 res].
    destruct (wait_below_ends fuel (probe env) 1 k) as [k' ->]; [|eauto].
    destruct (Hp k) as (j & Hj & H0). exists j. split; [exact Hj | lia].
Qed.

(** C7, as stated, fails: a folder whose removal fails survives the batch. *)
Lemma working_directory_survives :
  exists w' results,
    main 1 (lote job_preso Ignored) mundo_vazio = Some (w', results) /\
    tmp w' !! "caso__0a1b2c3d" = Some true.
Proof. eexists _, _. split; [vm_compute; reflexivity | reflexivity]. Qed.

Lemma cleanup_attempted_on_every_outcome_witness :
  exists w' results,
    main 1 (lote job_livre Removed) mundo_vazio = Some (w', results) /\
    tmp w' = ∅.
Proof.
  destruct cleanup_attempted_on_every_outcome as (_ & _ & Hends).
  destruct (Hends 1%nat (lote job_livre Removed) mundo_vazio) as [[w' results] Hmain].
  { intros k. exists 0%nat. split; [lia | reflexivity]. }
  exists w', results. split; [exact Hmain|].
  assert (Hc : main 1 (lote job_livre Removed) mundo_vazio
               = Some ({| tmp := ∅; arquivo_pl4 := ∅; nao_rodados := {["caso.atp"]} |}, []))
    by (vm_compute; reflexivity).
  rewrite Hc in Hmain. injection Hmain as <- _. reflexivity.
Defined.

Lemma count_if_le {A} (f : A -> bool) (l : list A) : (count_if f l <= length l)%nat.
Proof.
  unfold count_if. induction l as [|x l IH]; cbn; [lia|].
  destruct (f x); cbn; lia.
Qed.

Lemma count_if_mono {A} (f g : A -> bool) (l : list A) :
  (forall x, f x = true -> g x = true) -> (count_if f l <= count_if g l)%nat.
Proof.
  intros H. unfold count_if. induction l as [|x l IH]; cbn; [lia|].
  destruct (f x) eqn:Hf.
  - rewrite (H x Hf). cbn. lia.
  - destruct (g x); cbn; lia.
Qed.

Lemma step_workers_bound (p q : pool) :
  step p q ->
  (length (workers p) <= max_workers p)%nat ->
  max_workers q = max_workers p /\ (length (workers q) <= max_workers q)%nat.
Proof.
  intros Hs Hb. destruct Hs; cbn [max_workers workers]; (split; [reflexivity|]);
    rewrite ?length_insert, ?length_app; cbn [length]; lia.
Qed.

Lemma reachable_workers_bound (k : nat) (jobs : list string) (p : pool) :
  reachable k jobs p -> max_workers p = k /\ (length (workers p) <= k)%nat.
Proof.
  induction 1 as [|p q Hr [Hk Hb] Hs].
  - cbn. split; [reflexivity | lia].
  - destruct (step_workers_bound p q Hs) as [Hk' Hb']; [lia|]. split; lia.
Qed.

(** C8. In every state the thread pool of [main] can reach, the number of
    jobs being run is at most [NUMTHREADS], and the number of simulator
    launches in flight is at most the number of jobs being run. *)
Theorem running_jobs_bounded (cpu_count : nat) (jobs : list string) (p : pool) :
  reachable (NUMTHREADS cpu_count) jobs p ->
  (running p <= NUMTHREADS cpu_count)%nat /\ (in_flight p <= running p)%nat.
Proof.
  intros Hr. destruct (reachable_workers_bound _ _ _ Hr) as [_ Hb].
  split.
  - pose proof (count_if_le is_busy (workers p)). unfold running. lia.
  - apply count_if_mono. intros [|j [| |]]; cbn; congruence.
Qed.

Lemma pool_two_running_reachable : reachable (NUMTHREADS 4) ["a"; "b"] pool_two_running.
Proof.
  pose proof (reach_init (NUMTHREADS 4) ["a"; "b"]) as H.
  eapply reach_step in H;
    [|eapply (step_submit_spawn _ "a" ["b"]); [reflexivity | cbn; lia]]; cbn in H.
  eapply reach_step in H;
    [|eapply (step_submit_spawn _ "b" []); [reflexivity | cbn; lia]]; cbn in H.
  eapply reach_step in H; [|eapply (step_take _ 0%nat "a" ["b"]); reflexivity]; cbn in H.
  eapply reach_step in H; [|eapply (step_take _ 1%nat "b" []); reflexivity]; cbn in H.
  eapply reach_step in H; [|eapply (step_launch _ 0%nat "a"); reflexivity]; cbn in H.
  eapply reach_step in H; [|eapply (step_launch _ 1%nat "b"); reflexivity]; cbn in H.
  exact H.
Qed.

Lemma running_jobs_bounded_witness :
  (running pool_two_running <= 2)%nat /\ in_flight pool_two_running = 2%nat.
Proof.
  destruct (running_jobs_bounded 4 ["a"; "b"] pool_two_running pool_two_running_reachable)
    as [Hrun Hfl].
  split; [exact Hrun | reflexivity].
Defined.

(** *** No job is lost or run twice *)

Lemma busy_jobs_insert (ws : list worker) (i : nat) (old new : worker) :
  ws !! i = Some old ->
  omap job_of (<[i := new]> ws) ≡ₚ
    option_list (job_of new) ++ omap job_of (take i ws ++ drop (S i) ws).
Proof.
  intros Hi. rewrite insert_take_drop by (eapply lookup_lt_Some; eauto).
  rewrite !omap_app. cbn [omap list_omap]. destruct (job_of new); cbn.
  - rewrite Permutation_middle. reflexivity.
  - reflexivity.
Qed.

Lemma busy_jobs_lookup (ws : list worker) (i : nat) (old : worker) :
  ws !! i = Some old ->
  omap job_of ws ≡ₚ option_list (job_of old) ++ omap job_of (take i ws ++ drop (S i) ws).
Proof.
  intros Hi. rewrite <- (take_drop_middle ws i old Hi) at 1.
  rewrite !omap_app. cbn [omap list_omap]. destruct (job_of old); cbn.
  - rewrite Permutation_middle. reflexivity.
  - reflexivity.
Qed.

Lemma step_all_jobs (p q : pool) : step p q -> all_jobs q ≡ₚ all_jobs p.
Proof.
  intros Hs. unfold all_jobs.
  destruct Hs as [p j rest Hsub Hlt|p j rest Hsub|p i j rest Hi Hq|p i j Hi|p i j Hi|p i j ph Hi Hph];
    cbn [to_submit queue workers finished].
  - rewrite Hsub, omap_app. cbn [omap list_omap]. solve_Permutation.
  - rewrite Hsub. solve_Permutation.
  - rewrite Hq, (busy_jobs_insert _ _ _ _ Hi), (busy_jobs_lookup _ _ _ Hi). cbn.
    solve_Permutation.
  - rewrite (busy_jobs_insert _ _ _ _ Hi), (busy_jobs_lookup _ _ _ Hi). reflexivity.
  - rewrite (busy_jobs_insert _ _ _ _ Hi), (busy_jobs_lookup _ _ _ Hi). reflexivity.
  - rewrite (busy_jobs_insert _ _ _ _ Hi), (busy_jobs_lookup _ _ _ Hi). cbn.
    solve_Permutation.
Qed.

(** X13. In every state the thread pool can reach, the jobs still to be
    submitted, queued, held by a worker and finished are together a
    permutation of the batch: no job is lost and none is run twice. *)
Theorem pool_keeps_every_job (k : nat) (jobs : list string) (p : pool) :
  reachable k jobs p ->
  to_submit p ++ queue p ++ busy_jobs p ++ finished p ≡ₚ jobs.
Proof.
  change (busy_jobs p) with (omap job_of (workers p)). fold (all_jobs p).
  induction 1 as [|p q Hr IH Hs].
  - unfold all_jobs. cbn. rewrite app_nil_r. reflexivity.
  - rewrite (step_all_jobs p q Hs). exact IH.
Qed.

Lemma pool_keeps_every_job_witness : busy_jobs pool_two_running ≡ₚ ["a"; "b"].
Proof.
  pose proof (pool_keeps_every_job (NUMTHREADS 4) ["a"; "b"] pool_two_running
                pool_two_running_reachable) as H.
  cbn in H. exact H.
Defined.

(** *** The final sweep *)

Lemma sweep_fold_outputs (srm : string -> nat -> rm_outcome) (l : list (string * bool))
      (w : world) :
  let w' := foldr (fun (kv : string * bool) w' =>
                     if kv.2 then _limpa_dir (srm kv.1) kv.1 w' else w') w l in
  arquivo_pl4 w' = arquivo_pl4 w /\ nao_rodados w' = nao_rodados w.
Proof.
  induction l as [|[k b] l IH]; cbn [foldr snd fst]; [auto|].
  destruct b; [|exact IH].
  destruct (limpa_dir_outputs (srm k) k
              (foldr (fun (kv : string * bool) w' =>
                        if kv.2 then _limpa_dir (srm kv.1) kv.1 w' else w') w l)) as [H1 H2].
  cbv zeta in IH. destruct IH as [IH1 IH2]. split; congruence.
Qed.

(** X14. The final sweep leaves regular files and absent names of the
    temporary root as they are, removes a subfolder exactly when its removal
    succeeds, and changes neither output folder. *)
Theorem sweep_touches_only_directories (srm : string -> nat -> rm_outcome) (w : world) :
  (forall q, tmp w !! q = Some false -> tmp (sweep srm w) !! q = Some false) /\
  (forall q, tmp w !! q = None -> tmp (sweep srm w) !! q = None) /\
  (forall q, tmp w !! q = Some true ->
     tmp (sweep srm w) !! q = if removes (srm q) then None else Some true) /\
  arquivo_pl4 (sweep srm w) = arquivo_pl4 w /\
  nao_rodados (sweep srm w) = nao_rodados w.
Proof.
  split; [|split; [|split]].
  - intros q Hq. rewrite sweep_lookup, Hq. reflexivity.
  - intros q Hq. rewrite sweep_lookup, Hq. reflexivity.
  - intros q Hq. rewrite sweep_lookup, Hq. reflexivity.
  - apply (sweep_fold_outputs srm (map_to_list (tmp w)) w).
Qed.

Lemma sweep_touches_only_directories_witness :
  tmp (sweep (fun _ _ => Removed)
         {| tmp := {["nota.txt" := false]}; arquivo_pl4 := ∅; nao_rodados := ∅ |})
    !! "nota.txt" = Some false.
Proof.
  destruct (sweep_touches_only_directories (fun _ _ => Removed)
              {| tmp := {["nota.txt" := false]}; arquivo_pl4 := ∅; nao_rodados := ∅ |})
    as (Hfile & _).
  apply Hfile. reflexivity.
Defined.

(** *** What a job leaves in the output folders *)

Lemma run_body_result (stem : string) (e : job_env) (w : world) :
  let (w', r) := run_body stem e w in
  match r with
  | Ok (Some destino) =>
      destino = pl4_name stem /\ destino ∈ arquivo_pl4 w' /\
      copy_ok e = true /\ run e = Exited /\ pl4_generated e = true /\ move_ok e = true /\
      nao_rodados w' = nao_rodados w
  | Ok None =>
      copy_ok e = true /\ run e = Exited /\ pl4_generated e = false /\
      arquivo_pl4 w' = arquivo_pl4 w /\
      w' = _copia_cartao_nao_rodado stem e w
  | Raise (RuntimeError _) =>
      pl4_generated e = true /\ nao_rodados w' = nao_rodados w /\
      (move_ok e = false \/ unlink_ok e = false) /\
      (unlink_ok e = true -> pl4_name stem ∉ arquivo_pl4 w')
  | Raise _ => w' = w
  end.
Proof.
  unfold run_body. destruct (copy_ok e); cbn [negb]; [|reflexivity].
  destruct (run e); [|reflexivity|reflexivity].
  destruct (pl4_generated e); [|auto 10].
  unfold mover_pl4. destruct (bool_decide (pl4_name stem ∈ arquivo_pl4 w)) eqn:Hin.
  - destruct (unlink_ok e); cbn [negb andb].
    + destruct (move_ok e); cbn.
      * repeat split; try reflexivity. set_solver.
      * repeat split; auto. intros _. set_solver.
    + repeat split; auto. intros [=].
  - cbn [andb]. destruct (move_ok e); cbn.
    + repeat split; try reflexivity. set_solver.
    + repeat split; auto. intros _. set_solver.
Qed.

Lemma run_atp_arquivo_result (stem : string) (e : job_env) (w w' : world)
      (r : result (option string)) :
  run_atp_arquivo stem e w = (w', r) ->
  match r with
  | Ok (Some destino) =>
      destino = pl4_name stem /\ destino ∈ arquivo_pl4 w' /\
      pl4_generated e = true /\ move_ok e = true /\ nao_rodados w' = nao_rodados w
  | Ok None =>
      pl4_generated e = false /\ arquivo_pl4 w' = arquivo_pl4 w /\
      (q_copy_ok e = true ->
       q_unlink_ok e = true \/ atp_name stem ∉ nao_rodados w ->
       atp_name stem ∈ nao_rodados w')
  | Raise (RuntimeError _) =>
      nao_rodados w' = nao_rodados w /\
      (unlink_ok e = true -> pl4_name stem ∉ arquivo_pl4 w')
  | Raise _ => arquivo_pl4 w' = arquivo_pl4 w /\ nao_rodados w' = nao_rodados w
  end.
Proof.
  unfold run_atp_arquivo, _cria_subpasta_temp.
  destruct (tmp w !! subpasta stem e); [intros [= <- <-]; auto|].
  pose proof (run_body_result stem e (set_tmp (<[subpasta stem e:=true]> (tmp w)) w)) as Hb.
  destruct (run_body stem e _) as [w1 r1].
  intros [= <- <-].
  destruct (limpa_dir_outputs (rm e) (subpasta stem e) w1) as [Hp Hq]. rewrite Hp, Hq.
  destruct r1 as [[destino|]|err].
  - destruct Hb as (H1 & H2 & _ & _ & H3 & H4 & H5). auto.
  - destruct Hb as (_ & _ & H1 & H2 & ->). split; [exact H1|]. split; [exact H2|].
    intros Hc Hu. unfold _copia_cartao_nao_rodado. cbn [nao_rodados set_tmp].
    rewrite Hc. case_bool_decide as Hin.
    + destruct Hu as [->|Hu]; [set_solver | contradiction].
    + set_solver.
  - destruct err; try (rewrite Hb; cbn; auto).
    destruct Hb as (_ & H1 & _ & H2). auto.
Qed.



(** X16. After the batch loop has handled a job, its .pl4 is appended to
    the results exactly when the job returned one; in every other case the
    results are unchanged and the card is in the folder of cards not run,
    provided its copy succeeds. *)
Theorem job_without_pl4_is_quarantined (stem : string) (e : job_env) (w : world)
        (acc : list string) :
  let job := run_atp_arquivo stem e w in
  let after := collect stem e job.2 (job.1, acc) in
  match job.2 with
  | Ok (Some destino) =>
      after.2 = acc ++ [destino] /\ nao_rodados after.1 = nao_rodados w
  | _ =>
      after.2 = acc /\
      (q_copy_ok e = true ->
       q_unlink_ok e = true \/ atp_name stem ∉ nao_rodados w ->
       atp_name stem ∈ nao_rodados after.1)
  end.
Proof.
  intros job after. subst after. unfold job.
  destruct (run_atp_arquivo stem e w) as [w1 r] eqn:Hjob. cbn [fst snd].
  pose proof (run_atp_arquivo_result stem e w w1 r Hjob) as Hout.
  destruct r as [[destino|]|err]; cbn [collect fst snd].
  - destruct Hout as (_ & _ & _ & _ & Hq). auto.
  - destruct Hout as (_ & _ & Hq). auto.
  - split; [reflexivity|]. intros Hc Hu.
    assert (Hsame : nao_rodados w1 = nao_rodados w) by (destruct err; destruct Hout; auto).
    unfold _copia_cartao_nao_rodado. cbn [nao_rodados]. rewrite Hc, Hsame.
    case_bool_decide as Hin.
    + destruct Hu as [->|Hu]; [set_solver | contradiction].
    + set_solver.
Qed.

Lemma job_without_pl4_is_quarantined_witness :
  "caso.atp" ∈ nao_rodados
    (collect "caso" job_timeout (run_atp_arquivo "caso" job_timeout mundo_vazio).2
       ((run_atp_arquivo "caso" job_timeout mundo_vazio).1, [])).1.
Proof.
  pose proof (job_without_pl4_is_quarantined "caso" job_timeout mundo_vazio []) as H.
  cbv zeta in H.
  change (run_atp_arquivo "caso" job_timeout mundo_vazio).2
    with (@Raise (option string) TimeoutExpired) in H at 1.
  cbv beta iota in H. destruct H as [_ H]. apply H; [reflexivity | left; reflexivity].
Defined.

(** *** The process counter *)

(** X17. [conta_tpbig] counts at most the listed processes, counts none
    exactly when no listed name is tpbig.exe up to letter case, and is
    additive over the process list. *)
Theorem conta_tpbig_counts_by_lowercase_name (procs : list (option string)) :
  (conta_tpbig procs <= length procs)%nat /\
  (conta_tpbig procs = 0%nat <->
   forall n, In (Some n) procs -> lower n <> "tpbig.exe") /\
  (forall more, conta_tpbig (procs ++ more) = (conta_tpbig procs + conta_tpbig more)%nat).
Proof.
  assert (Htp : forall n, is_tpbig (Some n) = true <-> lower n = "tpbig.exe").
  { intros n. cbn. split.
    - intros H. apply andb_prop in H as [_ H]. apply String.eqb_eq, H.
    - intros H. rewrite H. cbn. destruct n; [discriminate | reflexivity]. }
  split; [|split].
  - induction procs as [|p procs IH]; cbn [conta_tpbig length]; [lia|].
    destruct (is_tpbig p); lia.
  - induction procs as [|p procs IH]; cbn [conta_tpbig].
    + split; [intros _ n [] | reflexivity].
    + destruct (is_tpbig p) eqn:Hp.
      * split; [lia|]. intros H. exfalso. destruct p as [n|]; [|discriminate].
        apply (H n); [left; reflexivity | apply Htp, Hp].
      * cbn [Nat.add]. rewrite IH. split.
        -- intros H n [->|Hin]; [|apply H, Hin].
           intros Hl. apply Htp in Hl. congruence.
        -- intros H n Hin. apply H. right. exact Hin.
  - intros more. induction procs as [|p procs IH]; cbn [conta_tpbig app]; [reflexivity|].
    rewrite IH. lia.
Qed.

Lemma conta_tpbig_counts_by_lowercase_name_witness :
  conta_tpbig [Some "python.exe"; None; Some "cmd.exe"] = 0%nat.
Proof.
  destruct (conta_tpbig_counts_by_lowercase_name [Some "python.exe"; None; Some "cmd.exe"])
    as (_ & Hzero & _).
  apply Hzero. intros n [[= <-]|[[=]|[[= <-]|[]]]]; vm_compute; discriminate.
Defined.

(** *** The batch as a whole *)

Lemma run_all_cons (stem : string) (e : job_env) (rest : list (string * job_env))
      (acc : world * list string) :
  run_all ((stem, e) :: rest) acc = run_all rest (job_step stem e acc).
Proof.
  cbn [run_all]. unfold job_step. destruct (run_atp_arquivo stem e acc.1) as [w1 r].
  reflexivity.
Qed.

Lemma append_inj_r (s1 s2 t : string) : s1 +:+ t = s2 +:+ t -> s1 = s2.
Proof.
  revert s2. induction s1 as [|c s1 IH]; intros [|c2 s2] H.
  - reflexivity.
  - exfalso. apply (f_equal String.length) in H.
    change ("" +:+ t) with t in H. rewrite string_length_app in H. cbn in H. lia.
  - exfalso. apply (f_equal String.length) in H.
    change ("" +:+ t) with t in H. rewrite string_length_app in H. cbn in H. lia.
  - change (String c (s1 +:+ t) = String c2 (s2 +:+ t)) in H.
    injection H as -> H. f_equal. apply IH, H.
Qed.

Lemma pl4_name_inj (s1 s2 : string) : pl4_name s1 = pl4_name s2 -> s1 = s2.
Proof. apply append_inj_r. Qed.

Lemma copia_nao_rodados (stem : string) (e : job_env) (w : world) :
  tmp (_copia_cartao_nao_rodado stem e w) = tmp w /\
  arquivo_pl4 (_copia_cartao_nao_rodado stem e w) = arquivo_pl4 w /\
  (q_copy_ok e = true -> q_unlink_ok e = true ->
   nao_rodados w ⊆ nao_rodados (_copia_cartao_nao_rodado stem e w) /\
   atp_name stem ∈ nao_rodados (_copia_cartao_nao_rodado stem e w)).
Proof.
  unfold _copia_cartao_nao_rodado. cbn [tmp arquivo_pl4 nao_rodados].
  split; [reflexivity|]. split; [reflexivity|]. intros -> ->.
  case_bool_decide; split; try set_solver.
  intros x Hx. destruct (decide (x = atp_name stem)) as [->|Hne]; set_solver.
Qed.

Lemma mover_pl4_result (stem : string) (e : job_env) (w : world) :
  let (w', r) := mover_pl4 stem e w in
  tmp w' = tmp w /\ nao_rodados w' = nao_rodados w /\
  (forall x, x <> pl4_name stem -> x ∈ arquivo_pl4 w' <-> x ∈ arquivo_pl4 w) /\
  match r with
  | Ok destino => destino = pl4_name stem /\ pl4_name stem ∈ arquivo_pl4 w' /\ move_ok e = true
  | Raise _ => True
  end.
Proof.
  unfold mover_pl4. destruct (_ && _); [cbn; tauto|].
  destruct (move_ok e); cbn; repeat split; auto; set_solver.
Qed.

(** What one card changes: the results grow by the card's own [.pl4], now
    in the results folder, or stay as they are and the card is copied to
    the folder of cards not run; no other [.pl4] is touched. *)
Lemma job_step_facts (stem : string) (e : job_env) (acc : world * list string) :
  let after := job_step stem e acc in
  (forall x, x <> pl4_name stem -> x ∈ arquivo_pl4 after.1 <-> x ∈ arquivo_pl4 acc.1) /\
  (q_copy_ok e = true -> q_unlink_ok e = true -> nao_rodados acc.1 ⊆ nao_rodados after.1) /\
  ((after.2 = acc.2 ++ [pl4_name stem] /\ pl4_name stem ∈ arquivo_pl4 after.1 /\
    pl4_generated e = true /\ move_ok e = true) \/
   (after.2 = acc.2 /\
    (q_copy_ok e = true -> q_unlink_ok e = true -> atp_name stem ∈ nao_rodados after.1))).
Proof.
  destruct acc as [w acc]. unfold job_step. cbn [fst snd].
  unfold run_atp_arquivo, _cria_subpasta_temp.
  destruct (tmp w !! subpasta stem e) as [b|].
  { cbn [fst snd collect].
    destruct (copia_nao_rodados stem e w) as (_ & -> & Hq).
    split; [tauto|]. split; [intros Hc Hu; apply (Hq Hc Hu)|].
    right. split; [reflexivity|]. intros Hc Hu. apply (Hq Hc Hu). }
  set (w0 := set_tmp _ w).
  assert (Ha0 : arquivo_pl4 w0 = arquivo_pl4 w) by reflexivity.
  assert (Hn0 : nao_rodados w0 = nao_rodados w) by reflexivity.
  clearbody w0. unfold run_body.
  destruct (copy_ok e); cbn [negb];
    [|cbn [fst snd collect];
      destruct (limpa_dir_outputs (rm e) (subpasta stem e) w0) as [Hp Hn];
      destruct (copia_nao_rodados stem e (_limpa_dir (rm e) (subpasta stem e) w0))
        as (_ & -> & Hq); rewrite Hp, Ha0; rewrite Hn, Hn0 in Hq;
      split; [tauto|]; split; [intros Hc Hu; apply (Hq Hc Hu)|];
      right; split; [reflexivity|]; intros Hc Hu; apply (Hq Hc Hu)].
  destruct (run e);
    [|cbn [fst snd collect];
      destruct (limpa_dir_outputs (rm e) (subpasta stem e) w0) as [Hp Hn];
      destruct (copia_nao_rodados stem e (_limpa_dir (rm e) (subpasta stem e) w0))
        as (_ & -> & Hq); rewrite Hp, Ha0; rewrite Hn, Hn0 in Hq;
      split; [tauto|]; split; [intros Hc Hu; apply (Hq Hc Hu)|];
      right; split; [reflexivity|]; intros Hc Hu; apply (Hq Hc Hu)..].
  destruct (pl4_generated e).
  - pose proof (mover_pl4_result stem e w0) as Hm.
    destruct (mover_pl4 stem e w0) as [w1 [destino|err]];
      destruct Hm as (_ & Hn1 & Hx1 & Hr); cbn [fst snd collect];
      destruct (limpa_dir_outputs (rm e) (subpasta stem e) w1) as [Hp Hn].
    + destruct Hr as (-> & Hin & Hmv). rewrite Hp, Hn, Hn1, Hn0.
      split; [intros x Hx; rewrite (Hx1 x Hx), Ha0; tauto|].
      split; [intros _ _; set_solver|].
      left. auto.
    + destruct (copia_nao_rodados stem e (_limpa_dir (rm e) (subpasta stem e) w1))
        as (_ & -> & Hq). rewrite Hp. rewrite Hn, Hn1, Hn0 in Hq.
      split; [intros x Hx; rewrite (Hx1 x Hx), Ha0; tauto|].
      split; [intros Hc Hu; apply (Hq Hc Hu)|].
      right. split; [reflexivity|]. intros Hc Hu. apply (Hq Hc Hu).
  - cbn [fst snd collect].
    destruct (limpa_dir_outputs (rm e) (subpasta stem e) (_copia_cartao_nao_rodado stem e w0))
      as [Hp Hn].
    destruct (copia_nao_rodados stem e w0) as (_ & Ha & Hq).
    rewrite Hp, Hn, Ha, Ha0. rewrite Hn0 in Hq.
    split; [tauto|]. split; [intros Hc Hu; apply (Hq Hc Hu)|].
    right. split; [reflexivity|]. intros Hc Hu. apply (Hq Hc Hu).
Qed.

Lemma run_all_results (jobs : list (string * job_env)) (acc : world * list string) :
  exists new, (run_all jobs acc).2 = acc.2 ++ new /\ (length new <= length jobs)%nat /\
    Forall (fun r => exists stem e, In (stem, e) jobs /\ r = pl4_name stem /\
                       pl4_generated e = true /\ move_ok e = true) new.
Proof.
  revert acc. induction jobs as [|[stem e] jobs IH]; intros acc.
  - exists []. cbn. rewrite app_nil_r. auto.
  - rewrite run_all_cons. destruct (IH (job_step stem e acc)) as (new & -> & Hlen & Hall).
    assert (Hmono : Forall (fun r => exists stem0 e0, In (stem0, e0) ((stem, e) :: jobs) /\
                       r = pl4_name stem0 /\ pl4_generated e0 = true /\ move_ok e0 = true) new).
    { eapply Forall_impl; [exact Hall|]. intros r (s0 & e0 & Hin & Hr). exists s0, e0.
      split; [right; exact Hin | exact Hr]. }
    destruct (job_step_facts stem e acc) as (_ & _ & [(-> & _ & Hg & Hm)|(-> & _)]).
    + exists (pl4_name stem :: new). rewrite <- app_assoc. split; [reflexivity|].
      split; [cbn; lia|]. constructor; [|exact Hmono].
      exists stem, e. split; [left; reflexivity | auto].
    + exists new. split; [reflexivity|]. split; [cbn; lia | exact Hmono].
Qed.

Lemma run_all_quarantine (jobs : list (string * job_env)) (acc : world * list string) :
  (forall stem e, In (stem, e) jobs -> q_copy_ok e = true /\ q_unlink_ok e = true) ->
  nao_rodados acc.1 ⊆ nao_rodados (run_all jobs acc).1 /\
  forall stem e, In (stem, e) jobs ->
    In (pl4_name stem) (run_all jobs acc).2 \/ atp_name stem ∈ nao_rodados (run_all jobs acc).1.
Proof.
  revert acc. induction jobs as [|[stem e] jobs IH]; intros acc Hq.
  - cbn. split; [reflexivity | intros ? ? []].
  - rewrite run_all_cons.
    destruct (Hq stem e (or_introl eq_refl)) as [Hc Hu].
    destruct (IH (job_step stem e acc)) as [Hsub Hin];
      [intros s0 e0 H0; apply (Hq s0 e0); right; exact H0|].
    destruct (job_step_facts stem e acc) as (_ & Hmono & Hcase).
    split; [etransitivity; [apply (Hmono Hc Hu) | exact Hsub]|].
    intros s0 e0 [[= <- <-]|H0]; [|apply Hin with e0; exact H0].
    destruct (run_all_results jobs (job_step stem e acc)) as (new & Hres & _).
    destruct Hcase as [(Hacc & _)|(_ & Hnr)].
    + left. rewrite Hres, Hacc. apply in_or_app. left. apply in_or_app. right. left. reflexivity.
    + right. apply Hsub, (Hnr Hc Hu).
Qed.

Lemma run_all_saved (jobs : list (string * job_env)) (acc : world * list string) :
  NoDup (map fst jobs) -> NoDup acc.2 ->
  (forall r, In r acc.2 ->
     r ∈ arquivo_pl4 acc.1 /\ forall stem, In stem (map fst jobs) -> r <> pl4_name stem) ->
  NoDup (run_all jobs acc).2 /\
  forall r, In r (run_all jobs acc).2 -> r ∈ arquivo_pl4 (run_all jobs acc).1.
Proof.
  revert acc. induction jobs as [|[stem e] jobs IH]; intros acc Hnd Hacc Hinv.
  - cbn. split; [exact Hacc | intros r Hr; apply Hinv, Hr].
  - rewrite run_all_cons. cbn [map fst] in Hnd, Hinv. apply NoDup_cons in Hnd as [Hfresh Hnd].
    destruct (job_step_facts stem e acc) as (Hother & _ & Hcase).
    apply IH; [exact Hnd | |].
    + destruct Hcase as [(-> & _)|(-> & _)]; [|exact Hacc].
      apply NoDup_app. split; [exact Hacc|]. split; [|apply NoDup_singleton].
      intros r Hr Hr'. apply list_elem_of_In in Hr, Hr'. destruct Hr' as [<-|[]].
      destruct (Hinv _ Hr) as [_ Hne]. apply (Hne stem); [left; reflexivity | reflexivity].
    + intros r Hr.
      assert (Hold : In r acc.2 ->
                r ∈ arquivo_pl4 (job_step stem e acc).1 /\
                forall s0, In s0 (map fst jobs) -> r <> pl4_name s0).
      { intros Hr0. destruct (Hinv r Hr0) as [Hin Hne]. split.
        - apply Hother; [apply Hne; left; reflexivity | exact Hin].
        - intros s0 Hs0. apply Hne. right. exact Hs0. }
      destruct Hcase as [(Heq & Hin & _)|(Heq & _)]; rewrite Heq in Hr; [|auto].
      apply in_app_or in Hr as [Hr|[<-|[]]]; [auto|].
      split; [exact Hin|]. intros s0 Hs0 Heq0. apply pl4_name_inj in Heq0 as <-.
      apply Hfresh, list_elem_of_In, Hs0.
Qed.

Lemma main_inv (fuel : nat) (env : main_env) (w w' : world) (results : list string) :
  runatp_exists env = true ->
  main fuel env w = Some (w', results) ->
  results = (run_all (atp_files env) (w, [])).2 /\
  arquivo_pl4 w' = arquivo_pl4 (run_all (atp_files env) (w, [])).1 /\
  nao_rodados w' = nao_rodados (run_all (atp_files env) (w, [])).1.
Proof.
  intros Hex. unfold main. rewrite Hex. cbn [negb].
  destruct (atp_files env) as [|job jobs] eqn:Hjobs; [intros [= <- <-]; auto|].
  destruct (submit_all _ _ _ _ _) as [k|]; [|discriminate].
  destruct (run_all (job :: jobs) (w, [])) as [w1 res].
  destruct (wait_below _ _ _ _); [|discriminate].
  intros [= <- <-]. cbn [fst snd].
  destruct (sweep_fold_outputs (sweep_rm env) (map_to_list (tmp w1)) w1) as [Ha Hn].
  unfold sweep. auto.
Qed.

(** X23. After a batch of [main] there is at most one result per card,
    every result is the .pl4 of a card of the batch that generated one and
    whose move succeeded, and, when the copies to the folder of cards not
    run succeed, every card is accounted for: its .pl4 is among the results
    or the card is in that folder, and nothing that was in the folder is
    lost. *)
Theorem main_accounts_for_every_card (fuel : nat) (env : main_env) (w w' : world)
        (results : list string) :
  runatp_exists env = true ->
  main fuel env w = Some (w', results) ->
  (length results <= length (atp_files env))%nat /\
  (forall r, In r results ->
     exists stem e, In (stem, e) (atp_files env) /\ r = pl4_name stem /\
                    pl4_generated e = true /\ move_ok e = true) /\
  ((forall stem e, In (stem, e) (atp_files env) ->
      q_copy_ok e = true /\ q_unlink_ok e = true) ->
   nao_rodados w ⊆ nao_rodados w' /\
   forall stem e, In (stem, e) (atp_files env) ->
     In (pl4_name stem) results \/ atp_name stem ∈ nao_rodados w').
Proof.
  intros Hex Hmain. destruct (main_inv fuel env w w' results Hex Hmain) as (-> & _ & Hn).
  destruct (run_all_results (atp_files env) (w, [])) as (new & Hres & Hlen & Hall).
  cbn [snd app] in Hres. rewrite Hres. split; [exact Hlen|].
  split; [intros r Hr; apply list_elem_of_In in Hr;
          exact (proj1 (Forall_forall _ _) Hall r Hr)|].
  intros Hq. rewrite Hn, <- Hres.
  apply (run_all_quarantine (atp_files env) (w, []) Hq).
Qed.

Lemma main_accounts_for_every_card_witness :
  exists w' results,
    main 1 (lote job_timeout Removed) mundo_vazio = Some (w', results) /\
    "caso.atp" ∈ nao_rodados w'.
Proof.
  assert (Hmain : exists out, main 1 (lote job_timeout Removed) mundo_vazio = Some out)
    by (eexists; vm_compute; reflexivity).
  destruct Hmain as [[w' results] Hmain]. exists w', results. split; [exact Hmain|].
  destruct (main_accounts_for_every_card 1 (lote job_timeout Removed) mundo_vazio w' results
              eq_refl Hmain) as (Hlen & _ & Hq).
  destruct Hq as [_ Hq].
  { intros stem e [[= <- <-]|[]]. split; reflexivity. }
  destruct (Hq "caso" job_timeout (or_introl eq_refl)) as [Hin|Hin]; [|exact Hin].
  exfalso. assert (Hnil : results = []).
  { destruct results as [|r rs]; [reflexivity|].
    assert (Hc : main 1 (lote job_timeout Removed) mundo_vazio
                 = Some ({| tmp := ∅; arquivo_pl4 := ∅; nao_rodados := {["caso.atp"]} |}, []))
      by (vm_compute; reflexivity).
    rewrite Hc in Hmain. discriminate. }
  rewrite Hnil in Hin. destruct Hin.
Defined.

(** X24. When the cards of the batch have distinct names, the results of
    [main] are pairwise distinct and every one of them is a file of the
    results folder after the batch. *)
Theorem main_results_are_saved (fuel : nat) (env : main_env) (w w' : world)
        (results : list string) :
  runatp_exists env = true ->
  NoDup (map fst (atp_files env)) ->
  main fuel env w = Some (w', results) ->
  NoDup results /\ forall r, In r results -> r ∈ arquivo_pl4 w'.
Proof.
  intros Hex Hnd Hmain. destruct (main_inv fuel env w w' results Hex Hmain) as (-> & -> & _).
  apply (run_all_saved (atp_files env) (w, []) Hnd); [apply NoDup_nil; exact I | intros r []].
Qed.

Lemma main_results_are_saved_witness :
  exists w' results,
    main 1 (lote job_movido Removed) mundo_vazio = Some (w', results) /\
    results = ["caso.pl4"] /\ "caso.pl4" ∈ arquivo_pl4 w'.
Proof.
  assert (Hmain : main 1 (lote job_movido Removed) mundo_vazio
                  = Some ({| tmp := ∅; arquivo_pl4 := {["caso.pl4"]}; nao_rodados := ∅ |},
                          ["caso.pl4"]))
    by (vm_compute; reflexivity).
  eexists _, _. split; [exact Hmain|]. split; [reflexivity|].
  destruct (main_results_are_saved 1 (lote job_movido Removed) mundo_vazio _ _ eq_refl
              ltac:(repeat constructor; set_solver) Hmain) as [_ Hin].
  apply Hin. left. reflexivity.
Defined.

(** ** [Pl4paraMatlab.py]: the converter runner *)

















(** X19. If the appearance timeout has already elapsed at the first
    reading of the clock, the directory is never searched and
    [TimeoutError] is raised, whatever the directory holds. *)
Theorem wait_with_elapsed_timeout_raises (fuel : nat) (env : wait_env)
        (dir_path stem : string) (appear_timeout_s : Z) :
  (1 <= fuel)%nat ->
  appear_timeout_s <= clock env 1%nat - clock env 0%nat ->
  _wait_for_mat_creation_and_stabilize fuel env dir_path stem appear_timeout_s
    = Some (Raise (TimeoutError (msg_timeout stem appear_timeout_s dir_path))).
Proof.
  intros Hf Hc. unfold _wait_for_mat_creation_and_stabilize.
  destruct fuel as [|fuel]; [lia|]. cbn [wait_appear].
  destruct (Z.ltb_spec (clock env 1%nat - clock env 0%nat) appear_timeout_s); [lia|].
  reflexivity.
Qed.

Lemma wait_with_elapsed_timeout_raises_witness :
  _wait_for_mat_creation_and_stabilize 1 env_estavel "ArquivoPL4" "caso" 0
    = Some (Raise (TimeoutError (msg_timeout "caso" 0 "ArquivoPL4"))).
Proof.
  apply (wait_with_elapsed_timeout_raises 1 env_estavel "ArquivoPL4" "caso" 0);
    [lia | vm_compute; discriminate].
Defined.




(** X21. The tally of [main] counts every result once: successes and
    failures add up to the number of results, and the successes are the
    results that carry a path. *)
Theorem conta_counts_every_result (results : list (option path)) (ok fail : nat) :
  let r := conta results ok fail in
  (r.1 + r.2 = ok + fail + length results)%nat /\
  r.1 = (ok + length (List.filter (fun x : option path => bool_decide (is_Some x)) results))%nat.
Proof.
  revert ok fail. induction results as [|[p|] rest IH]; intros ok fail; cbn [conta].
  - cbn. split; lia.
  - destruct (IH (S ok) fail) as [H1 H2]. cbn zeta in H1, H2. cbn [length List.filter].
    rewrite bool_decide_eq_true_2 by eauto. cbn [length]. split; lia.
  - destruct (IH ok (S fail)) as [H1 H2]. cbn zeta in H1, H2. cbn [length List.filter].
    rewrite bool_decide_eq_false_2 by (intros [x Hx]; discriminate). split; lia.
Qed.

(** *** One conversion as a whole *)



(** ** [CriaCartao.py]: the card generator *)

Lemma bytes_eqb_eq (a b : list byte) : bytes_eqb a b = true <-> a = b.
Proof.
  revert b. induction a as [|x a IH]; intros [|y b]; cbn [bytes_eqb];
    try (split; [discriminate | discriminate]); [split; reflexivity|].
  rewrite andb_true_iff, IH. split.
  - intros [Hx ->]. apply Byte.byte_dec_bl in Hx. subst. reflexivity.
  - intros [= -> ->]. split; [apply Byte.byte_dec_lb|]; reflexivity.
Qed.

Lemma endswith_split (line_b suffix : list byte) :
  endswith line_b suffix = true <->
  line_b = drop_last (length suffix) line_b ++ suffix.
Proof.
  unfold endswith, drop_last. split.
  - intros H. apply andb_prop in H as [Hl Hd]. apply bytes_eqb_eq in Hd.
    rewrite <- (take_drop (length line_b - length suffix) line_b) at 1.
    f_equal. exact Hd.
  - intros H. apply andb_true_intro.
    assert (Hlen : (length suffix <= length line_b)%nat).
    { apply (f_equal length) in H. rewrite length_app in H. lia. }
    split; [apply Nat.leb_le, Hlen|]. apply bytes_eqb_eq.
    rewrite H at 2. rewrite drop_app_length'; [reflexivity|].
    rewrite length_take. lia.
Qed.

(** X22. [_separa_eol] splits a line into content and line end whose
    concatenation is the line; the line end is CR LF, LF, CR or empty, it is
    empty only when the line ends in neither LF nor CR, and a content before
    a lone LF does not end in CR. *)
Theorem separa_eol_round_trip (line_b : list byte) :
  let (conteudo, eol) := _separa_eol line_b in
  conteudo ++ eol = line_b /\
  In eol [[CR; LF]; [LF]; [CR]; []] /\
  (eol = [] -> endswith line_b [LF] = false /\ endswith line_b [CR] = false) /\
  (eol = [LF] -> endswith conteudo [CR] = false).
Proof.
  unfold _separa_eol.
  destruct (endswith line_b [CR; LF]) eqn:H2.
  { apply endswith_split in H2. cbn [length] in H2. split; [symmetry; exact H2|].
    split; [left; reflexivity|]. split; discriminate. }
  destruct (endswith line_b [LF]) eqn:H1.
  { pose proof H1 as Hs. apply endswith_split in Hs. cbn [length] in Hs.
    split; [symmetry; exact Hs|]. split; [right; left; reflexivity|]. split; [discriminate|].
    intros _. destruct (endswith (drop_last 1 line_b) [CR]) eqn:Hc; [|reflexivity].
    apply endswith_split in Hc. cbn [length] in Hc.
    assert (Hboth : endswith line_b [CR; LF] = true); [|congruence].
    apply endswith_split. cbn [length]. rewrite Hs at 1. rewrite Hc at 1.
    rewrite <- app_assoc. cbn [app]. f_equal.
    unfold drop_last. rewrite take_take, length_take. f_equal. lia. }
  destruct (endswith line_b [CR]) eqn:H0.
  { apply endswith_split in H0. cbn [length] in H0. split; [symmetry; exact H0|].
    split; [right; right; left; reflexivity|]. split; discriminate. }
  split; [apply app_nil_r|]. split; [right; right; right; left; reflexivity|].
  split; [auto | discriminate].
Qed.

Lemma separa_eol_round_trip_witness :
  (_separa_eol [x41; CR; LF]).1 ++ (_separa_eol [x41; CR; LF]).2 = [x41; CR; LF].
Proof.
  pose proof (separa_eol_round_trip [x41; CR; LF]) as H.
  destruct (_separa_eol [x41; CR; LF]) as [conteudo eol]. destruct H as [H _]. exact H.
Defined.

(** *** The generated cards *)

Lemma separa_eol_concat (line_b : list byte) :
  (_separa_eol line_b).1 ++ (_separa_eol line_b).2 = line_b.
Proof.
  unfold _separa_eol.
  destruct (endswith line_b [CR; LF]) eqn:H2;
    [symmetry; apply (endswith_split line_b [CR; LF]), H2|].
  destruct (endswith line_b [LF]) eqn:H1;
    [symmetry; apply (endswith_split line_b [LF]), H1|].
  destruct (endswith line_b [CR]) eqn:H0;
    [symmetry; apply (endswith_split line_b [CR]), H0|].
  apply app_nil_r.
Qed.

Lemma endswith_app (a suffix : list byte) : endswith (a ++ suffix) suffix = true.
Proof.
  apply endswith_split. unfold drop_last. rewrite length_app.
  replace (length a + length suffix - length suffix)%nat with (length a) by lia.
  rewrite take_app_length. reflexivity.
Qed.

Lemma troca_na_linha_idx_length (troca : Z -> list byte -> list byte) linhas idx0 v :
  length (_troca_na_linha_idx troca linhas idx0 v) = length linhas.
Proof.
  unfold _troca_na_linha_idx. destruct (negb _); [reflexivity|].
  destruct (linhas !! Z.to_nat idx0) as [line_b|]; [|reflexivity].
  destruct (_separa_eol line_b). apply length_insert.
Qed.

Lemma troca_na_linha_idx_other (troca : Z -> list byte -> list byte) linhas idx0 v (j : nat) :
  Z.of_nat j <> idx0 -> _troca_na_linha_idx troca linhas idx0 v !! j = linhas !! j.
Proof.
  intros Hne. unfold _troca_na_linha_idx.
  destruct (Z.leb_spec 0 idx0); cbn [andb negb]; [|reflexivity].
  destruct (negb _); [reflexivity|].
  destruct (linhas !! Z.to_nat idx0) as [line_b|]; [|reflexivity].
  destruct (_separa_eol line_b). apply list_lookup_insert_ne. lia.
Qed.

Lemma troca_na_linha_idx_at (troca : Z -> list byte -> list byte) linhas idx0 v line_b :
  0 <= idx0 -> linhas !! Z.to_nat idx0 = Some line_b ->
  _troca_na_linha_idx troca linhas idx0 v !! Z.to_nat idx0 =
    Some (troca v (_separa_eol line_b).1 ++ (_separa_eol line_b).2).
Proof.
  intros H0 Hl. unfold _troca_na_linha_idx.
  pose proof (lookup_lt_Some _ _ _ Hl) as Hlt.
  destruct (Z.leb_spec 0 idx0); [|lia].
  destruct (Z.ltb_spec idx0 (Z.of_nat (length linhas))); [|lia].
  cbn [andb negb]. rewrite Hl. destruct (_separa_eol line_b) as [c eol]. cbn [fst snd].
  apply list_lookup_insert_eq. exact Hlt.
Qed.

(** X27. [_troca_na_linha_idx] keeps the number of lines and every line
    but the one at the index; an index out of range changes nothing; the
    line at the index becomes the substituted content followed by the line
    end it had, and is unchanged when the substitution leaves the content
    as it is. *)
Theorem troca_na_linha_idx_changes_one_line (troca : Z -> list byte -> list byte)
        (linhas : list (list byte)) (idx0 v : Z) :
  let novo := _troca_na_linha_idx troca linhas idx0 v in
  length novo = length linhas /\
  (forall j : nat, Z.of_nat j <> idx0 -> novo !! j = linhas !! j) /\
  (~ (0 <= idx0 < Z.of_nat (length linhas)) -> novo = linhas) /\
  (forall line_b, 0 <= idx0 -> linhas !! Z.to_nat idx0 = Some line_b ->
     let (conteudo, eol) := _separa_eol line_b in
     novo !! Z.to_nat idx0 = Some (troca v conteudo ++ eol) /\
     endswith (troca v conteudo ++ eol) eol = true /\
     (troca v conteudo = conteudo -> novo = linhas)).
Proof.
  intros novo. subst novo. split; [apply troca_na_linha_idx_length|].
  split; [intros j; apply troca_na_linha_idx_other|]. split.
  - intros Hout. unfold _troca_na_linha_idx.
    destruct (Z.leb_spec 0 idx0); [|reflexivity].
    destruct (Z.ltb_spec idx0 (Z.of_nat (length linhas))); [lia | reflexivity].
  - intros line_b H0 Hl.
    pose proof (troca_na_linha_idx_at troca linhas idx0 v line_b H0 Hl) as Hat.
    pose proof (separa_eol_concat line_b) as Hcat.
    destruct (_separa_eol line_b) as [conteudo eol]. cbn [fst snd] in Hat, Hcat.
    split; [exact Hat|]. split; [apply endswith_app|].
    intros Hid. apply list_eq. intros j.
    destruct (decide (j = Z.to_nat idx0)) as [->|Hne].
    + rewrite Hat, Hid, Hcat, Hl. reflexivity.
    + apply troca_na_linha_idx_other. lia.
Qed.

Lemma troca_na_linha_idx_changes_one_line_witness :
  _troca_na_linha_idx (fun _ c => c) [[x41; LF]; [x42; CR; LF]] 1 7
  = [[x41; LF]; [x42; CR; LF]].
Proof.
  pose proof (troca_na_linha_idx_changes_one_line (fun _ c => c)
                [[x41; LF]; [x42; CR; LF]] 1 7) as (_ & _ & _ & H).
  specialize (H [x42; CR; LF] ltac:(lia) eq_refl).
  destruct (_separa_eol [x42; CR; LF]) as [conteudo eol].
  destruct H as (_ & _ & H). apply H. reflexivity.
Defined.

(** X28. A generated card has the lines of the base card, except lines 66,
    67 and 68 (indices 65 to 67), which carry the substitution of tau, Rini
    and Rfim in front of their own line ends; a base card of at most 65
    lines is copied unchanged. *)
Theorem linhas_mod_changes_only_target_lines (troca : Z -> list byte -> list byte)
        (base : list (list byte)) (Rini Rfim tau : Z) :
  let card := linhas_mod troca base Rini Rfim tau in
  length card = length base /\
  (forall j : nat, j <> 65%nat -> j <> 66%nat -> j <> 67%nat -> card !! j = base !! j) /\
  (forall line_b, base !! 65%nat = Some line_b ->
     card !! 65%nat = Some (troca tau (_separa_eol line_b).1 ++ (_separa_eol line_b).2)) /\
  (forall line_b, base !! 66%nat = Some line_b ->
     card !! 66%nat = Some (troca Rini (_separa_eol line_b).1 ++ (_separa_eol line_b).2)) /\
  (forall line_b, base !! 67%nat = Some line_b ->
     card !! 67%nat = Some (troca Rfim (_separa_eol line_b).1 ++ (_separa_eol line_b).2)) /\
  ((length base <= 65)%nat -> card = base).
Proof.
  intros card. subst card. unfold linhas_mod. cbv zeta.
  change idx_tau_0 with 65. change idx_rini_0 with 66. change idx_rfim_0 with 67.
  repeat split.
  - rewrite !troca_na_linha_idx_length. reflexivity.
  - intros j H65 H66 H67. rewrite !troca_na_linha_idx_other by lia. reflexivity.
  - intros line_b Hl. rewrite !(troca_na_linha_idx_other _ _ _ _ 65) by lia.
    apply (troca_na_linha_idx_at troca base 65 tau line_b); [lia | exact Hl].
  - intros line_b Hl. rewrite (troca_na_linha_idx_other _ _ 67 _ 66) by lia.
    apply (troca_na_linha_idx_at troca _ 66 Rini line_b); [lia|].
    change (Z.to_nat 66) with 66%nat. rewrite (troca_na_linha_idx_other _ _ 65 _ 66) by lia.
    exact Hl.
  - intros line_b Hl.
    apply (troca_na_linha_idx_at troca _ 67 Rfim line_b); [lia|].
    change (Z.to_nat 67) with 67%nat.
    rewrite (troca_na_linha_idx_other _ _ 66 _ 67), (troca_na_linha_idx_other _ _ 65 _ 67) by lia.
    exact Hl.
  - intros Hshort.
    assert (Hout : forall linhas idx0 v, length linhas = length base -> 65 <= idx0 ->
              _troca_na_linha_idx troca linhas idx0 v = linhas).
    { intros linhas idx0 v Hlen Hidx. unfold _troca_na_linha_idx.
      destruct (Z.leb_spec 0 idx0); [|reflexivity].
      destruct (Z.ltb_spec idx0 (Z.of_nat (length linhas))); [lia | reflexivity]. }
    rewrite (Hout base 65 tau eq_refl) by lia.
    rewrite (Hout base 66 Rini eq_refl) by lia.
    apply Hout; [reflexivity | lia].
Qed.

Lemma linhas_mod_changes_only_target_lines_witness :
  linhas_mod (fun _ _ => [x39]) [[x41; LF]] 200 50 50 = [[x41; LF]].
Proof.
  pose proof (linhas_mod_changes_only_target_lines (fun _ _ => [x39]) [[x41; LF]] 200 50 50)
    as (_ & _ & _ & _ & _ & H).
  apply H. cbn. lia.
Defined.

Lemma pretty_N_go_sem_sublinhado (x : N) (s : string) :
  sem_sublinhado s = true -> sem_sublinhado (pretty_N_go x s) = true.
Proof.
  revert s. induction (N.lt_wf_0 x) as [x _ IH]. intros s Hs.
  destruct (N.eq_dec x 0%N) as [->|Hne]; [rewrite pretty_N_go_0; exact Hs|].
  rewrite pretty_N_go_step by lia. apply IH; [apply N.div_lt; lia|].
  cbn [sem_sublinhado]. rewrite Hs, andb_true_r.
  unfold pretty_N_char. repeat case_match; reflexivity.
Qed.

Lemma str_Z_sem_sublinhado (z : Z) : sem_sublinhado (str_Z z) = true.
Proof.
  assert (HN : forall x : N, sem_sublinhado (pretty x) = true).
  { intros x. unfold pretty, pretty_N. case_decide; [reflexivity|].
    apply pretty_N_go_sem_sublinhado. reflexivity. }
  unfold str_Z, pretty, pretty_Z. destruct z as [|p|p]; [reflexivity | apply HN |].
  change ("-" +:+ pretty p) with (String "-" (pretty p)). cbn [sem_sublinhado].
  exact (HN (Npos p)).
Qed.

Lemma split_at_underscore (a a' r r' : string) :
  sem_sublinhado a = true -> sem_sublinhado a' = true ->
  a +:+ String "_" r = a' +:+ String "_" r' -> a = a' /\ r = r'.
Proof.
  revert a'. induction a as [|c a IH]; intros [|c' a'] Ha Ha' H.
  - injection H as ->. auto.
  - exfalso. change (String "_" r = String c' (a' +:+ String "_" r')) in H.
    injection H as <- _. cbn in Ha'. discriminate.
  - exfalso. change (String c (a +:+ String "_" r) = String "_" r') in H.
    injection H as -> _. cbn in Ha. discriminate.
  - change (String c (a +:+ String "_" r) = String c' (a' +:+ String "_" r')) in H.
    injection H as -> H. cbn [sem_sublinhado] in Ha, Ha'.
    apply andb_prop in Ha as [_ Ha]. apply andb_prop in Ha' as [_ Ha'].
    destruct (IH a' Ha Ha' H) as [-> ->]. auto.
Qed.

Lemma nome_inj (Rini Rfim tau Rini' Rfim' tau' : Z) :
  nome Rini Rfim tau = nome Rini' Rfim' tau' -> Rini = Rini' /\ Rfim = Rfim' /\ tau = tau'.
Proof.
  unfold nome. intros H.
  change ("FAI_TAU" +:+ ?x) with (String "F" (String "A" (String "I" (String "_"
          (String "T" (String "A" (String "U" x))))))) in H.
  injection H as H.
  change ("_Rini" +:+ ?x) with (String "_" ("Rini" +:+ x)) in H.
  apply split_at_underscore in H as [Ht H]; [|apply str_Z_sem_sublinhado..].
  change ("Rini" +:+ ?x) with (String "R" (String "i" (String "n" (String "i" x)))) in H.
  injection H as H.
  change ("_Rfim" +:+ ?x) with (String "_" ("Rfim" +:+ x)) in H.
  apply split_at_underscore in H as [Hr H]; [|apply str_Z_sem_sublinhado..].
  change ("Rfim" +:+ ?x) with (String "R" (String "f" (String "i" (String "m" x)))) in H.
  injection H as H.
  unfold str_Z in *. apply (inj pretty) in Ht, Hr, H. auto.
Qed.

Lemma gerar_em_lookup (troca : Z -> list byte -> list byte) (base : list (list byte))
      (combos : list (Z * Z * Z)) (pasta : gmap string (list byte)) (p : string) :
  gerar_em troca base combos pasta !! p =
    match List.find (fun c => String.eqb (caminho (nome c.1.1 c.1.2 c.2)) p) (rev combos) with
    | Some c => Some (concat (linhas_mod troca base c.1.1 c.1.2 c.2))
    | None => pasta !! p
    end.
Proof.
  unfold gerar_em. revert pasta.
  induction combos as [|[[r f] t] combos IH] using rev_ind; intros pasta; [reflexivity|].
  rewrite foldl_app, rev_app_distr. cbn [foldl rev app List.find fst snd].
  unfold _salvar_cartao_bytes at 1.
  destruct (String.eqb_spec (caminho (nome r f t)) p) as [<-|Hne].
  - apply lookup_insert_eq.
  - rewrite lookup_insert_ne by exact Hne. apply IH.
Qed.

(** X29. [gerar] leaves, for every combination of the three value lists,
    the card of that combination under the name of that combination, and
    touches no other file; the name determines the combination, so no card
    overwrites another, and there are 702 combinations. *)
Theorem gerar_writes_one_card_per_combination (troca : Z -> list byte -> list byte)
        (base : list (list byte)) (pasta : gmap string (list byte)) :
  (forall Rini Rfim tau,
     In Rini Rini_values -> In Rfim Rfim_values -> In tau tau_values ->
     gerar troca base pasta !! caminho (nome Rini Rfim tau) =
       Some (concat (linhas_mod troca base Rini Rfim tau))) /\
  (forall p,
     (forall Rini Rfim tau,
        In Rini Rini_values -> In Rfim Rfim_values -> In tau tau_values ->
        p <> caminho (nome Rini Rfim tau)) ->
     gerar troca base pasta !! p = pasta !! p) /\
  (forall Rini Rfim tau Rini' Rfim' tau',
     caminho (nome Rini Rfim tau) = caminho (nome Rini' Rfim' tau') ->
     Rini = Rini' /\ Rfim = Rfim' /\ tau = tau') /\
  length (product Rini_values Rfim_values tau_values) = 702%nat.
Proof.
  assert (Hprod : forall r f t, In (r, f, t) (product Rini_values Rfim_values tau_values) <->
            In r Rini_values /\ In f Rfim_values /\ In t tau_values).
  { intros r f t. unfold product. rewrite <- !list_elem_of_In.
    rewrite list_elem_of_bind. split.
    - intros (x & Hx & Hr). apply list_elem_of_bind in Hx as (y & Hy & Hf).
      apply list_elem_of_bind in Hy as (z & Hz & Ht).
      apply list_elem_of_singleton in Hz. injection Hz as -> -> ->. auto.
    - intros (Hr & Hf & Ht). exists r. split; [|exact Hr].
      apply list_elem_of_bind. exists f. split; [|exact Hf].
      apply list_elem_of_bind. exists t. split; [|exact Ht].
      apply list_elem_of_singleton. reflexivity. }
  assert (Hinj : forall Rini Rfim tau Rini' Rfim' tau',
     caminho (nome Rini Rfim tau) = caminho (nome Rini' Rfim' tau') ->
     Rini = Rini' /\ Rfim = Rfim' /\ tau = tau').
  { intros r f t r' f' t' H. apply append_inj_r in H. apply nome_inj, H. }
  split; [|split; [|split; [exact Hinj | vm_compute; reflexivity]]].
  - intros r f t Hr Hf Ht. unfold gerar. rewrite gerar_em_lookup.
    destruct (List.find _ _) as [[[r' f'] t']|] eqn:Hfind.
    + apply find_some in Hfind as [_ Heq]. cbn [fst snd] in Heq.
      apply String.eqb_eq, Hinj in Heq as (-> & -> & ->). reflexivity.
    + exfalso. assert (Hin : In (r, f, t) (rev (product Rini_values Rfim_values tau_values)))
        by (apply in_rev; rewrite rev_involutive; apply Hprod; auto).
      apply (find_none _ _ Hfind) in Hin. cbn [fst snd] in Hin.
      rewrite String.eqb_refl in Hin. discriminate.
  - intros p Hp. unfold gerar. rewrite gerar_em_lookup.
    destruct (List.find _ _) as [[[r' f'] t']|] eqn:Hfind; [|reflexivity].
    exfalso. apply find_some in Hfind as [Hin Heq]. cbn [fst snd] in Heq.
    apply String.eqb_eq in Heq. apply in_rev, Hprod in Hin as (Hr & Hf & Ht).
    apply (Hp r' f' t' Hr Hf Ht). symmetry. exact Heq.
Qed.

Lemma gerar_writes_one_card_per_combination_witness :
  gerar (fun _ c => c) [[x41; LF]] ∅ !! "FAI_TAU50_Rini200_Rfim50.atp" = Some [x41; LF].
Proof.
  destruct (gerar_writes_one_card_per_combination (fun _ c => c) [[x41; LF]] ∅) as (H & _).
  apply (H 200 50 50); vm_compute; auto.
Defined.
